(** * forex-backtesting: the optimisation engine and the strategy base class

    A shallow embedding of
    - [lib/optimizers/optimizer.cpp] (C++): [convertTickToBson],
      [saveTicks], [prepareData], [getDataPropertyCount], [loadData],
      [buildMapConfigurations], [buildConfigurations], [optimize];
    - the strategy base class (JavaScript): [getWinRate], [tick],
      [getResults], [addPosition], [closeExpiredPositions];
    - the [ReversalsCombined] strategy (JavaScript): [backtest].

    Conventions.
    - A C++ [double] and a JavaScript number are IEEE 754 binary64 values,
      modelled by [spec_float] with precision 53 and maximal exponent 1024.
    - A [std::map<std::string, V>] that is only read and written by key is a
      [gmap string V]; a [std::map] or [std::vector] whose iteration order
      is what the code walks is the list of its entries in that order. A
      map that is both written by key and iterated is a [gmap] whose
      entries are put in ascending key order where the code iterates.
    - Objects reached through pointers or references live in an explicit
      store, so that two pointers to one object see the same contents.
    - Code that can fail returns an [outcome]: normal completion, a thrown
      exception, or (C++) undefined behaviour such as an access outside an
      allocation.
    - Counters and indices that start at zero and are incremented are
      [nat]: they stay far below the range of [int] and of exact integers
      in a JavaScript number for any data that fits in memory.
    - [printf] and progress output are not modelled, but a counter that
      the progress code changes is. *)

From Stdlib Require Import ZArith List Bool Lia SpecFloat.
From stdpp Require Import gmap strings list fin_maps sorting.

(** ** IEEE 754 binary64 *)

Definition double : Type := spec_float.
Definition prec : Z := 53.
Definition emax : Z := 1024.

Definition double_of_Z (z : Z) : double := binary_normalize prec emax z 0 false.
Definition dzero : double := S754_zero false.
Definition dadd : double -> double -> double := SFadd prec emax.
Definition dsub : double -> double -> double := SFsub prec emax.
Definition ddiv : double -> double -> double := SFdiv prec emax.
Definition dlt : double -> double -> bool := SFltb.
Definition dle : double -> double -> bool := SFleb.
Definition deq : double -> double -> bool := SFeqb.

(** ** Outcomes of running code *)

Inductive outcome (A : Type) : Type :=
| Done (a : A)              (* normal completion *)
| Thrown (what : string)    (* an exception leaves the function *)
| Undefined (why : string)  (* undefined behaviour *)
| OutOfFuel.                (* the bound given to a loop or recursion ran out *)
Arguments Done {A} a.
Arguments Thrown {A} what.
Arguments Undefined {A} why.
Arguments OutOfFuel {A}.

Global Instance outcome_ret : MRet outcome := @Done.
Global Instance outcome_bind : MBind outcome := fun A B f m =>
  match m with
  | Done a => f a
  | Thrown what => Thrown what
  | Undefined why => Undefined why
  | OutOfFuel => OutOfFuel
  end.

(** A loop over a container whose body may fail: the body runs on the
    elements in order and the first failure leaves the loop. *)
Fixpoint foldM {A St : Type} (body : St -> A -> outcome St) (l : list A)
  (s : St) : outcome St :=
  match l with
  | [] => Done s
  | x :: l' => s' ← body s x; foldM body l' s'
  end.

(** [m[k]] on a [std::map]: a missing key is inserted with the value-
    initialised mapped value, and that value is returned. *)
Definition subscript {V : Type} (dflt : V) (k : string) (m : gmap string V)
  : V * gmap string V :=
  match m !! k with
  | Some v => (v, m)
  | None => (dflt, <[k := dflt]> m)
  end.

(** [m[k]] on a [std::map] given by its entries in iteration order, read
    only for a key that was taken from the map itself. *)
Fixpoint assoc {V : Type} (k : string) (m : list (string * V)) : option V :=
  match m with
  | [] => None
  | (k', v) :: m' => if decide (k' = k) then Some v else assoc k m'
  end.

(** [v[i] = x] on a [std::vector]: writing at or past [size()] is undefined
    behaviour and does not grow the vector. *)
Definition vector_set {A : Type} (v : list A) (i : nat) (x : A) : outcome (list A) :=
  if decide (i < length v) then Done (<[i := x]> v)
  else Undefined "std::vector subscript past size()".

(** The iteration of a [std::map<std::string, V>] from [begin()] to
    [end()]: its entries in ascending order of the keys, which
    [std::less<std::string>] compares byte by byte. *)
Definition in_key_order {V : Type} (m : gmap string V) : list (string * V) :=
  merge_sort (fun a b => Is_true (String.leb a.1 b.1)) (map_to_list m).

(** A [double] passed where the callee takes an [int32_t]: the value is
    truncated toward zero; when the truncated value does not fit in 32
    bits, or the [double] is an infinity or a NaN, the conversion is
    undefined behaviour. *)
Definition int32_of_double (d : double) : outcome Z :=
  match d with
  | S754_zero _ => Done 0%Z
  | S754_finite s m e =>
      let magnitude :=
        if (0 <=? e)%Z then Z.shiftl (Z.pos m) e else Z.shiftr (Z.pos m) (- e) in
      let value := if (s : bool) then (- magnitude)%Z else magnitude in
      if decide (- 2 ^ 31 <= value <= 2 ^ 31 - 1)%Z then Done value
      else Undefined "double to int32_t out of range"
  | S754_infinity _ => Undefined "double to int32_t out of range"
  | S754_nan => Undefined "double to int32_t out of range"
  end.

Module Optimizer.

(** *** Types of optimizer.h

    The header that declares the class and its types is not among the
    sources; each type below is given as the specification describes it
    and as the member functions of optimizer.cpp use it. *)

(** Modelled from the spec: the mapped type of a candidate, declared in
    optimizer.h. A candidate assigns to a configuration field either a
    literal number or a symbolic column name (spec, section 3); the code
    tests it with [type() == typeid(std::string)] and reads it with
    [boost::get<std::string>] and [boost::get<double>]. *)
Inductive OptionValue : Type :=
| ColumnName (name : string)
| Literal (d : double).

(** One candidate, [std::map<std::string, boost::variant<...>>], in
    iteration order. *)
Abbreviation Candidate := (list (string * OptionValue)).
(** [ConfigurationOption], a [std::vector] of candidates: one axis. *)
Abbreviation ConfigurationOption := (list Candidate).
(** [std::map<std::string, ConfigurationOption>] in iteration order. *)
Abbreviation Options := (list (string * ConfigurationOption)).

(** Modelled from the spec: the mapped type of [MapConfiguration],
    declared in optimizer.h. A partial configuration holds, per field, a
    column index or a literal number (spec, section 3); the code assigns
    it an [int] from [dataIndex] or a [double], and reads it back with
    [boost::get<int>] and [boost::get<double>]. *)
Inductive MapValue : Type :=
| IntValue (i : Z)
| DoubleValue (d : double).

Abbreviation MapConfiguration := (gmap string MapValue).

(** Modelled from the spec: [struct Configuration], declared outside the
    sources. A configuration is a fully resolved point: column indices
    for the fixed fields and for the fields given by column name, and
    literal thresholds (spec, sections 3 and 4.3). The members are the
    ones [buildConfigurations] assigns, with the types it reads for them. *)
Record Configuration : Type := mkConfiguration {
  c_timestamp : Z;
  c_open : Z;
  c_high : Z;
  c_low : Z;
  c_close : Z;
  c_sma13 : Z;
  c_ema50 : Z;
  c_ema100 : Z;
  c_ema200 : Z;
  c_rsi : Z;
  c_stochasticD : Z;
  c_stochasticK : Z;
  c_prChannelUpper : Z;
  c_prChannelLower : Z;
  c_rsiOverbought : double;
  c_rsiOversold : double;
  c_stochasticOverbought : double;
  c_stochasticOversold : double
}.

(** One row of the matrix: [malloc]ed cells, [None] until written. *)
Abbreviation Row := (list (option double)).
(** The matrix [double **data]: [malloc]ed row pointers, [None] until a
    row is allocated for the slot. *)
Abbreviation Matrix := (list (option Row)).

(** Modelled from the spec: the data members of [class Optimizer],
    declared in optimizer.h; they are the ones the constructor and the
    member functions use: the row count, the row-major matrix and the
    column index (spec, section 3). *)
Record Optimizer : Type := mkOptimizer {
  strategyName : string;
  symbol : string;
  group : Z;
  dataCount : Z;
  data : Matrix;
  dataIndex : gmap string Z
}.

Definition set_dataIndex (di : gmap string Z) (this : Optimizer) : Optimizer :=
  mkOptimizer (strategyName this) (symbol this) (group this) (dataCount this)
    (data this) di.

Definition set_dataCount (n : Z) (this : Optimizer) : Optimizer :=
  mkOptimizer (strategyName this) (symbol this) (group this) n (data this)
    (dataIndex this).

Definition set_data (d : Matrix) (this : Optimizer) : Optimizer :=
  mkOptimizer (strategyName this) (symbol this) (group this) (dataCount this) d
    (dataIndex this).

(** [Optimizer::Optimizer] *)
Definition new_Optimizer (strategyName symbol : string) (group : Z) : Optimizer :=
  mkOptimizer strategyName symbol group 0 [] ∅.

(** *** buildMapConfigurations, buildConfigurations *)

(** The store of [MapConfiguration] objects, by address. *)
Abbreviation MapStore := (gmap nat MapConfiguration).

(** The assignment to the entry [key] of the map [current] points to. *)
Definition store_field (current : nat) (key : string) (value : MapValue)
  (store : MapStore) : outcome MapStore :=
  match store !! current with
  | Some m => Done (<[current := <[key := value]> m]> store)
  | None => Undefined "dereferenced a pointer to no MapConfiguration"
  end.

(** The body of the loop over the values of one candidate (lines 292-299):
    a column name goes through [this->dataIndex[...]], a number is copied. *)
Definition assignValue (current : nat) (st : Optimizer * MapStore)
  (entry : string * OptionValue) : outcome (Optimizer * MapStore) :=
  let '(this, store) := st in
  match entry.2 with
  | ColumnName name =>
      let '(index, dataIndex') := subscript 0%Z name (dataIndex this) in
      store' ← store_field current entry.1 (IntValue index) store;
      Done (set_dataIndex dataIndex' this, store')
  | Literal d =>
      store' ← store_field current entry.1 (DoubleValue d) store;
      Done (this, store')
  end.

(** [Optimizer::buildMapConfigurations]. [results] is the vector behind the
    pointer of that name, given as the addresses it holds; [current] is
    the address of the one accumulator every call shares. The recursion on
    [optionIndex] is bounded by [fuel]; one more than the number of axes
    is always enough. *)
Fixpoint buildMapConfigurations (fuel : nat) (options : Options)
  (optionIndex : nat) (current : nat)
  (st : list nat * (Optimizer * MapStore))
  : outcome (list nat * (Optimizer * MapStore)) :=
  match fuel with
  | O => OutOfFuel
  | S fuel' =>
      let allKeys := options.*1 in
      match allKeys !! optionIndex with
      | None => Undefined "allKeys[optionIndex] past size()"
      | Some optionKey =>
          let configurationOptions := default [] (assoc optionKey options) in
          foldM (fun st candidate =>
                   let '(results, mem) := st in
                   mem' ← foldM (assignValue current) candidate mem;
                   if decide (optionIndex + 1 < length allKeys)
                   then buildMapConfigurations fuel' options (optionIndex + 1)
                          current (results, mem')
                   else Done (results ++ [current], mem'))
                configurationOptions st
      end
  end.

(** [boost::get<int>] and [boost::get<double>] *)
Definition get_int (v : MapValue) : outcome Z :=
  match v with
  | IntValue i => Done i
  | DoubleValue _ => Thrown "boost::bad_get"
  end.

Definition get_double (v : MapValue) : outcome double :=
  match v with
  | DoubleValue d => Done d
  | IntValue _ => Thrown "boost::bad_get"
  end.

(** A member is set only when [find] meets the key, from
    [boost::get<T>] of the entry. *)
Definition int_field (m : MapConfiguration) (key : string) (old : Z) : outcome Z :=
  match m !! key with
  | Some v => get_int v
  | None => Done old
  end.

Definition double_field (m : MapConfiguration) (key : string) (old : double)
  : outcome double :=
  match m !! key with
  | Some v => get_double v
  | None => Done old
  end.

(** [new Configuration()]: value-initialisation, every member zero. *)
Definition new_Configuration : Configuration :=
  mkConfiguration 0 0 0 0 0 0 0 0 0 0 0 0 0 0 dzero dzero dzero dzero.

(** The body of the conversion loop of [buildConfigurations] (lines
    319-374) for the [MapConfiguration] at address [p]. *)
Definition convertMapConfiguration (store : MapStore)
  (st : list Configuration * Optimizer) (p : nat)
  : outcome (list Configuration * Optimizer) :=
  let '(configurations, this) := st in
  match store !! p with
  | None => Undefined "dereferenced a pointer to no MapConfiguration"
  | Some m =>
      let c := new_Configuration in
      let '(timestamp, di) := subscript 0%Z "timestamp" (dataIndex this) in
      let '(open, di) := subscript 0%Z "open" di in
      let '(high, di) := subscript 0%Z "high" di in
      let '(low, di) := subscript 0%Z "low" di in
      let '(close, di) := subscript 0%Z "close" di in
      sma13 ← int_field m "sma13" (c_sma13 c);
      ema50 ← int_field m "ema50" (c_ema50 c);
      ema100 ← int_field m "ema100" (c_ema100 c);
      ema200 ← int_field m "ema200" (c_ema200 c);
      rsi ← int_field m "rsi" (c_rsi c);
      stochasticD ← int_field m "stochasticD" (c_stochasticD c);
      stochasticK ← int_field m "stochasticK" (c_stochasticK c);
      prChannelUpper ← int_field m "prChannelUpper" (c_prChannelUpper c);
      prChannelLower ← int_field m "prChannelLower" (c_prChannelLower c);
      rsiOverbought ← double_field m "rsiOverbought" (c_rsiOverbought c);
      rsiOversold ← double_field m "rsiOversold" (c_rsiOversold c);
      stochasticOverbought ←
        double_field m "stochasticOverbought" (c_stochasticOverbought c);
      stochasticOversold ←
        double_field m "stochasticOversold" (c_stochasticOversold c);
      Done (configurations ++
              [mkConfiguration timestamp open high low close sma13 ema50 ema100
                 ema200 rsi stochasticD stochasticK prChannelUpper
                 prChannelLower rsiOverbought rsiOversold stochasticOverbought
                 stochasticOversold],
            set_dataIndex di this)
  end.

(** [Optimizer::buildConfigurations]. Modelled from the spec: the call
    [buildMapConfigurations(options)] relies on default arguments declared
    in optimizer.h, outside the sources; the expansion starts at the first
    axis with no result yet and an empty partial configuration (spec,
    section 4.3), so the defaults are index 0, a new empty [results]
    vector and a new empty [MapConfiguration] for [current]. *)
Definition buildConfigurations (options : Options) (this : Optimizer)
  : outcome (list Configuration * Optimizer) :=
  let current := 0 in
  '(mapConfigurations, (this', store)) ←
    buildMapConfigurations (S (length options)) options 0 current
      ([], (this, {[current := ∅]}));
  foldM (convertMapConfiguration store) mapConfigurations ([], this').

(** *** convertTickToBson, saveTicks, prepareData *)

(** Modelled from the spec: [Tick], declared outside the sources, is a
    mapping of field name to numeric value (spec, section 3); the code
    uses it as a [std::map<std::string, double>]. *)
Abbreviation Tick := (gmap string double).
(** The store of [Tick] objects, by address. *)
Abbreviation TickStore := (gmap nat Tick).

(** A document of the [datapoints] collection, as [saveTicks] writes it.
    The two group tags are the 32-bit integers [BSON_APPEND_INT32]
    stores; the data subdocument lists its fields, all doubles, in
    document order. *)
Record bson : Type := mkBson {
  b_symbol : string;
  b_testingGroups : Z;
  b_validationGroups : Z;
  b_data : list (string * double)
}.

(** [Optimizer::convertTickToBson]: [at] throws on a missing key, and the
    [double] it returns is converted to the [int32_t] that
    [BSON_APPEND_INT32] takes (lines 21-22, one tag after the other); the
    two group keys are erased from the tick itself; the remaining
    properties are appended to the data subdocument in the order the
    iterator of the map gives them. *)
Definition convertTickToBson (this : Optimizer) (tick : Tick) : outcome (bson * Tick) :=
  match tick !! "testingGroups" with
  | None => Thrown "std::out_of_range"
  | Some testingGroups =>
      testingGroups ← int32_of_double testingGroups;
      match tick !! "validationGroups" with
      | None => Thrown "std::out_of_range"
      | Some validationGroups =>
          validationGroups ← int32_of_double validationGroups;
          let tick' := delete "validationGroups" (delete "testingGroups" tick) in
          Done (mkBson (symbol this) testingGroups validationGroups
                  (in_key_order tick'), tick')
      end
  end.

(** What ingestion works on besides the optimizer object: the ticks, the
    [datapoints] collection, and the record of the batches that were
    committed to it, each batch as the addresses of its ticks. *)
Record Ingest : Type := mkIngest {
  tickStore : TickStore;
  datapoints : list bson;
  persisted : list (list nat)
}.

(** The insertion loop of [saveTicks] (lines 56-60). *)
Definition insertTick (this : Optimizer) (st : TickStore * list bson) (p : nat)
  : outcome (TickStore * list bson) :=
  let '(store, documents) := st in
  match store !! p with
  | None => Undefined "dereferenced a pointer to no Tick"
  | Some tick =>
      '(document, tick') ← convertTickToBson this tick;
      Done (<[p := tick']> store, documents ++ [document])
  end.

(** [Optimizer::saveTicks] *)
Definition saveTicks (this : Optimizer) (ticks : list nat) (w : Ingest) : outcome Ingest :=
  if decide (length ticks = 0) then Done w
  else
    '(store, documents) ← foldM (insertTick this) ticks (tickStore w, []);
    Done (mkIngest store (datapoints w ++ documents) (persisted w ++ [ticks])).

(** [delete cumulativeTicks[j]] for [j] below [n]. *)
Fixpoint deleteTicks (cumulativeTicks : list nat) (n : nat) (store : TickStore)
  : outcome TickStore :=
  match n with
  | O => Done store
  | S n' =>
      match cumulativeTicks with
      | [] => Undefined "std::vector subscript past size()"
      | p :: rest =>
          match store !! p with
          | None => Undefined "deleted a pointer to no Tick"
          | Some _ => deleteTicks rest n' (delete p store)
          end
      end
  end.

(** The assignment to the entry [key] of the tick at [p]. *)
Definition setTickField (p : nat) (store : TickStore) (entry : string * double)
  : outcome TickStore :=
  match store !! p with
  | None => Undefined "dereferenced a pointer to no Tick"
  | Some tick => Done (<[p := <[entry.1 := entry.2]> tick]> store)
  end.

(** The subscript read of the entry [key] of the tick at [p]. *)
Definition getTickField (p : nat) (key : string) (store : TickStore)
  : outcome (double * TickStore) :=
  match store !! p with
  | None => Undefined "dereferenced a pointer to no Tick"
  | Some tick =>
      let '(v, tick') := subscript dzero key tick in
      Done (v, <[p := tick']> store)
  end.

Section Ingestion.

(** The studies are collaborators behind [class Study]: [setData] followed
    by [tick] takes the study to its next state given the window (the
    vector of tick addresses, and the ticks behind them), and
    [getTickOutputs] reads the outputs of the last tick in map order. *)
Variable Study : Type.
Variable study_tick : Study -> TickStore -> list nat -> Study.
Variable getTickOutputs : Study -> list (string * double).
Variable getOutputMap : Study -> list (string * string).

(** [Optimizer::getDataPropertyCount] *)
Definition getDataPropertyCount (studies : list Study) : nat :=
  fold_left (fun propertyCount study => propertyCount + length (getOutputMap study))
    studies 0.

(** The body of the loop of [prepareData] (lines 88-166) for the tick at
    address [tick]. The thread pool runs the studies' [tick] side by side,
    each on its own object, and is drained before the outputs are read. *)
Definition prepareTick (this : Optimizer)
  (st : list nat * (list Study * Ingest)) (tick : nat)
  : outcome (list nat * (list Study * Ingest)) :=
  let '(cumulativeTicks, (studies, w)) := st in
  let previousTick := last cumulativeTicks in
  '(gap, store) ←
    (match previousTick with
     | None => Done (false, tickStore w)
     | Some previous =>
         '(t, store) ← getTickField tick "timestamp" (tickStore w);
         '(t0, store) ← getTickField previous "timestamp" store;
         Done (dlt (double_of_Z 60) (dsub t t0), store)
     end : outcome (bool * TickStore));
  let w := mkIngest store (datapoints w) (persisted w) in
  '(cumulativeTicks, w) ←
    (if (gap : bool) then
       w ← saveTicks this cumulativeTicks w;
       store ← deleteTicks cumulativeTicks (length cumulativeTicks) (tickStore w);
       Done ([], mkIngest store (datapoints w) (persisted w))
     else Done (cumulativeTicks, w));
  let cumulativeTicks := cumulativeTicks ++ [tick] in
  let studies :=
    map (fun study => study_tick study (tickStore w) cumulativeTicks) studies in
  store ← foldM (fun store study => foldM (setTickField tick) (getTickOutputs study) store)
            studies (tickStore w);
  let w := mkIngest store (datapoints w) (persisted w) in
  if decide (2000 <= length cumulativeTicks) then
    let firstCumulativeTicks :=
      take (length cumulativeTicks - 1000) cumulativeTicks in
    w ← saveTicks this firstCumulativeTicks w;
    store ← deleteTicks cumulativeTicks 1000 (tickStore w);
    Done (drop (length cumulativeTicks - 1000) cumulativeTicks,
          (studies, mkIngest store (datapoints w) (persisted w)))
  else Done (cumulativeTicks, (studies, w)).

(** [Optimizer::prepareData]: the window [cumulativeTicks] is a local of the
    function; what is left in it when the loop ends goes out of scope with
    it. The result also gives that last window. *)
Definition prepareData (this : Optimizer) (ticks : list nat)
  (studies : list Study) (w : Ingest)
  : outcome (list nat * (list Study * Ingest)) :=
  foldM (prepareTick this) ticks ([], (studies, w)).

End Ingestion.

(** *** loadData *)

(** [this->data[dataPointIndex][propertyIndex] = value] *)
Definition writeCell (dataPointIndex propertyIndex : nat) (value : double)
  (data : Matrix) : outcome Matrix :=
  match data !! dataPointIndex with
  | Some (Some row) =>
      row' ← vector_set row propertyIndex (Some value);
      Done (<[dataPointIndex := Some row']> data)
  | _ => Undefined "write through a row pointer that was never set"
  end.

(** The loop over the properties of the data subdocument (lines 237-254). *)
Definition loadProperty (dataPointIndex : nat) (st : nat * Optimizer)
  (property : string * double) : outcome (nat * Optimizer) :=
  let '(propertyIndex, this) := st in
  data' ← writeCell dataPointIndex propertyIndex property.2 (data this);
  let this := set_data data' this in
  let this :=
    if decide (dataCount this = 0%Z)
    then set_dataIndex (<[property.1 := Z.of_nat propertyIndex]> (dataIndex this)) this
    else this in
  Done (S propertyIndex, this).

(** The loop over the query results (lines 224-261). *)
Definition loadDocument (dataPropertyCount : nat) (st : nat * Optimizer)
  (document : bson) : outcome (nat * Optimizer) :=
  let '(dataPointIndex, this) := st in
  data' ← vector_set (data this) dataPointIndex (Some (replicate dataPropertyCount None));
  '(_, this) ← foldM (loadProperty dataPointIndex) (b_data document)
                 (0, set_data data' this);
  Done (S dataPointIndex, this).

(** [Optimizer::loadData]. [count] is what the count query returns for the
    symbol (negative on failure), [cursor] the documents the find query
    yields in its order, [dataPropertyCount] the value of
    [getDataPropertyCount()]. *)
Definition loadData (count : Z) (cursor : list bson) (dataPropertyCount : nat)
  (this : Optimizer) : outcome Optimizer :=
  let this := set_dataCount count this in
  if decide (dataCount this < 0)%Z then Thrown "std::runtime_error"
  else
    let this := set_data (replicate (Z.to_nat (dataCount this)) None) this in
    '(_, this) ← foldM (loadDocument dataPropertyCount) cursor (0, this);
    Done this.

(** *** optimize *)

Section Optimize.

(** The strategies are collaborators: [create] stands for
    [OptimizationStrategyFactory::create], [backtest] for the virtual
    [Strategy::backtest], which changes only the strategy it is called on. *)
Variable Strategy : Type.
Variable create : string -> string -> gmap string Z -> Z -> Configuration -> Strategy.
Variable backtest : Strategy -> Row -> double -> double -> Strategy.

(** The strategy preparation loop (lines 393-396); [i] is the distance of
    the iterator from [begin()]. *)
Fixpoint prepareStrategies (this : Optimizer) (i : nat)
  (configurations : list Configuration) (strategies : list Strategy)
  : outcome (list Strategy) :=
  match configurations with
  | [] => Done strategies
  | configuration :: rest =>
      strategies' ←
        vector_set strategies i
          (create (strategyName this) (symbol this) (dataIndex this) (group this)
             configuration);
      prepareStrategies this (S i) rest strategies'
  end.

(** One task of the pool (lines 406-409): the strategy at position [k] is
    given row [i]. The call is recorded as [(i, k)]. *)
Definition backtestTask (this : Optimizer) (investment profitability : double)
  (i : nat) (st : list Strategy * list (nat * nat)) (strategy : Strategy)
  : outcome (list Strategy * list (nat * nat)) :=
  let '(done, calls) := st in
  match data this !! i with
  | Some (Some row) =>
      Done (done ++ [backtest strategy row investment profitability],
            calls ++ [(i, length done)])
  | _ => Undefined "read through a row pointer that was never set"
  end.

(** The loop over the data ticks (lines 402-418). After the pool is
    drained the progress computation pre-increments [i], and the [for]
    statement increments it again. *)
Fixpoint backtestLoop (fuel : nat) (this : Optimizer)
  (investment profitability : double) (i : nat)
  (st : list Strategy * list (nat * nat))
  : outcome (list Strategy * list (nat * nat)) :=
  match fuel with
  | O => OutOfFuel
  | S fuel' =>
      if decide (Z.of_nat i < dataCount this)%Z then
        let '(strategies, calls) := st in
        st' ← foldM (backtestTask this investment profitability i) strategies
                ([], calls);
        let i := S i in
        let i := S i in
        backtestLoop fuel' this investment profitability i st'
      else Done st
  end.

(** [Optimizer::optimize]: the strategies after the run, and the calls of
    [backtest] in the order they were issued. *)
Definition optimize (this : Optimizer) (configurations : list Configuration)
  (investment profitability : double)
  : outcome (list Strategy * list (nat * nat)) :=
  strategies ← prepareStrategies this 0 configurations [];
  backtestLoop (S (Z.to_nat (dataCount this))) this investment profitability 0
    (strategies, []).

End Optimize.

(** *** Notions the statements about the optimizer use *)

(** The ticks committed so far, batch after batch. *)
Definition committed (w : Ingest) : list nat := concat (persisted w).

(** The matrix has as many row slots as [dataCount] says. *)
Definition shaped (this : Optimizer) : Prop :=
  length (data this) = Z.to_nat (dataCount this) /\ (0 <= dataCount this)%Z.

(** What [assignValue] stores for an option value, given the column index
    it reads. *)
Definition resolved (columns : gmap string Z) (v : OptionValue) : MapValue :=
  match v with
  | ColumnName name => IntValue (default 0%Z (columns !! name))
  | Literal d => DoubleValue d
  end.

(** The number of candidates of each axis, and their product. *)
Definition axisSizes (options : Options) : list nat :=
  map (fun axis => length axis.2) options.

Definition product (sizes : list nat) : nat := foldr Nat.mul 1 sizes.

(** The configuration the conversion loop builds from the accumulator [m]
    and the five basic column indices. *)
Definition configurationOf (m : MapConfiguration) (timestamp open high low close : Z)
  : outcome Configuration :=
  let c := new_Configuration in
  sma13 ← int_field m "sma13" (c_sma13 c);
  ema50 ← int_field m "ema50" (c_ema50 c);
  ema100 ← int_field m "ema100" (c_ema100 c);
  ema200 ← int_field m "ema200" (c_ema200 c);
  rsi ← int_field m "rsi" (c_rsi c);
  stochasticD ← int_field m "stochasticD" (c_stochasticD c);
  stochasticK ← int_field m "stochasticK" (c_stochasticK c);
  prChannelUpper ← int_field m "prChannelUpper" (c_prChannelUpper c);
  prChannelLower ← int_field m "prChannelLower" (c_prChannelLower c);
  rsiOverbought ← double_field m "rsiOverbought" (c_rsiOverbought c);
  rsiOversold ← double_field m "rsiOversold" (c_rsiOversold c);
  stochasticOverbought ←
    double_field m "stochasticOverbought" (c_stochasticOverbought c);
  stochasticOversold ←
    double_field m "stochasticOversold" (c_stochasticOversold c);
  Done (mkConfiguration timestamp open high low close sma13 ema50 ema100
          ema200 rsi stochasticD stochasticK prChannelUpper
          prChannelLower rsiOverbought rsiOversold stochasticOverbought
          stochasticOversold).

Definition column (columns : gmap string Z) (name : string) : Z :=
  default 0%Z (columns !! name).

End Optimizer.

(** ** JavaScript values *)

(** The value of a property that holds a number when it is present:
    [None] is [undefined]. *)
Abbreviation jsval := (option double).
(** A data point: an object whose properties are numbers. *)
Abbreviation DataPoint := (gmap string double).

(** Truthiness: [undefined], [0], [-0] and [NaN] are falsy. *)
Definition truthy (v : jsval) : bool :=
  match v with
  | None => false
  | Some (S754_zero _) => false
  | Some S754_nan => false
  | Some _ => true
  end.

(** Relational operators; [undefined] converts to [NaN], and every
    comparison with [NaN] is false. *)
Definition js_lt (a b : jsval) : bool :=
  match a, b with
  | Some x, Some y => dlt x y
  | _, _ => false
  end.
Definition js_le (a b : jsval) : bool :=
  match a, b with
  | Some x, Some y => dle x y
  | _, _ => false
  end.
Definition js_gt (a b : jsval) : bool := js_lt b a.
Definition js_ge (a b : jsval) : bool := js_le b a.

(** [v + 1000] *)
Definition js_add_1000 (v : jsval) : double :=
  match v with
  | Some x => dadd x (double_of_Z 1000)
  | None => S754_nan
  end.

Definition double_of_nat (n : nat) : double := double_of_Z (Z.of_nat n).

Module Base.

Section Base.

(** Studies and positions are collaborators. A position is an object; the
    strategy holds references to positions, and [close] changes the object
    it is called on. *)
Variable Study : Type.
Variable Position : Type.
Variable getHasExpired : Position -> double -> bool.
Variable close : Position -> double -> double -> Position.
Variable getProfitLoss : Position -> double.
Variable getInvestment : Position -> double.

(** The properties the constructor [Base] sets. *)
Record Base : Type := mkBase {
  symbol : string;
  studies : list Study;
  openPositions : list nat;
  profitLoss : double;
  cumulativeData : list DataPoint;
  cumulativeDataCount : nat;
  winCount : nat;
  loseCount : nat;
  showTrades : bool;
  consecutiveLosses : nat;
  maximumConsecutiveLosses : nat;
  minimumProfitLoss : double
}.

(** [function Base(symbol)] *)
Definition new_Base (symbol : string) : Base :=
  mkBase symbol [] [] dzero [] 0 0 0 false 0 0 (double_of_Z 99999).

(** The position objects, by reference. *)
Definition Heap : Type := nat -> Position.

Definition heap_set (r : nat) (p : Position) (heap : Heap) : Heap :=
  fun r' => if decide (r' = r) then p else heap r'.

(** [Base.prototype.getWinRate], with the divisions it evaluates: each as
    the pair of the dividend and the divisor, which are counters. *)
Definition getWinRate_run (self : Base) : double * list (nat * nat) :=
  if decide (winCount self + loseCount self = 0) then (dzero, [])
  else
    (ddiv (double_of_nat (winCount self))
       (double_of_nat (winCount self + loseCount self)),
     [(winCount self, winCount self + loseCount self)]).

Definition getWinRate (self : Base) : double := (getWinRate_run self).1.

(** The object [getResults] returns. *)
Record Results : Type := mkResults {
  r_profitLoss : double;
  r_winCount : nat;
  r_loseCount : nat;
  r_winRate : double;
  r_tradeCount : nat;
  r_maximumConsecutiveLosses : nat;
  r_minimumProfitLoss : double
}.

(** [Base.prototype.getResults] *)
Definition getResults (self : Base) : Results :=
  mkResults (profitLoss self) (winCount self) (loseCount self) (getWinRate self)
    (winCount self + loseCount self) (maximumConsecutiveLosses self)
    (minimumProfitLoss self).

(** [Base.prototype.addPosition] *)
Definition addPosition (self : Base) (position : nat) : Base :=
  mkBase (symbol self) (studies self) (openPositions self ++ [position])
    (profitLoss self) (cumulativeData self) (cumulativeDataCount self)
    (winCount self) (loseCount self) (showTrades self) (consecutiveLosses self)
    (maximumConsecutiveLosses self) (minimumProfitLoss self).

(** The bookkeeping properties [closeExpiredPositions] assigns. *)
Definition set_books (openPositions : list nat) (profitLoss : double)
  (winCount loseCount consecutiveLosses maximumConsecutiveLosses : nat)
  (minimumProfitLoss : double) (self : Base) : Base :=
  mkBase (symbol self) (studies self) openPositions profitLoss
    (cumulativeData self) (cumulativeDataCount self) winCount loseCount
    (showTrades self) consecutiveLosses maximumConsecutiveLosses
    minimumProfitLoss.

(** [a.splice(index, 1)]: removes the element at [index] when there is
    one, and nothing otherwise. *)
Definition splice1 {A : Type} (index : nat) (a : list A) : list A :=
  take index a ++ drop (S index) a.

(** The callback of [openPositionsCopy.forEach] (lines 85-122) for the
    position referred to by [position] at [index] of the copy. *)
Definition closeIfExpired (price timestamp : double)
  (st : Heap * Base * list nat) (index : nat) (position : nat)
  : Heap * Base * list nat :=
  let '(heap, self, expiredPositions) := st in
  if getHasExpired (heap position) timestamp then
    let heap := heap_set position (close (heap position) price timestamp) heap in
    let selfProfitLoss := dsub (profitLoss self) (getInvestment (heap position)) in
    let profitLoss := getProfitLoss (heap position) in
    let selfProfitLoss := dadd selfProfitLoss profitLoss in
    let '(winCount, consecutiveLosses) :=
      if dlt (getInvestment (heap position)) profitLoss
      then (S (winCount self), 0)
      else (winCount self, consecutiveLosses self) in
    let '(loseCount, consecutiveLosses) :=
      if deq profitLoss dzero
      then (S (loseCount self), S consecutiveLosses)
      else (loseCount self, consecutiveLosses) in
    let minimumProfitLoss :=
      if dlt profitLoss (minimumProfitLoss self) then profitLoss
      else minimumProfitLoss self in
    let maximumConsecutiveLosses :=
      if decide (maximumConsecutiveLosses self < consecutiveLosses)
      then consecutiveLosses else maximumConsecutiveLosses self in
    (heap,
     set_books (splice1 index (openPositions self)) selfProfitLoss winCount
       loseCount consecutiveLosses maximumConsecutiveLosses minimumProfitLoss
       self,
     expiredPositions ++ [position])
  else st.

(** [forEach] with the index of each element, from [index] on. *)
Fixpoint forEach_from {A St : Type} (callback : St -> nat -> A -> St)
  (index : nat) (a : list A) (s : St) : St :=
  match a with
  | [] => s
  | x :: a' => forEach_from callback (S index) a' (callback s index x)
  end.

(** [Base.prototype.closeExpiredPositions]: the heap and the strategy
    afterwards, and the array of expired positions it returns. *)
Definition closeExpiredPositions (heap : Heap) (self : Base)
  (price timestamp : double) : Heap * Base * list nat :=
  let openPositionsCopy := openPositions self in
  forEach_from (closeIfExpired price timestamp) 0 openPositionsCopy
    (heap, self, []).

(** What the two tests of the callback say of the position behind [r]. *)
Definition won (heap : Heap) (r : nat) : bool :=
  dlt (getInvestment (heap r)) (getProfitLoss (heap r)).

Definition lost (heap : Heap) (r : nat) : bool :=
  deq (getProfitLoss (heap r)) dzero.

(** A profit/loss strictly between 0 and the investment. *)
Definition between (heap : Heap) (r : nat) : Prop :=
  dlt dzero (getProfitLoss (heap r)) = true /\
  dlt (getProfitLoss (heap r)) (getInvestment (heap r)) = true.

(** [Base.prototype.tick] and [Base.prototype.backtest]: the base class
    leaves both to the strategy, and its own throw. *)
Definition tick (self : Base) (dataPoint : DataPoint)
  : outcome (Base * DataPoint) :=
  Thrown "tick() not implemented.".

Definition backtest (self : Base) (data : list DataPoint) : outcome Base :=
  Thrown "backtest() not implemented.".

End Base.

End Base.

Module ReversalsCombined.

(** The configuration objects [backtest] reads. A property that is only
    tested for truthiness is the boolean of that test; a property that
    holds an object is [None] when it is absent. *)
Record Rsi : Type := mkRsi {
  rsi_rsi : string;
  rsi_overbought : jsval;
  rsi_oversold : jsval
}.

Record PrChannel : Type := mkPrChannel {
  pr_upper : string;
  pr_lower : string
}.

Record TrendPrChannel : Type := mkTrendPrChannel {
  trend_regression : string
}.

Record Configuration : Type := mkConfiguration {
  ema200 : bool;
  ema100 : bool;
  ema50 : bool;
  sma13 : bool;
  rsi : option Rsi;
  prChannel : option PrChannel;
  trendPrChannel : option TrendPrChannel
}.

(** What [backtest] writes with [console.log]. *)
Inductive Output (R : Type) : Type :=
| PutAt (time : double)
| CallAt (time : double)
| ResultsLine (results : R).
Arguments PutAt {R} time.
Arguments CallAt {R} time.
Arguments ResultsLine {R} results.

(** One of the three moving-average blocks (lines 125-140, 141-156,
    157-172) for the pair of properties [slow], [fast] of the data point. *)
Definition averagesBlock (slow fast : jsval) (flags : bool * bool) : bool * bool :=
  let '(putThisConfiguration, callThisConfiguration) := flags in
  let '(putThisConfiguration, callThisConfiguration) :=
    if negb (truthy slow) || negb (truthy fast) then (false, false)
    else (putThisConfiguration, callThisConfiguration) in
  let putThisConfiguration :=
    if putThisConfiguration && js_lt slow fast then false
    else putThisConfiguration in
  let callThisConfiguration :=
    if callThisConfiguration && js_gt slow fast then false
    else callThisConfiguration in
  (putThisConfiguration, callThisConfiguration).

(** The block for [configuration.rsi] (lines 173-189). *)
Definition rsiBlock (dataPoint : DataPoint) (r : Rsi) (flags : bool * bool)
  : bool * bool :=
  let '(putThisConfiguration, callThisConfiguration) := flags in
  match dataPoint !! rsi_rsi r with
  | Some _ =>
      let putThisConfiguration :=
        if putThisConfiguration &&
           js_le (dataPoint !! rsi_rsi r) (rsi_overbought r)
        then false else putThisConfiguration in
      let callThisConfiguration :=
        if callThisConfiguration &&
           js_ge (dataPoint !! rsi_rsi r) (rsi_oversold r)
        then false else callThisConfiguration in
      (putThisConfiguration, callThisConfiguration)
  | None => (false, false)
  end.

(** The block for [configuration.prChannel] (lines 190-206). *)
Definition prChannelBlock (dataPoint : DataPoint) (pr : PrChannel)
  (flags : bool * bool) : bool * bool :=
  let '(putThisConfiguration, callThisConfiguration) := flags in
  let upper := dataPoint !! pr_upper pr in
  let lower := dataPoint !! pr_lower pr in
  if truthy upper && truthy lower then
    let putThisConfiguration :=
      if putThisConfiguration &&
         (negb (truthy upper) || js_le (dataPoint !! "high") upper)
      then false else putThisConfiguration in
    let callThisConfiguration :=
      if callThisConfiguration &&
         (negb (truthy lower) || js_ge (dataPoint !! "low") lower)
      then false else callThisConfiguration in
    (putThisConfiguration, callThisConfiguration)
  else (false, false).

(** The block for [configuration.trendPrChannel] (lines 207-223). *)
Definition trendPrChannelBlock (previousDataPoint : option DataPoint)
  (dataPoint : DataPoint) (trend : TrendPrChannel) (flags : bool * bool)
  : bool * bool :=
  let '(putThisConfiguration, callThisConfiguration) := flags in
  let now := dataPoint !! trend_regression trend in
  match previousDataPoint with
  | Some previous =>
      let before := previous !! trend_regression trend in
      if truthy now && truthy before then
        let putThisConfiguration :=
          if putThisConfiguration && js_gt now before then false
          else putThisConfiguration in
        let callThisConfiguration :=
          if callThisConfiguration && js_lt now before then false
          else callThisConfiguration in
        (putThisConfiguration, callThisConfiguration)
      else (false, false)
  | None => (false, false)
  end.

(** The callback of [self.configurations.forEach] up to the two flags
    (lines 122-223): both flags start true and go through the blocks the
    configuration enables. *)
Definition evaluateConfiguration (previousDataPoint : option DataPoint)
  (dataPoint : DataPoint) (configuration : Configuration) : bool * bool :=
  let flags := (true, true) in
  let flags :=
    if ema200 configuration && ema100 configuration
    then averagesBlock (dataPoint !! "ema200") (dataPoint !! "ema100") flags
    else flags in
  let flags :=
    if ema100 configuration && ema50 configuration
    then averagesBlock (dataPoint !! "ema100") (dataPoint !! "ema50") flags
    else flags in
  let flags :=
    if ema50 configuration && sma13 configuration
    then averagesBlock (dataPoint !! "ema50") (dataPoint !! "sma13") flags
    else flags in
  let flags :=
    match rsi configuration with
    | Some r => rsiBlock dataPoint r flags
    | None => flags
    end in
  let flags :=
    match prChannel configuration with
    | Some pr => prChannelBlock dataPoint pr flags
    | None => flags
    end in
  let flags :=
    match trendPrChannel configuration with
    | Some trend => trendPrChannelBlock previousDataPoint dataPoint trend flags
    | None => flags
    end in
  flags.

Section Backtest.

(** [tick] comes from the base class of the strategy and may change the
    strategy and the data point it is given, or throw; [getHours] is
    [new Date(t).getHours()] in the local time zone; [getResults] is the
    base class's. *)
Variable Self : Type.
Variable R : Type.
Variable tick : Self -> DataPoint -> outcome (Self * DataPoint).
Variable getHours : jsval -> double.
Variable getResults : Self -> R.

(** The callback of [data.forEach] (lines 102-240). Of the variables of
    the enclosing function only [previousDataPoint] is read before it is
    assigned in a later call, so it is the state carried between calls. *)
Definition backtestDataPoint (configurations : list Configuration)
  (st : Self * option DataPoint * list (Output R)) (dataPoint : DataPoint)
  : outcome (Self * option DataPoint * list (Output R)) :=
  let '(self, previousDataPoint, out) := st in
  let timestampHour := getHours (dataPoint !! "timestamp") in
  '(self, dataPoint) ← tick self dataPoint;
  if dle dzero timestampHour && dlt timestampHour (double_of_Z 7) then
    Done (self, Some dataPoint, out)
  else
    let '(putNextTick, callNextTick) :=
      fold_left
        (fun next configuration =>
           let '(putThisConfiguration, callThisConfiguration) :=
             evaluateConfiguration previousDataPoint dataPoint configuration in
           (next.1 || putThisConfiguration, next.2 || callThisConfiguration))
        configurations (false, false) in
    let out :=
      if putNextTick
      then out ++ [PutAt (js_add_1000 (dataPoint !! "timestamp"))] else out in
    let out :=
      if callNextTick
      then out ++ [CallAt (js_add_1000 (dataPoint !! "timestamp"))] else out in
    Done (self, Some dataPoint, out).

(** [ReversalsCombined.prototype.backtest]: the strategy afterwards and the
    lines written. *)
Definition backtest (configurations : list Configuration) (self : Self)
  (data : list DataPoint) : outcome (Self * list (Output R)) :=
  '(self, _, out) ← foldM (backtestDataPoint configurations) data (self, None, []);
  Done (self, out ++ [ResultsLine (getResults self)]).

End Backtest.

End ReversalsCombined.

(** * Inputs for running the code *)

(** A strategy that keeps the rows it was given, for running [optimize]. *)
Definition recordingStrategy : Type := list Optimizer.Row.

Definition recordingCreate (_ _ : string) (_ : gmap string Z) (_ : Z)
  (_ : Optimizer.Configuration) : recordingStrategy := [].

Definition recordingBacktest (s : recordingStrategy) (row : Optimizer.Row)
  (_ _ : double) : recordingStrategy := s ++ [row].

(** A matrix of two rows of one cell each, as [loadData] leaves it. *)
Definition twoRows : Optimizer.Optimizer :=
  Optimizer.mkOptimizer "ReversalsCombined" "EURUSD" 0 2
    [Some [Some (double_of_Z 1)]; Some [Some (double_of_Z 2)]] ∅.

(** One stored document with two data fields. *)
Definition firstDocument : Optimizer.bson :=
  Optimizer.mkBson "EURUSD" 1 1
    [("timestamp", double_of_Z 1420070400); ("open", double_of_Z 2)].

(** A tick with the two group tags and a timestamp. *)
Definition taggedTick (timestamp : Z) : Optimizer.Tick :=
  {[ "timestamp" := double_of_Z timestamp;
     "testingGroups" := double_of_Z 1;
     "validationGroups" := double_of_Z 2 ]}.

(** One axis with two candidates that give [rsiOverbought] the values 70
    and 80. *)
Definition twoCandidates : list (string * list (list (string * Optimizer.OptionValue))) :=
  [("rsi", [[("rsiOverbought", Optimizer.Literal (double_of_Z 70))];
            [("rsiOverbought", Optimizer.Literal (double_of_Z 80))]])].

Definition overbought (d : double) : Optimizer.Configuration :=
  Optimizer.mkConfiguration 0 0 0 0 0 0 0 0 0 0 0 0 0 0 d dzero dzero dzero.

(** The column index after a load of rows with six fields. *)
Definition sixColumns : gmap string Z :=
  {[ "timestamp" := 0%Z; "open" := 1%Z; "high" := 2%Z; "low" := 3%Z;
     "close" := 4%Z; "sma13" := 5%Z ]}.

Definition withColumns (columns : gmap string Z) : Optimizer.Optimizer :=
  Optimizer.mkOptimizer "ReversalsCombined" "EURUSD" 0 0 [] columns.

(** A strategy with three wins and one loss on its counters. *)
Definition threeOfFour : Base.Base unit :=
  Base.mkBase unit "EURUSD" [] [] (double_of_Z 12) [] 0 3 1 false 0 1 dzero.

(** A position for running the base class: its investment, the
    profit/loss it reports once closed, and whether it is still open and
    so expires at any time asked. *)
Record simplePosition : Type := mkSimplePosition {
  sp_investment : double;
  sp_payout : double;
  sp_open : bool
}.

Definition sp_getHasExpired (p : simplePosition) (_ : double) : bool := sp_open p.

Definition sp_close (p : simplePosition) (_ _ : double) : simplePosition :=
  mkSimplePosition (sp_investment p) (sp_payout p) false.

Definition sp_getProfitLoss (p : simplePosition) : double :=
  if sp_open p then dzero else sp_payout p.

(** Every reference leads to an open position of investment 10 that pays
    5 back; the strategy holds position 0. *)
Definition halfBack : Base.Heap simplePosition :=
  fun _ => mkSimplePosition (double_of_Z 10) (double_of_Z 5) true.

Definition oneOpenPosition : Base.Base unit :=
  Base.addPosition unit (Base.new_Base unit "EURUSD") 0.

Definition settledOnce : Base.Heap simplePosition * Base.Base unit * list nat :=
  Base.closeExpiredPositions unit simplePosition sp_getHasExpired sp_close
    sp_getProfitLoss sp_investment halfBack oneOpenPosition (double_of_Z 1)
    (double_of_Z 1420070700).

(** A configuration that enables the three moving-average blocks. *)
Definition movingAverages : ReversalsCombined.Configuration :=
  ReversalsCombined.mkConfiguration true true true true None None None.

(** A data point at noon with the averages in falling order: [ema200]
    above [ema100] above [ema50] above [sma13]. *)
Definition fallingAverages : DataPoint :=
  {[ "timestamp" := double_of_Z 1420113600; "ema200" := double_of_Z 4;
     "ema100" := double_of_Z 3; "ema50" := double_of_Z 2;
     "sma13" := double_of_Z 1 ]}.

(** A data point at noon with [ema200] below [ema100]. *)
Definition risingAverages : DataPoint :=
  {[ "timestamp" := double_of_Z 1420113600; "ema200" := double_of_Z 1;
     "ema100" := double_of_Z 2; "ema50" := double_of_Z 3;
     "sma13" := double_of_Z 4 ]}.

Definition keepTick (self : unit) (dataPoint : DataPoint)
  : outcome (unit * DataPoint) := Done (self, dataPoint).

Definition noon (_ : jsval) : double := double_of_Z 12.

(** * Notions the statements about the rest of the code use *)

(** The row [loadData] leaves for a document: the values of its data
    fields in document order, then the cells that were never written. *)
Definition rowOf (dataPropertyCount : nat) (document : Optimizer.bson)
  : list (option double) :=
  (Some <$> (Optimizer.b_data document).*2) ++
  replicate (dataPropertyCount - length (Optimizer.b_data document)) None.

(** The rows 0, 2, 4, ... below [n]. *)
Definition evenRows (n : nat) : list nat :=
  (fun k => 2 * k) <$> seq 0 ((n + 1) / 2).

(** The calls [(row, position)] for the given rows, each row handed to the
    strategies at positions 0 to [strategies - 1] in turn. *)
Definition callsFor (rows : list nat) (strategies : nat) : list (nat * nat) :=
  flat_map (fun row => pair row <$> seq 0 strategies) rows.

(** The elements at the odd indices 1, 3, 5, ... of a list. *)
Fixpoint odds {A : Type} (l : list A) : list A :=
  match l with
  | _ :: y :: l' => y :: odds l'
  | _ => []
  end.

(** The members of a configuration that [buildConfigurations] reads with
    [boost::get<int>], and those it reads with [boost::get<double>]. *)
Definition indexMembers : list string :=
  ["sma13"; "ema50"; "ema100"; "ema200"; "rsi"; "stochasticD"; "stochasticK";
   "prChannelUpper"; "prChannelLower"].

Definition thresholdMembers : list string :=
  ["rsiOverbought"; "rsiOversold"; "stochasticOverbought"; "stochasticOversold"].






(** The test of line 111 of ReversalsCombined.js on the hour of a data
    point: the hours 0 to 6, in which [backtest] does not trade. *)
Definition nightHours (getHours : jsval -> double) (dataPoint : DataPoint) : bool :=
  dle dzero (getHours (dataPoint !! "timestamp")) &&
  dlt (getHours (dataPoint !! "timestamp")) (double_of_Z 7).

(** The time [backtest] writes on a PUT or CALL line for a data point. *)
Definition signalTime (dataPoint : DataPoint) : double :=
  js_add_1000 (dataPoint !! "timestamp").

(** [tick] on every data point in turn, and nothing else: what the calls
    of [self.tick] in the loop of [backtest] do to the strategy. *)
Definition tickEach {Self : Type}
  (tick : Self -> DataPoint -> outcome (Self * DataPoint))
  (data : list DataPoint) (self : Self) : outcome Self :=
  foldM (fun self dataPoint => '(self, _) ← tick self dataPoint; Done self) data self.

(** Whether a line is a PUT or a CALL line. *)
Definition isSignal {R : Type} (o : ReversalsCombined.Output R) : bool :=
  match o with
  | ReversalsCombined.ResultsLine _ => false
  | _ => true
  end.

(** * Further inputs for running the code *)

(** Two tagged ticks a minute apart, at the addresses 0 and 1, and nothing
    stored yet. *)
Definition twoTicks : Optimizer.Ingest :=
  Optimizer.mkIngest
    {[0 := taggedTick 1420070400; 1 := taggedTick 1420070460]} [] [].

(** A tick whose [testingGroups] tag is 1.5, with three fields written in
    another order than that of their names. *)
Definition fractionTaggedTick : Optimizer.Tick :=
  {[ "timestamp" := double_of_Z 1420070400; "open" := double_of_Z 2;
     "close" := double_of_Z 3;
     "testingGroups" := ddiv (double_of_Z 3) (double_of_Z 2);
     "validationGroups" := double_of_Z 2 ]}.




(** Two tagged ticks two minutes apart, at the addresses 0 and 1. *)
Definition gapTicks : Optimizer.Ingest :=
  Optimizer.mkIngest
    {[0 := taggedTick 1420070400; 1 := taggedTick 1420070520]} [] [].

(** A tagged tick with the output of one study, and the studies, each
    given by its output map: one study with one output. *)
Definition studiedTick : Optimizer.Tick :=
  <["ema200" := double_of_Z 4]> (taggedTick 1420070400).

Definition oneOutput : list (list (string * string)) := [[("ema", "ema200")]].

(** What both candidates of [twoCandidates] come to over [sixColumns]. *)
Definition overboughtOnSix (d : double) : Optimizer.Configuration :=
  Optimizer.mkConfiguration 0 1 2 3 4 0 0 0 0 0 0 0 0 0 d dzero dzero dzero.


(** Two axes, the second without a candidate. *)
Definition emptyAxis : list (string * list (list (string * Optimizer.OptionValue))) :=
  [("averages", [[("sma13", Optimizer.ColumnName "sma13")]]); ("rsi", [])].

(** A candidate that gives a number to the member [rsi], which is read as
    a column index. *)
Definition numberForColumn : list (string * Optimizer.OptionValue) :=
  [("rsi", Optimizer.Literal (double_of_Z 70))].

(** A strategy that holds the positions 0, 1 and 2. *)
Definition threeOpenPositions : Base.Base unit :=
  Base.addPosition unit (Base.addPosition unit oneOpenPosition 1) 2.

(** Only the position behind reference 1 is open, and so expires. *)
Definition onlyPosition1Due : Base.Heap simplePosition :=
  fun r => mkSimplePosition (double_of_Z 10) (double_of_Z 5) (bool_decide (r = 1)).

(** No position is open. *)
Definition noneDue : Base.Heap simplePosition :=
  fun _ => mkSimplePosition (double_of_Z 10) (double_of_Z 5) false.

(** Every reference leads to an open position that pays nothing back. *)
Definition allLost : Base.Heap simplePosition :=
  fun _ => mkSimplePosition (double_of_Z 10) dzero true.

(** [closeExpiredPositions] on the three positions: all of them due; only
    position 1 due; all of them due and lost. *)
Definition settledThree : Base.Heap simplePosition * Base.Base unit * list nat :=
  Base.closeExpiredPositions unit simplePosition sp_getHasExpired sp_close
    sp_getProfitLoss sp_investment halfBack threeOpenPositions (double_of_Z 1)
    (double_of_Z 1420070700).

Definition settledSecond : Base.Heap simplePosition * Base.Base unit * list nat :=
  Base.closeExpiredPositions unit simplePosition sp_getHasExpired sp_close
    sp_getProfitLoss sp_investment onlyPosition1Due threeOpenPositions
    (double_of_Z 1) (double_of_Z 1420070700).

Definition lostThree : Base.Heap simplePosition * Base.Base unit * list nat :=
  Base.closeExpiredPositions unit simplePosition sp_getHasExpired sp_close
    sp_getProfitLoss sp_investment allLost threeOpenPositions (double_of_Z 1)
    (double_of_Z 1420070700).

Definition threeAM (_ : jsval) : double := double_of_Z 3.

(** A configuration that asks for the long-term trend only. *)
Definition trendOnly : ReversalsCombined.Configuration :=
  ReversalsCombined.mkConfiguration false false false false None None
    (Some (ReversalsCombined.mkTrendPrChannel "trendPrChannel300_2")).

(** A configuration with a single moving average set: it enables no block. *)
Definition onlyEma200 : ReversalsCombined.Configuration :=
  ReversalsCombined.mkConfiguration true false false false None None None.

(** A data point at noon without any study output. *)
Definition bare : DataPoint := {[ "timestamp" := double_of_Z 1420113600 ]}.

(** * Properties *)

(** ** Loops that may fail *)

(** An invariant of the loop body holds after the loop, when it ends
    normally. *)
Lemma foldM_invariant {A St : Type} (P : St -> Prop) (body : St -> A -> outcome St)
  (l : list A) (s s' : St) :
  P s ->
  (forall s x s', P s -> x ∈ l -> body s x = Done s' -> P s') ->
  foldM body l s = Done s' ->
  P s'.
Proof.
  revert s. induction l as [|x l IH]; intros s Hs Hbody Hrun; simpl in Hrun.
  - congruence.
  - destruct (body s x) as [s1| | |] eqn:Hx; simpl in Hrun; try discriminate.
    apply (IH s1); auto.
    + eapply Hbody; eauto. left.
    + intros s2 y s3 H2 Hy. apply Hbody; auto. by right.
Qed.

(** A loop whose body always ends normally ends normally. *)
Lemma foldM_total {A St : Type} (P : St -> Prop) (body : St -> A -> outcome St)
  (l : list A) (s : St) :
  P s ->
  (forall s x, P s -> x ∈ l -> exists s', body s x = Done s' /\ P s') ->
  exists s', foldM body l s = Done s' /\ P s'.
Proof.
  revert s. induction l as [|x l IH]; intros s Hs Hbody; simpl.
  - eauto.
  - destruct (Hbody s x Hs) as (s1 & -> & H1); [left|]. simpl.
    apply IH; auto. intros s2 y H2 Hy. apply Hbody; auto. by right.
Qed.

(** A loop whose body throws nothing throws nothing. *)
Lemma foldM_no_throw {A St : Type} (body : St -> A -> outcome St) (l : list A)
  (s : St) (what : string) :
  (forall s x, body s x <> Thrown what) ->
  foldM body l s <> Thrown what.
Proof.
  intros Hbody. revert s. induction l as [|x l IH]; intros s; simpl; [done|].
  destruct (body s x) eqn:Hx; simpl; try done.
  intros [= ->]. by apply Hbody in Hx.
Qed.

Lemma foldM_app {A St : Type} (body : St -> A -> outcome St) (l1 l2 : list A) (s : St) :
  foldM body (l1 ++ l2) s = s' ← foldM body l1 s; foldM body l2 s'.
Proof.
  revert s. induction l1 as [|x l1 IH]; intros s; simpl; [done|].
  destruct (body s x); simpl; auto.
Qed.

Section OptimizeFacts.

Import Optimizer.

Variable Strategy : Type.
Variable create : string -> string -> gmap string Z -> Z -> Configuration -> Strategy.
Variable backtest : Strategy -> Row -> double -> double -> Strategy.

(** C6 (code at the failing input). The strategies vector is empty when
    the preparation loop starts and the loop writes with the subscript
    operator: with at least one configuration the first write, at index 0,
    is past the end of the vector, which is undefined behaviour; no
    strategy is ever added to the vector. *)
Theorem optimize_writes_past_empty_vector (this : Optimizer) (c : Configuration)
  (rest : list Configuration) (investment profitability : double) :
  prepareStrategies Strategy create this 0 (c :: rest) [] =
    Undefined "std::vector subscript past size()" /\
  optimize Strategy create backtest this (c :: rest) investment profitability =
    Undefined "std::vector subscript past size()".
Proof. split; reflexivity. Qed.

(** The tasks of one tick record that tick's row only. *)
Lemma backtestTask_rows (this : Optimizer) (investment profitability : double)
  (i : nat) (strategies : list Strategy) (st st' : list Strategy * list (nat * nat))
  (P : nat -> Prop) :
  P i ->
  Forall (fun call => P call.1) st.2 ->
  foldM (backtestTask Strategy backtest this investment profitability i) strategies st
    = Done st' ->
  Forall (fun call => P call.1) st'.2.
Proof.
  intros Hi Hst Hrun.
  apply (foldM_invariant (fun s => Forall (fun call => P call.1) s.2) _ _ _ _ Hst)
    in Hrun; [done|].
  intros [done calls] s s' Hs _ Hbody. unfold backtestTask in Hbody.
  destruct (data this !! i) as [[row|]|]; simplify_eq. simpl in *.
  apply Forall_app. split; [done|]. by constructor.
Qed.

(** The loop over the data ticks only ever hands out rows of the parity of
    the row it starts at: it advances by two rows per iteration. *)
Lemma backtestLoop_rows_parity (fuel : nat) (this : Optimizer)
  (investment profitability : double) (i : nat)
  (st st' : list Strategy * list (nat * nat)) :
  Forall (fun call => Nat.even call.1 = Nat.even i) st.2 ->
  backtestLoop Strategy backtest fuel this investment profitability i st = Done st' ->
  Forall (fun call => Nat.even call.1 = Nat.even i) st'.2.
Proof.
  revert i st. induction fuel as [|fuel IH]; intros i [strategies calls] Hst Hrun;
    simpl in Hrun; [discriminate|].
  case_decide; [|by simplify_eq].
  destruct (foldM _ strategies ([], calls)) as [st1| | |] eqn:Htasks;
    simpl in Hrun; try discriminate.
  apply (backtestTask_rows _ _ _ _ _ _ _ (fun r => Nat.even r = Nat.even i)) in Htasks;
    [|done|done].
  apply IH in Hrun.
  - by rewrite Nat.even_succ_succ in Hrun.
  - by rewrite Nat.even_succ_succ.
Qed.

(** No run of [optimize] gives an odd row to any strategy. *)
Lemma optimize_never_backtests_odd_rows (this : Optimizer)
  (configurations : list Configuration) (investment profitability : double)
  (strategies : list Strategy) (calls : list (nat * nat)) (row k : nat) :
  optimize Strategy create backtest this configurations investment profitability
    = Done (strategies, calls) ->
  (row, k) ∈ calls ->
  Nat.even row = true.
Proof.
  unfold optimize. intros Hrun Hin.
  destruct (prepareStrategies _ _ _ _ _ _) as [prepared| | |]; try discriminate.
  assert (Forall (fun call : nat * nat => Nat.even call.1 = Nat.even 0)
            (strategies, calls).2) as Heven.
  { apply (backtestLoop_rows_parity (S (Z.to_nat (dataCount this))) this
             investment profitability 0 (prepared, [])); [by constructor|exact Hrun]. }
  rewrite Forall_forall in Heven. by apply Heven in Hin.
Qed.

End OptimizeFacts.

(** A loop whose body does not run out of fuel does not either. *)
Lemma foldM_fuel {A St : Type} (body : St -> A -> outcome St) (l : list A) (s : St) :
  (forall s x, body s x <> OutOfFuel) ->
  foldM body l s <> OutOfFuel.
Proof.
  intros Hbody. revert s. induction l as [|x l IH]; intros s; simpl; [done|].
  destruct (body s x) eqn:Hx; simpl; try done. by apply Hbody in Hx.
Qed.

(** The bound [optimize] gives to the loop over the data ticks is enough:
    the loop ends, normally or in undefined behaviour. *)
Lemma backtestLoop_fuel (Strategy : Type)
  (backtest : Strategy -> Optimizer.Row -> double -> double -> Strategy)
  (fuel : nat) (this : Optimizer.Optimizer) (investment profitability : double)
  (i : nat) (st : list Strategy * list (nat * nat)) :
  Z.to_nat (Optimizer.dataCount this) - i < fuel ->
  Optimizer.backtestLoop Strategy backtest fuel this investment profitability i st
    <> OutOfFuel.
Proof.
  revert i st. induction fuel as [|fuel IH]; intros i [strategies calls] Hfuel;
    [lia|].
  simpl. case_decide as Hrow; [|done].
  destruct (foldM _ strategies ([], calls)) as [st1| | |] eqn:Htasks; simpl;
    try done.
  - apply IH. lia.
  - exfalso. revert Htasks. apply foldM_fuel. intros [done calls'] strategy.
    unfold Optimizer.backtestTask.
    by destruct (Optimizer.data this !! i) as [[row|]|].
Qed.

(** C2 (code at the failing input). With two rows loaded and one
    configuration, the loop over the data ticks, run on the one strategy
    the preparation is meant to leave, calls [backtest] for row 0 only:
    the pre-increment in the progress computation and the increment of the
    [for] statement both advance [i], so row 1 is skipped. The whole
    function does not get that far: the preparation writes past the end of
    the empty strategies vector. *)
Theorem optimize_progress_increment_skips_row :
  Optimizer.backtestLoop recordingStrategy recordingBacktest 3 twoRows dzero dzero 0
    ([recordingCreate "ReversalsCombined" "EURUSD" ∅ 0 Optimizer.new_Configuration], [])
  = Done ([[[Some (double_of_Z 1)]]], [(0, 0)]) /\
  Optimizer.optimize recordingStrategy recordingCreate recordingBacktest twoRows
    [Optimizer.new_Configuration] dzero dzero
  = Undefined "std::vector subscript past size()".
Proof. split; reflexivity. Qed.

Lemma bind_Done {A B : Type} (m : outcome A) (f : A -> outcome B) (b : B) :
  m ≫= f = Done b -> exists a, m = Done a /\ f a = Done b.
Proof. destruct m; simpl; intros H; try discriminate. eauto. Qed.

Tactic Notation "bind_inv" hyp(H) "as" simple_intropattern(a) ident(Ha) :=
  apply bind_Done in H; destruct H as (a & Ha & H).

Section LoadFacts.

Import Optimizer.

(** C7 (code at the failing input). When the count query answers 0 and
    the cursor yields no document, [loadData] passes the test
    [dataCount < 0], allocates an empty matrix and returns normally:
    nothing is thrown. *)
Theorem loadData_zero_rows_returns (this : Optimizer) (dataPropertyCount : nat) :
  loadData 0 [] dataPropertyCount this = Done (set_data [] (set_dataCount 0 this)).
Proof. reflexivity. Qed.

Lemma loadProperty_no_throw (dataPointIndex : nat) (st : nat * Optimizer)
  (property : string * double) (what : string) :
  loadProperty dataPointIndex st property <> Thrown what.
Proof.
  destruct st as [propertyIndex this]. unfold loadProperty, writeCell, vector_set.
  destruct (data this !! dataPointIndex) as [[row|]|]; simpl; try done.
  repeat case_decide; simpl; done.
Qed.

Lemma loadDocument_no_throw (dataPropertyCount : nat) (st : nat * Optimizer)
  (document : bson) (what : string) :
  loadDocument dataPropertyCount st document <> Thrown what.
Proof.
  destruct st as [dataPointIndex this]. unfold loadDocument, vector_set.
  case_decide; simpl; [|done].
  destruct (foldM _ (b_data document) _) as [[k t]| | |] eqn:Hloop; simpl; try done.
  intros [= ->]. revert Hloop. apply foldM_no_throw.
  intros. apply loadProperty_no_throw.
Qed.

(** [loadData] throws only when the count query fails. *)
Lemma loadData_throws_only_on_failed_count (count : Z) (cursor : list bson)
  (dataPropertyCount : nat) (this : Optimizer) (what : string) :
  loadData count cursor dataPropertyCount this = Thrown what ->
  (count < 0)%Z.
Proof.
  unfold loadData. simpl. case_decide; [done|]. intros Hrun. exfalso.
  destruct (foldM _ cursor _) as [[n this']| | |] eqn:Hloop; simpl in Hrun;
    try discriminate.
  simplify_eq. revert Hloop. apply foldM_no_throw.
  intros. apply loadDocument_no_throw.
Qed.

Lemma loadProperty_keeps_dataIndex (dataPointIndex : nat)
  (st st' : nat * Optimizer) (property : string * double) :
  shaped st.2 ->
  loadProperty dataPointIndex st property = Done st' ->
  shaped st'.2 /\ dataIndex st'.2 = dataIndex st.2 /\ dataCount st'.2 = dataCount st.2.
Proof.
  destruct st as [propertyIndex this]. intros [Hlen Hpos] Hrun. simpl in *.
  unfold loadProperty in Hrun. bind_inv Hrun as data' Hcell. simpl in Hrun.
  unfold writeCell in Hcell.
  destruct (data this !! dataPointIndex) as [[row|]|] eqn:Hrow; try discriminate.
  bind_inv Hcell as row' Hset. simplify_eq. simpl.
  apply lookup_lt_Some in Hrow.
  case_decide as Hzero; simpl in *.
  - rewrite Hzero in Hlen. simpl in Hlen. lia.
  - unfold shaped. simpl. by rewrite length_insert.
Qed.

Lemma loadDocument_keeps_dataIndex (dataPropertyCount : nat)
  (st st' : nat * Optimizer) (document : bson) :
  shaped st.2 ->
  loadDocument dataPropertyCount st document = Done st' ->
  shaped st'.2 /\ dataIndex st'.2 = dataIndex st.2 /\ dataCount st'.2 = dataCount st.2.
Proof.
  destruct st as [dataPointIndex this]. intros [Hlen Hpos] Hrun. simpl in *.
  unfold loadDocument in Hrun. bind_inv Hrun as data' Hrow.
  bind_inv Hrun as [k this1] Hprops. simplify_eq. simpl.
  unfold vector_set in Hrow. case_decide; simplify_eq.
  apply (foldM_invariant
           (fun s => shaped s.2 /\ dataIndex s.2 = dataIndex this /\
                     dataCount s.2 = dataCount this)) in Hprops; [done| |].
  - unfold shaped. simpl. by rewrite length_insert.
  - intros s x s' (Hs & Hdi & Hdc) _ Hbody.
    apply loadProperty_keeps_dataIndex in Hbody; [|done].
    destruct Hbody as (? & -> & ->). done.
Qed.

(** Whenever [loadData] returns, [dataIndex] is what it was before the
    call: the test [dataCount == 0] that guards the only assignment to it
    is false for every row that can be stored. *)
Lemma loadData_leaves_dataIndex (count : Z) (cursor : list bson)
  (dataPropertyCount : nat) (this this' : Optimizer) :
  loadData count cursor dataPropertyCount this = Done this' ->
  dataIndex this' = dataIndex this.
Proof.
  unfold loadData. simpl. case_decide as Hneg; [done|]. intros Hrun.
  bind_inv Hrun as [n this1] Hloop. simplify_eq.
  apply (foldM_invariant
           (fun s => shaped s.2 /\ dataIndex s.2 = dataIndex this /\
                     dataCount s.2 = count)) in Hloop.
  - by destruct Hloop as (_ & ? & _).
  - unfold shaped. simpl. rewrite length_replicate. repeat split; try done; lia.
  - intros s x s' (Hs & Hdi & Hdc) _ Hbody.
    apply loadDocument_keeps_dataIndex in Hbody; [|done].
    destruct Hbody as (? & -> & ->). done.
Qed.

End LoadFacts.

(** C4 (code at the failing input). For one stored row with the fields
    [timestamp] and [open], [loadData] fills the row of the matrix and
    leaves [dataIndex] empty: the assignment to it is guarded by
    [dataCount == 0], and [dataCount] is 1. *)
Theorem loadData_leaves_dataIndex_empty :
  Optimizer.loadData 1 [firstDocument] 2 (Optimizer.new_Optimizer "ReversalsCombined" "EURUSD" 0)
  = Done (Optimizer.mkOptimizer "ReversalsCombined" "EURUSD" 0 1
            [Some [Some (double_of_Z 1420070400); Some (double_of_Z 2)]] ∅).
Proof. reflexivity. Qed.

Section IngestionFacts.

Import Optimizer.

Variable Study : Type.
Variable study_tick : Study -> TickStore -> list nat -> Study.
Variable getTickOutputs : Study -> list (string * double).

(** [saveTicks] commits exactly the batch it is given. *)
Lemma saveTicks_committed (this : Optimizer) (ticks : list nat) (w w' : Ingest) :
  saveTicks this ticks w = Done w' ->
  committed w' = committed w ++ ticks.
Proof.
  unfold saveTicks, committed. case_decide as Hempty.
  - intros [= <-]. apply nil_length_inv in Hempty. subst. by rewrite app_nil_r.
  - intros Hrun. bind_inv Hrun as [store documents] Hloop. simplify_eq.
    simpl. rewrite concat_app. simpl. by rewrite app_nil_r.
Qed.

(** One tick of [prepareData]: the committed ticks followed by the window
    are the same sequence as before, with the new tick at the end. *)
Lemma prepareTick_sequence (this : Optimizer) (cumulativeTicks cumulativeTicks' : list nat)
  (studies studies' : list Study) (w w' : Ingest) (tick : nat) :
  prepareTick Study study_tick getTickOutputs this (cumulativeTicks, (studies, w)) tick
    = Done (cumulativeTicks', (studies', w')) ->
  committed w' ++ cumulativeTicks' = committed w ++ cumulativeTicks ++ [tick] /\
  last cumulativeTicks' = Some tick.
Proof.
  unfold prepareTick. intros Hrun.
  bind_inv Hrun as [gap store] Hgap.
  bind_inv Hrun as [window w1] Hflush.
  assert (committed w1 ++ window = committed w ++ cumulativeTicks) as Hseq.
  { destruct gap.
    - bind_inv Hflush as w2 Hsave. bind_inv Hflush as store2 Hdelete. simplify_eq.
      apply saveTicks_committed in Hsave. unfold committed in *. simpl in *.
      by rewrite Hsave, app_nil_r.
    - by simplify_eq. }
  clear Hgap Hflush. bind_inv Hrun as store3 Hmerge. simpl in Hrun.
  case_decide as Hsize.
  - bind_inv Hrun as w4 Hsave. bind_inv Hrun as store4 Hdelete. simplify_eq.
    apply saveTicks_committed in Hsave. unfold committed in *. simpl in *.
    rewrite Hsave. split.
    + rewrite <- (assoc_L (++)), take_drop, (assoc_L (++)), Hseq.
      by rewrite <- (assoc_L (++)).
    + rewrite length_app in *. simpl in *.
      rewrite drop_app_le by lia. by rewrite last_snoc.
  - simplify_eq. unfold committed in *. simpl. split.
    + by rewrite (assoc_L (++)), Hseq, <- (assoc_L (++)).
    + by rewrite last_snoc.
Qed.

Lemma prepareTicks_sequence (this : Optimizer) (ticks : list nat)
  (cumulativeTicks cumulativeTicks' : list nat)
  (studies studies' : list Study) (w w' : Ingest) :
  foldM (prepareTick Study study_tick getTickOutputs this) ticks
    (cumulativeTicks, (studies, w)) = Done (cumulativeTicks', (studies', w')) ->
  committed w' ++ cumulativeTicks' = committed w ++ cumulativeTicks ++ ticks.
Proof.
  revert cumulativeTicks studies w.
  induction ticks as [|tick ticks IH]; intros cumulativeTicks studies w Hrun.
  - simpl in Hrun. simplify_eq. by rewrite app_nil_r.
  - simpl in Hrun. bind_inv Hrun as [window1 [studies1 w1]] Htick.
    apply prepareTick_sequence in Htick as [Htick _].
    apply IH in Hrun. rewrite Hrun, (assoc_L (++)), Htick.
    by rewrite <- !(assoc_L (++)).
Qed.

(** [prepareData]: when the loop ends, every tick of the input is either
    in a committed batch or still in the window, once and in input order.
    Nothing commits the window that is left. *)
Lemma prepareData_sequence (this : Optimizer) (ticks : list nat)
  (studies studies' : list Study) (w w' : Ingest) (cumulativeTicks : list nat) :
  prepareData Study study_tick getTickOutputs this ticks studies w
    = Done (cumulativeTicks, (studies', w')) ->
  committed w' ++ cumulativeTicks = committed w ++ ticks.
Proof. unfold prepareData. intros Hrun. by apply prepareTicks_sequence in Hrun. Qed.

(** The last tick of the input is still in the window when the loop ends. *)
Lemma prepareData_last_in_window (this : Optimizer) (ticks : list nat) (tick : nat)
  (studies studies' : list Study) (w w' : Ingest) (cumulativeTicks : list nat) :
  prepareData Study study_tick getTickOutputs this (ticks ++ [tick]) studies w
    = Done (cumulativeTicks, (studies', w')) ->
  last cumulativeTicks = Some tick.
Proof.
  unfold prepareData. rewrite foldM_app. intros Hrun.
  bind_inv Hrun as [window1 [studies1 w1]] Hticks. simpl in Hrun.
  bind_inv Hrun as [window2 [studies2 w2]] Htick. simplify_eq.
  by apply prepareTick_sequence in Htick as [_ Hlast].
Qed.

(** X4. For distinct ticks and nothing committed beforehand, the last tick of
    the input is in no committed batch when [prepareData] returns. *)
Lemma prepareData_last_tick_not_committed (this : Optimizer) (ticks : list nat)
  (tick : nat) (studies studies' : list Study) (w w' : Ingest)
  (cumulativeTicks : list nat) :
  NoDup (ticks ++ [tick]) ->
  persisted w = [] ->
  prepareData Study study_tick getTickOutputs this (ticks ++ [tick]) studies w
    = Done (cumulativeTicks, (studies', w')) ->
  tick ∉ committed w'.
Proof.
  intros Hdistinct Hnone Hrun.
  pose proof (prepareData_last_in_window _ _ _ _ _ _ _ _ Hrun) as Hlast.
  apply prepareData_sequence in Hrun.
  apply last_Some in Hlast as [window ->].
  unfold committed at 2 in Hrun. rewrite Hnone in Hrun. simpl in Hrun.
  rewrite (assoc_L (++)) in Hrun. apply app_inj_tail in Hrun as [Hrun _].
  intros Hin. apply NoDup_app in Hdistinct as (_ & Hnot & _).
  apply (Hnot tick); [|left]. rewrite <- Hrun. apply elem_of_app. by left.
Qed.

End IngestionFacts.

(** C5 (code at the failing input). [prepareData] over the single tick at
    address 0, with no study configured: the loop appends the tick to the
    window and ends; no batch was committed, the collection is as empty as
    before, and the tick is still in the window that goes out of scope. *)
Theorem prepareData_leaves_last_window_unsaved :
  Optimizer.prepareData unit (fun study _ _ => study) (fun _ => [])
    (Optimizer.new_Optimizer "ReversalsCombined" "EURUSD" 0) [0] []
    (Optimizer.mkIngest {[0 := taggedTick 1420070400]} [] [])
  = Done ([0], ([], Optimizer.mkIngest {[0 := taggedTick 1420070400]} [] [])).
Proof. reflexivity. Qed.

(** ** The subscript operator of [std::map] *)

Lemma subscript_value {V : Type} (dflt : V) (k : string) (m : gmap string V) :
  (subscript dflt k m).1 = default dflt (m !! k).
Proof. unfold subscript. by destruct (m !! k). Qed.

Lemma subscript_lookup {V : Type} (dflt : V) (k k' : string) (m : gmap string V) :
  default dflt ((subscript dflt k m).2 !! k') = default dflt (m !! k').
Proof.
  unfold subscript. destruct (m !! k) eqn:Hk; simpl; [done|].
  destruct (decide (k = k')) as [->|Hne].
  - by rewrite lookup_insert_eq, Hk.
  - by rewrite lookup_insert_ne.
Qed.

Lemma subscript_keeps {V : Type} (dflt : V) (k k' : string) (m : gmap string V) (v : V) :
  m !! k' = Some v -> (subscript dflt k m).2 !! k' = Some v.
Proof.
  unfold subscript. destruct (m !! k) eqn:Hk; simpl; [done|].
  intros Hk'. rewrite lookup_insert_ne; [done|]. intros ->. congruence.
Qed.

Lemma subscript_enters {V : Type} (dflt : V) (k : string) (m : gmap string V) :
  (subscript dflt k m).2 !! k = Some (default dflt (m !! k)).
Proof.
  unfold subscript. destruct (m !! k) eqn:Hk; simpl; [done|].
  by rewrite lookup_insert_eq.
Qed.

Section ConfigurationFacts.

Import Optimizer.

(** One assignment: it never fails on a live accumulator, writes the
    resolved value to the one field, and only adds to [dataIndex] names
    that were missing, with index 0. *)
Lemma assignValue_spec (current : nat) (this : Optimizer) (store : MapStore)
  (m : MapConfiguration) (entry : string * OptionValue) :
  store !! current = Some m ->
  exists this',
    assignValue current (this, store) entry =
      Done (this', <[current := <[entry.1 := resolved (dataIndex this) entry.2]> m]> store) /\
    (forall k, default 0%Z (dataIndex this' !! k) = default 0%Z (dataIndex this !! k)) /\
    (forall k i, dataIndex this !! k = Some i -> dataIndex this' !! k = Some i) /\
    (forall name, entry.2 = ColumnName name ->
       dataIndex this' !! name = Some (default 0%Z (dataIndex this !! name))).
Proof.
  intros Hcurrent. destruct entry as [field [name|d]]; unfold assignValue; simpl.
  - destruct (subscript 0%Z name (dataIndex this)) as [index dataIndex'] eqn:Hsub.
    unfold store_field. rewrite Hcurrent. simpl.
    exists (set_dataIndex dataIndex' this). simpl.
    pose proof (subscript_value 0%Z name (dataIndex this)) as Hvalue.
    rewrite Hsub in Hvalue. simpl in Hvalue. subst index.
    repeat split; [| |intros ? [= <-]].
    + intros k. pose proof (subscript_lookup 0%Z name k (dataIndex this)) as Hk.
      by rewrite Hsub in Hk.
    + intros k i Hk. apply (subscript_keeps 0%Z name) in Hk. by rewrite Hsub in Hk.
    + pose proof (subscript_enters 0%Z name (dataIndex this)) as Hk.
      by rewrite Hsub in Hk.
  - unfold store_field. rewrite Hcurrent. simpl. exists this. done.
Qed.

(** The loop over the values of one candidate (lines
    292-299) never fails and raises no error for a column name, whether
    [dataIndex] has an entry for it or not. It leaves the accumulator with,
    for every field the candidate assigns, the number copied unchanged or,
    for a column name, the index [dataIndex] holds for the name, which is
    the index of a direct lookup when there is an entry and 0 when there
    is none. Entries of [dataIndex] are kept, and fields the candidate
    does not name are untouched. *)
Theorem assignValues_resolve (current : nat) (candidate : list (string * OptionValue))
  (this : Optimizer) (store : MapStore) (m : MapConfiguration) :
  store !! current = Some m ->
  NoDup candidate.*1 ->
  exists this' store' m',
    foldM (assignValue current) candidate (this, store) = Done (this', store') /\
    store' !! current = Some m' /\
    (forall field name index, (field, ColumnName name) ∈ candidate ->
       dataIndex this !! name = Some index -> m' !! field = Some (IntValue index)) /\
    (forall field name, (field, ColumnName name) ∈ candidate ->
       dataIndex this !! name = None -> m' !! field = Some (IntValue 0)) /\
    (forall field d, (field, Literal d) ∈ candidate ->
       m' !! field = Some (DoubleValue d)) /\
    (forall field, field ∉ candidate.*1 -> m' !! field = m !! field) /\
    (forall k i, dataIndex this !! k = Some i -> dataIndex this' !! k = Some i).
Proof.
  intros Hcurrent Hdistinct.
  assert (exists this' store' m',
    foldM (assignValue current) candidate (this, store) = Done (this', store') /\
    store' !! current = Some m' /\
    (forall field v, (field, v) ∈ candidate ->
       m' !! field = Some (resolved (dataIndex this) v)) /\
    (forall field, field ∉ candidate.*1 -> m' !! field = m !! field) /\
    (forall k, default 0%Z (dataIndex this' !! k) = default 0%Z (dataIndex this !! k)) /\
    (forall k i, dataIndex this !! k = Some i -> dataIndex this' !! k = Some i))
    as (this' & store' & m' & Hrun & Hm' & Hfields & Hframe & _ & Hkeeps).
  { clear -Hcurrent Hdistinct. revert this store m Hcurrent Hdistinct.
    induction candidate as [|entry candidate IH]; intros this store m Hcurrent Hdistinct.
    - exists this, store, m. simpl. repeat split; try done.
      intros field v Hin. by apply elem_of_nil in Hin.
    - destruct entry as [field0 v0].
      simpl in Hdistinct. apply NoDup_cons in Hdistinct as [Hfresh Hdistinct].
      destruct (assignValue_spec current this store m (field0, v0) Hcurrent)
        as (this1 & Hstep & Hsame & Hkeep1 & _).
      destruct (IH this1
                  (<[current := <[field0 := resolved (dataIndex this) v0]> m]> store)
                  (<[field0 := resolved (dataIndex this) v0]> m)
                  (lookup_insert_eq _ _ _) Hdistinct)
        as (this' & store' & m' & Hrun & Hm' & Hfields & Hframe & Hsame' & Hkeep').
      exists this', store', m'.
      split; [cbn [foldM]; rewrite Hstep; exact Hrun|].
      repeat split; try done.
      + intros field v Hin. apply elem_of_cons in Hin as [[= -> ->]|Hin].
        * rewrite Hframe by done. by rewrite lookup_insert_eq.
        * rewrite (Hfields _ _ Hin). f_equal.
          destruct v as [name|d]; simpl; [|done]. by rewrite Hsame.
      + intros field Hnot. apply not_elem_of_cons in Hnot as [Hne Hnot].
        rewrite Hframe by done. by rewrite lookup_insert_ne.
      + intros k. by rewrite Hsame', Hsame.
      + intros k i Hk. by apply Hkeep', Hkeep1. }
  exists this', store', m'. repeat split; try done.
  - intros field name index Hin Hname. rewrite (Hfields _ _ Hin). simpl.
    by rewrite Hname.
  - intros field name Hin Hname. rewrite (Hfields _ _ Hin). simpl.
    by rewrite Hname.
  - intros field d Hin. by rewrite (Hfields _ _ Hin).
Qed.

Lemma assignValues_total (current : nat) (candidate : list (string * OptionValue))
  (this : Optimizer) (store : MapStore) :
  is_Some (store !! current) ->
  exists this' store',
    foldM (assignValue current) candidate (this, store) = Done (this', store') /\
    is_Some (store' !! current).
Proof.
  revert this store. induction candidate as [|entry candidate IH];
    intros this store [m Hcurrent].
  - exists this, store. by split.
  - destruct (assignValue_spec current this store m entry Hcurrent)
      as (this1 & Hstep & _).
    cbn [foldM]. rewrite Hstep. apply IH. by rewrite lookup_insert_eq.
Qed.

(** The subscript read of the options map returns the axis the key came
    from. *)
Lemma assoc_lookup {V : Type} (options : list (string * V)) (i : nat) (key : string)
  (axis : V) :
  NoDup options.*1 ->
  options !! i = Some (key, axis) ->
  assoc key options = Some axis.
Proof.
  revert i. induction options as [|[k v] options IH]; intros i Hdistinct Hi;
    [done|].
  simpl in Hdistinct. apply NoDup_cons in Hdistinct as [Hfresh Hdistinct].
  simpl. destruct i as [|i]; simpl in Hi.
  - simplify_eq. by rewrite decide_True.
  - rewrite decide_False; [by eapply IH|].
    intros ->. apply Hfresh. apply list_elem_of_fmap. exists (key, axis).
    split; [done|]. by eapply list_elem_of_lookup_2.
Qed.

(** [buildMapConfigurations] from axis [i] on: with distinct axis names it
    returns normally, and what it appends to [results] is the address of
    the shared accumulator, once per point of the product of the axes
    from [i] on. *)
Lemma buildMapConfigurations_replicates (fuel : nat) (options : Options)
  (i current : nat) (results : list nat) (this : Optimizer) (store : MapStore) :
  NoDup options.*1 ->
  i < length options ->
  length options - i <= fuel ->
  is_Some (store !! current) ->
  exists this' store',
    buildMapConfigurations fuel options i current (results, (this, store)) =
      Done (results ++ replicate (product (drop i (axisSizes options))) current,
            (this', store')) /\
    is_Some (store' !! current).
Proof.
  intros Hdistinct. revert i results this store.
  induction fuel as [|fuel IH]; intros i results this store Hi Hfuel Hcurrent;
    [lia|].
  destruct (lookup_lt_is_Some_2 options i Hi) as [[key candidates] Hkey].
  cbn [buildMapConfigurations].
  rewrite list_lookup_fmap, Hkey. simpl.
  rewrite (assoc_lookup options i key candidates Hdistinct Hkey). simpl.
  assert (axisSizes options !! i = Some (length candidates)) as Hsize.
  { unfold axisSizes. by rewrite list_lookup_fmap, Hkey. }
  rewrite (drop_S _ _ _ Hsize). simpl.
  set (rest := product (drop (S i) (axisSizes options))).
  clear Hkey Hsize. revert results this store Hcurrent.
  induction candidates as [|candidate candidates IHc];
    intros results this store Hcurrent.
  - exists this, store. simpl. by rewrite app_nil_r.
  - destruct (assignValues_total current candidate this store Hcurrent)
      as (this1 & store1 & Hassign & Hcurrent1).
    cbn [foldM]. rewrite Hassign. simpl.
    assert (exists this2 store2,
      (if decide (i + 1 < length options.*1)
       then buildMapConfigurations fuel options (i + 1) current
              (results, (this1, store1))
       else Done (results ++ [current], (this1, store1))) =
      Done (results ++ replicate rest current, (this2, store2)) /\
      is_Some (store2 !! current)) as (this2 & store2 & -> & Hcurrent2).
    { rewrite length_fmap.
      destruct (decide (i + 1 < length options)) as [Hmore|Hmore].
      - destruct (IH (i + 1) results this1 store1) as (this2 & store2 & Hrec & H2);
          [lia|lia|done|].
        exists this2, store2. split; [|done].
        rewrite Hrec. subst rest. by rewrite Nat.add_1_r.
      - exists this1, store1. split; [|done].
        subst rest. rewrite drop_ge; [done|].
        unfold axisSizes. rewrite length_map. lia. }
    simpl. destruct (IHc (results ++ replicate rest current) this2 store2 Hcurrent2)
      as (this3 & store3 & Hloop & Hcurrent3).
    exists this3, store3. split; [|done].
    rewrite Hloop. by rewrite <- (assoc_L (++)), <- replicate_add.
Qed.

(** One pass of the conversion loop reads the accumulator behind the
    pointer and the basic columns, and changes [dataIndex] only by
    entering missing names with index 0. *)
Lemma convertMapConfiguration_reads (store : MapStore) (p : nat)
  (m : MapConfiguration) (configurations : list Configuration) (this : Optimizer) :
  store !! p = Some m ->
  exists columns',
    convertMapConfiguration store (configurations, this) p =
      (c ← configurationOf m (column (dataIndex this) "timestamp")
             (column (dataIndex this) "open") (column (dataIndex this) "high")
             (column (dataIndex this) "low") (column (dataIndex this) "close");
       Done (configurations ++ [c], set_dataIndex columns' this)) /\
    forall k, column columns' k = column (dataIndex this) k.
Proof.
  intros Hp. unfold convertMapConfiguration. rewrite Hp.
  destruct (subscript 0%Z "timestamp" (dataIndex this)) as [timestamp di1] eqn:H1.
  destruct (subscript 0%Z "open" di1) as [open di2] eqn:H2.
  destruct (subscript 0%Z "high" di2) as [high di3] eqn:H3.
  destruct (subscript 0%Z "low" di3) as [low di4] eqn:H4.
  destruct (subscript 0%Z "close" di4) as [close di5] eqn:H5.
  assert (forall k, column di1 k = column (dataIndex this) k) as E1.
  { intros k. pose proof (subscript_lookup 0%Z "timestamp" k (dataIndex this)) as E.
    by rewrite H1 in E. }
  assert (forall k, column di2 k = column (dataIndex this) k) as E2.
  { intros k. pose proof (subscript_lookup 0%Z "open" k di1) as E.
    rewrite H2 in E. unfold column. simpl in E. rewrite E. apply E1. }
  assert (forall k, column di3 k = column (dataIndex this) k) as E3.
  { intros k. pose proof (subscript_lookup 0%Z "high" k di2) as E.
    rewrite H3 in E. unfold column. simpl in E. rewrite E. apply E2. }
  assert (forall k, column di4 k = column (dataIndex this) k) as E4.
  { intros k. pose proof (subscript_lookup 0%Z "low" k di3) as E.
    rewrite H4 in E. unfold column. simpl in E. rewrite E. apply E3. }
  assert (forall k, column di5 k = column (dataIndex this) k) as E5.
  { intros k. pose proof (subscript_lookup 0%Z "close" k di4) as E.
    rewrite H5 in E. unfold column. simpl in E. rewrite E. apply E4. }
  exists di5. split; [|done].
  pose proof (subscript_value 0%Z "timestamp" (dataIndex this)) as V1.
  pose proof (subscript_value 0%Z "open" di1) as V2.
  pose proof (subscript_value 0%Z "high" di2) as V3.
  pose proof (subscript_value 0%Z "low" di3) as V4.
  pose proof (subscript_value 0%Z "close" di4) as V5.
  rewrite H1 in V1. rewrite H2 in V2. rewrite H3 in V3. rewrite H4 in V4.
  rewrite H5 in V5. simpl in V1, V2, V3, V4, V5.
  rewrite <- (E1 "open"), <- (E2 "high"), <- (E3 "low"), <- (E4 "close").
  unfold column. rewrite <- V1, <- V2, <- V3, <- V4, <- V5.
  unfold configurationOf.
  repeat (match goal with |- mbind _ ?x = _ => destruct x end;
          cbn [mbind outcome_bind];
          lazymatch goal with
          | |- mbind _ _ = _ => idtac
          | |- _ => reflexivity
          end).
Qed.

(** The conversion loop over [n] copies of one pointer builds [n] copies
    of one configuration. *)
Lemma convert_replicate_of (store : MapStore) (p : nat) (m : MapConfiguration)
  (columns : gmap string Z) (c : Configuration) (n : nat)
  (configurations configurations' : list Configuration) (this this' : Optimizer) :
  store !! p = Some m ->
  configurationOf m (column columns "timestamp") (column columns "open")
    (column columns "high") (column columns "low") (column columns "close")
    = Done c ->
  (forall k, column (dataIndex this) k = column columns k) ->
  foldM (convertMapConfiguration store) (replicate n p) (configurations, this)
    = Done (configurations', this') ->
  configurations' = configurations ++ replicate n c.
Proof.
  intros Hp Hc. revert configurations this.
  induction n as [|n IH]; intros configurations this Hcolumns Hrun.
  - simpl in Hrun. simplify_eq. by rewrite app_nil_r.
  - cbn [replicate foldM] in Hrun.
    destruct (convertMapConfiguration_reads store p m configurations this Hp)
      as (columns' & Hstep & Hsame).
    rewrite Hstep, !Hcolumns, Hc in Hrun. cbn [mbind outcome_bind] in Hrun.
    apply IH in Hrun.
    + rewrite Hrun. by rewrite <- (assoc_L (++)).
    + intros k. simpl. by rewrite Hsame.
Qed.

Lemma convert_replicate (store : MapStore) (p : nat) (m : MapConfiguration)
  (n : nat) (configurations' : list Configuration) (this this' : Optimizer) :
  store !! p = Some m ->
  foldM (convertMapConfiguration store) (replicate n p) ([], this)
    = Done (configurations', this') ->
  exists c, configurations' = replicate n c.
Proof.
  intros Hp Hrun.
  destruct (configurationOf m (column (dataIndex this) "timestamp")
              (column (dataIndex this) "open") (column (dataIndex this) "high")
              (column (dataIndex this) "low") (column (dataIndex this) "close"))
    as [c| | |] eqn:Hc.
  { exists c.
    by apply (convert_replicate_of store p m (dataIndex this) c n [] _ this this'). }
  all: destruct n as [|n]; [exists new_Configuration; simpl in Hrun; by simplify_eq|].
  all: cbn [replicate foldM] in Hrun.
  all: destruct (convertMapConfiguration_reads store p m [] this Hp)
         as (columns' & Hstep & _).
  all: rewrite Hstep, Hc in Hrun; discriminate.
Qed.

(** X10. [buildConfigurations] with distinct axis names: when it returns, it
    returns as many configurations as the product of the numbers of
    candidates of the axes, and they are all the same configuration, read
    from the one accumulator after the last assignment to it. *)
Lemma buildConfigurations_replicates (options : Options) (this this' : Optimizer)
  (configurations : list Configuration) :
  NoDup options.*1 ->
  buildConfigurations options this = Done (configurations, this') ->
  exists c, configurations = replicate (product (axisSizes options)) c.
Proof.
  intros Hdistinct. unfold buildConfigurations. intros Hrun.
  destruct options as [|axis options]; [discriminate|].
  destruct (buildMapConfigurations_replicates (S (length (axis :: options)))
              (axis :: options) 0 0 [] this {[0 := ∅]} Hdistinct)
    as (this1 & store1 & Hmaps & [m Hm]).
  { simpl. lia. }
  { lia. }
  { by rewrite lookup_singleton_eq. }
  rewrite Hmaps in Hrun. cbn [mbind outcome_bind] in Hrun.
  rewrite drop_0, app_nil_l in Hrun.
  by apply (convert_replicate store1 0 m) in Hrun.
Qed.

(** With distinct axis names the map phase always returns: nothing in it
    raises an error, whatever the candidates refer to. *)
Lemma buildMapConfigurations_returns (options : Options) (this : Optimizer) :
  NoDup options.*1 ->
  options <> [] ->
  exists this' store,
    buildMapConfigurations (S (length options)) options 0 0
      ([], (this, {[0 := ∅]})) =
    Done (replicate (product (axisSizes options)) 0, (this', store)).
Proof.
  intros Hdistinct Hsome.
  destruct (buildMapConfigurations_replicates (S (length options)) options 0 0 []
              this {[0 := ∅]} Hdistinct)
    as (this1 & store1 & Hmaps & _).
  { destruct options; [done|simpl; lia]. }
  { lia. }
  { by rewrite lookup_singleton_eq. }
  exists this1, store1. by rewrite Hmaps, drop_0.
Qed.

End ConfigurationFacts.

(** C1 (code at the failing input). For one axis with the two candidates
    [rsiOverbought = 70] and [rsiOverbought = 80], [buildConfigurations]
    returns two configurations, as many as the product says, but both have
    [rsiOverbought = 80]: [results] holds the address of the one shared
    accumulator twice, and the conversion loop reads it after the last
    candidate was written. The point [rsiOverbought = 70] is not among
    the configurations. *)
Theorem buildConfigurations_repeats_last_point :
  exists this',
    Optimizer.buildConfigurations twoCandidates
      (Optimizer.new_Optimizer "ReversalsCombined" "EURUSD" 0)
    = Done ([overbought (double_of_Z 80); overbought (double_of_Z 80)], this').
Proof. eexists. vm_compute. reflexivity. Qed.


(** The loop at an input: a candidate with a resolvable column name, an
    unresolvable one and a number. *)
Lemma assignValues_resolve_witness :
  exists this' store' m',
    foldM (Optimizer.assignValue 0)
      [("sma13", Optimizer.ColumnName "sma13"); ("ema50", Optimizer.ColumnName "sma14");
       ("rsiOverbought", Optimizer.Literal (double_of_Z 70))]
      (withColumns sixColumns, {[0 := ∅]}) = Done (this', store') /\
    store' !! 0 = Some m' /\
    m' !! "sma13" = Some (Optimizer.IntValue 5) /\
    m' !! "ema50" = Some (Optimizer.IntValue 0) /\
    m' !! "rsiOverbought" = Some (Optimizer.DoubleValue (double_of_Z 70)).
Proof.
  destruct (assignValues_resolve 0
              [("sma13", Optimizer.ColumnName "sma13"); ("ema50", Optimizer.ColumnName "sma14");
               ("rsiOverbought", Optimizer.Literal (double_of_Z 70))]
              (withColumns sixColumns) {[0 := ∅]} ∅)
    as (this' & store' & m' & Hrun & Hm' & Hfound & Hmissing & Hliteral & _).
  - apply lookup_singleton_eq.
  - compute_done.
  - exists this', store', m'. repeat split; try done.
    + apply (Hfound "sma13" "sma13"); [|reflexivity]. by left.
    + apply (Hmissing "ema50" "sma14"); [|reflexivity]. right. by left.
    + apply Hliteral. right. right. by left.
Defined.

(** ** Comparisons of binary64 values *)

Lemma SFcompare_antisym (a b : spec_float) :
  SFcompare b a = option_map CompOpp (SFcompare a b).
Proof.
  destruct a as [sa|sa| |sa ma ea], b as [sb|sb| |sb mb eb]; simpl;
    try reflexivity; try (destruct sa; reflexivity); try (destruct sb; reflexivity);
    try (destruct sa, sb; reflexivity).
  destruct sa, sb; simpl; try reflexivity.
  - rewrite (Z.compare_antisym ea eb). destruct (ea ?= eb)%Z; simpl; try reflexivity.
    by rewrite (Pos.compare_cont_antisym ma mb Eq).
  - rewrite (Z.compare_antisym ea eb). destruct (ea ?= eb)%Z; simpl; try reflexivity.
    by rewrite (Pos.compare_cont_antisym ma mb Eq).
Qed.

Lemma dlt_asym (a b : double) : dlt a b = true -> dlt b a = false.
Proof.
  unfold dlt, SFltb. rewrite (SFcompare_antisym a b).
  by destruct (SFcompare a b) as [[]|].
Qed.

Lemma dlt_not_eq (a b : double) : dlt a b = true -> deq b a = false.
Proof.
  unfold dlt, deq, SFltb, SFeqb. rewrite (SFcompare_antisym a b).
  by destruct (SFcompare a b) as [[]|].
Qed.

Section BaseFacts.

Import Base.

Variable Study : Type.
Variable Position : Type.
Variable getHasExpired : Position -> double -> bool.
Variable close : Position -> double -> double -> Position.
Variable getProfitLoss : Position -> double.
Variable getInvestment : Position -> double.

Local Abbreviation won := (Base.won Position getProfitLoss getInvestment).
Local Abbreviation lost := (Base.lost Position getProfitLoss).
Local Abbreviation between := (Base.between Position getProfitLoss getInvestment).

(** C9. [getResults] reports [winRate] as the quotient of [winCount] by
    [winCount + loseCount] when that sum is not zero and as 0 when it is
    zero, with [tradeCount] that sum; no division that [getWinRate]
    evaluates has the divisor zero. *)
Theorem getResults_winRate (self : Base Study) :
  (winCount _ self + loseCount _ self <> 0 ->
   r_winRate (getResults _ self) =
     ddiv (double_of_nat (winCount _ self))
       (double_of_nat (winCount _ self + loseCount _ self))) /\
  (winCount _ self + loseCount _ self = 0 ->
   r_winRate (getResults _ self) = dzero) /\
  r_tradeCount (getResults _ self) = winCount _ self + loseCount _ self /\
  Forall (fun division : nat * nat => division.2 <> 0) (getWinRate_run _ self).2.
Proof.
  unfold getResults, getWinRate, getWinRate_run. simpl.
  case_decide as Hzero; simpl; repeat split; try done.
  by repeat constructor.
Qed.

Lemma between_neither (heap : Heap Position) (r : nat) :
  between heap r -> won heap r = false /\ lost heap r = false.
Proof.
  intros [Hpositive Hbelow]. unfold Base.won, Base.lost. split.
  - by apply dlt_asym.
  - by apply dlt_not_eq.
Qed.

(** The callback on one reference. *)
Lemma closeIfExpired_counts (price timestamp : double) (heap : Heap Position)
  (self : Base Study) (expired : list nat) (index r : nat) :
  exists heap' self',
    (getHasExpired (heap r) timestamp = true ->
     closeIfExpired _ _ getHasExpired close getProfitLoss getInvestment price
       timestamp (heap, self, expired) index r = (heap', self', expired ++ [r]) /\
     heap' = heap_set _ r (close (heap r) price timestamp) heap /\
     winCount _ self' = winCount _ self + (if won heap' r then 1 else 0) /\
     loseCount _ self' = loseCount _ self + (if lost heap' r then 1 else 0)) /\
    (getHasExpired (heap r) timestamp = false ->
     closeIfExpired _ _ getHasExpired close getProfitLoss getInvestment price
       timestamp (heap, self, expired) index r = (heap, self, expired)).
Proof.
  unfold closeIfExpired. destruct (getHasExpired (heap r) timestamp) eqn:Hexpired.
  - cbv zeta.
    remember (heap_set _ r (close (heap r) price timestamp) heap) as heap' eqn:Hheap'.
    destruct (dlt (getInvestment (heap' r)) (getProfitLoss (heap' r))) eqn:Ewon;
      destruct (deq (getProfitLoss (heap' r)) dzero) eqn:Elost;
      eexists _, _; (split; [intros _|done]);
      (split; [reflexivity|]); (split; [done|]);
      unfold Base.won, Base.lost; rewrite Ewon, Elost; simpl; lia.
  - exists heap, self. split; [done|]. by intros _.
Qed.

Lemma closeLoop_counts (price timestamp : double) (refs : list nat) (index : nat)
  (heap heap' : Heap Position) (self self' : Base Study) (expired expired' : list nat) :
  NoDup refs ->
  forEach_from
    (closeIfExpired _ _ getHasExpired close getProfitLoss getInvestment price timestamp)
    index refs (heap, self, expired) = (heap', self', expired') ->
  exists settled,
    expired' = expired ++ settled /\
    (forall r, r ∈ settled -> r ∈ refs) /\
    (forall r, r ∉ refs -> heap' r = heap r) /\
    (forall r, r ∈ settled ->
       getHasExpired (heap r) timestamp = true /\
       heap' r = close (heap r) price timestamp) /\
    winCount _ self' = winCount _ self + length (List.filter (won heap') settled) /\
    loseCount _ self' = loseCount _ self + length (List.filter (lost heap') settled).
Proof.
  intros Hdistinct. revert index heap self expired.
  induction refs as [|r refs IH]; intros index heap self expired Hrun.
  - simpl in Hrun. simplify_eq. exists []. split_and!.
    + by rewrite app_nil_r.
    + intros r Hr. by apply elem_of_nil in Hr.
    + done.
    + intros r Hr. by apply elem_of_nil in Hr.
    + simpl. lia.
    + simpl. lia.
  - apply NoDup_cons in Hdistinct as [Hfresh Hdistinct].
    cbn [forEach_from] in Hrun.
    destruct (closeIfExpired_counts price timestamp heap self expired index r)
      as (heap1 & self1 & Hyes & Hno).
    destruct (getHasExpired (heap r) timestamp) eqn:Hexpired.
    + destruct (Hyes eq_refl) as (Hstep & Hheap1 & Hwin & Hlose).
      rewrite Hstep in Hrun.
      destruct (IH Hdistinct _ _ _ _ Hrun)
        as (settled & -> & Hsub & Hframe & Hclosed & Hwin' & Hlose').
      assert (forall r', r' <> r -> heap1 r' = heap r') as Hother.
      { intros r' Hne. rewrite Hheap1. unfold heap_set. by rewrite decide_False. }
      assert (heap' r = close (heap r) price timestamp) as Hr.
      { rewrite (Hframe r Hfresh), Hheap1. unfold heap_set. by rewrite decide_True. }
      assert (won heap' r = won heap1 r /\ lost heap' r = lost heap1 r) as [Ew El].
      { unfold Base.won, Base.lost. by rewrite (Hframe r Hfresh). }
      exists (r :: settled). split_and!.
      * by rewrite <- (assoc_L (++)).
      * intros r' Hr'. apply elem_of_cons in Hr' as [->|Hr']; [left|right; auto].
      * intros r' Hr'. apply not_elem_of_cons in Hr' as [Hne Hr'].
        by rewrite (Hframe r' Hr'), Hother.
      * intros r' Hr'. apply elem_of_cons in Hr' as [->|Hin]; [done|].
        assert (r' <> r) as Hne by (intros ->; by apply Hsub in Hin).
        destruct (Hclosed _ Hin) as [He Hc]. rewrite (Hother _ Hne) in He, Hc.
        done.
      * simpl. rewrite Hwin', Hwin, <- Ew.
        destruct (won heap' r); simpl; lia.
      * simpl. rewrite Hlose', Hlose, <- El.
        destruct (lost heap' r); simpl; lia.
    + rewrite (Hno eq_refl) in Hrun.
      destruct (IH Hdistinct _ _ _ _ Hrun)
        as (settled & -> & Hsub & Hframe & Hclosed & Hwin' & Hlose').
      exists settled. split_and!; try done.
      * intros r' Hr'. right. auto.
      * intros r' Hr'. apply not_elem_of_cons in Hr' as [Hne Hr']. auto.
Qed.

(** C10. One call of [closeExpiredPositions] on distinct open positions:
    the positions it returns are the expired ones, now closed; [winCount]
    grows by the number of them whose profit/loss strictly exceeds the
    investment, [loseCount] by the number of them whose profit/loss equals
    0; a returned position whose profit/loss is strictly between 0 and its
    investment is counted by neither. So when every returned position is
    of that kind and the counters were zero, the [tradeCount] that
    [getResults] reports is strictly smaller than the number of positions
    settled. *)
Theorem closeExpiredPositions_counts (heap heap' : Heap Position)
  (self self' : Base Study) (price timestamp : double) (expired : list nat) :
  NoDup (openPositions _ self) ->
  closeExpiredPositions _ _ getHasExpired close getProfitLoss getInvestment heap
    self price timestamp = (heap', self', expired) ->
  (forall r, r ∈ expired ->
     getHasExpired (heap r) timestamp = true /\
     heap' r = close (heap r) price timestamp) /\
  winCount _ self' = winCount _ self + length (List.filter (won heap') expired) /\
  loseCount _ self' = loseCount _ self + length (List.filter (lost heap') expired) /\
  (forall r, r ∈ expired -> between heap' r ->
     won heap' r = false /\ lost heap' r = false) /\
  ((forall r, r ∈ expired -> between heap' r) ->
   expired <> [] ->
   winCount _ self + loseCount _ self = 0 ->
   r_tradeCount (getResults _ self') < length expired).
Proof.
  intros Hdistinct Hrun. unfold closeExpiredPositions in Hrun.
  apply closeLoop_counts in Hrun as
    (settled & Hsettled & _ & _ & Hclosed & Hwin & Hlose); [|done].
  simpl in Hsettled. subst settled. split_and!; try done.
  - intros r _. apply between_neither.
  - intros Hall Hsome Hzero. simpl. rewrite Hwin, Hlose.
    assert (List.filter (won heap') expired = [] /\
            List.filter (lost heap') expired = []) as [-> ->].
    { clear -Hall. induction expired as [|r expired IH]; [done|].
      destruct (between_neither heap' r) as [Hw Hl]; [apply Hall; left|].
      simpl. rewrite Hw, Hl. apply IH. intros r' Hr'. apply Hall. by right. }
    simpl. destruct expired; [done|]. simpl. lia.
Qed.

End BaseFacts.

(** C9 at two states: no trade yet, and three wins out of four trades. *)
Lemma getResults_winRate_witness :
  Base.r_winRate (Base.getResults unit (Base.new_Base unit "EURUSD")) = dzero /\
  Base.r_winRate (Base.getResults unit threeOfFour) =
    ddiv (double_of_nat 3) (double_of_nat 4).
Proof.
  split.
  - apply (getResults_winRate unit (Base.new_Base unit "EURUSD")). reflexivity.
  - apply (getResults_winRate unit threeOfFour). simpl. lia.
Defined.

(** C10 at an input: one position settles with profit/loss 5 on an
    investment of 10; one position was settled and [tradeCount] is 0. *)
Lemma closeExpiredPositions_counts_witness :
  length settledOnce.2 = 1 /\
  Base.r_tradeCount (Base.getResults unit settledOnce.1.2) < length settledOnce.2.
Proof.
  split; [reflexivity|].
  destruct (closeExpiredPositions_counts unit simplePosition sp_getHasExpired
              sp_close sp_getProfitLoss sp_investment halfBack settledOnce.1.1
              oneOpenPosition settledOnce.1.2 (double_of_Z 1)
              (double_of_Z 1420070700) settledOnce.2)
    as (_ & _ & _ & _ & Hfewer).
  - apply NoDup_singleton.
  - reflexivity.
  - apply Hfewer.
    + intros r Hr. apply list_elem_of_singleton in Hr. subst r.
      split; vm_compute; reflexivity.
    + discriminate.
    + reflexivity.
Defined.

Section BacktestFacts.

Import ReversalsCombined.

Variable Self : Type.
Variable R : Type.
Variable tick : Self -> DataPoint -> outcome (Self * DataPoint).
Variable getHours : jsval -> double.
Variable getResults : Self -> R.

(** The moving-average block clears the put flag when the slower average
    is strictly below the faster one. *)
Lemma averagesBlock_clears_put (slow fast : jsval) (flags : bool * bool) :
  js_lt slow fast = true -> (averagesBlock slow fast flags).1 = false.
Proof.
  intros Hlt. destruct flags as [put call]. unfold averagesBlock.
  destruct (negb (truthy slow) || negb (truthy fast)); simpl; [done|].
  rewrite Hlt. by destruct put.
Qed.

(** It lets the put flag through when the slower average is not below the
    faster one and both are truthy. *)
Lemma averagesBlock_keeps_put (slow fast : jsval) (call : bool) :
  truthy slow = true -> truthy fast = true -> js_lt slow fast = false ->
  (averagesBlock slow fast (true, call)).1 = true.
Proof.
  intros Hslow Hfast Hlt. unfold averagesBlock. rewrite Hslow, Hfast. simpl.
  by rewrite Hlt.
Qed.

(** No block sets a flag that is cleared. *)
Lemma averagesBlock_put_stays (slow fast : jsval) (flags : bool * bool) :
  flags.1 = false -> (averagesBlock slow fast flags).1 = false.
Proof.
  destruct flags as [put call]. simpl. intros ->. unfold averagesBlock.
  by destruct (negb (truthy slow) || negb (truthy fast)).
Qed.

Lemma rsiBlock_put_stays (dataPoint : DataPoint) (r : Rsi) (flags : bool * bool) :
  flags.1 = false -> (rsiBlock dataPoint r flags).1 = false.
Proof.
  destruct flags as [put call]. simpl. intros ->. unfold rsiBlock.
  by destruct (dataPoint !! rsi_rsi r).
Qed.

Lemma prChannelBlock_put_stays (dataPoint : DataPoint) (pr : PrChannel)
  (flags : bool * bool) :
  flags.1 = false -> (prChannelBlock dataPoint pr flags).1 = false.
Proof.
  destruct flags as [put call]. simpl. intros ->. unfold prChannelBlock.
  by destruct (truthy (dataPoint !! pr_upper pr) && truthy (dataPoint !! pr_lower pr)).
Qed.

Lemma trendPrChannelBlock_put_stays (previousDataPoint : option DataPoint)
  (dataPoint : DataPoint) (trend : TrendPrChannel) (flags : bool * bool) :
  flags.1 = false ->
  (trendPrChannelBlock previousDataPoint dataPoint trend flags).1 = false.
Proof.
  destruct flags as [put call]. simpl. intros ->. unfold trendPrChannelBlock.
  destruct previousDataPoint as [previous|]; [|done].
  by destruct (truthy (dataPoint !! trend_regression trend) &&
               truthy (previous !! trend_regression trend)).
Qed.

(** A configuration with [ema200] and [ema100] set does not ask for a put
    on a data point whose [ema200] is strictly below its [ema100]. *)
Lemma evaluateConfiguration_no_put (previousDataPoint : option DataPoint)
  (dataPoint : DataPoint) (configuration : Configuration) :
  ema200 configuration = true ->
  ema100 configuration = true ->
  js_lt (dataPoint !! "ema200") (dataPoint !! "ema100") = true ->
  (evaluateConfiguration previousDataPoint dataPoint configuration).1 = false.
Proof.
  intros H200 H100 Hlt. unfold evaluateConfiguration. rewrite H200, H100.
  cbn [andb]. cbv zeta.
  repeat match goal with
         | |- (averagesBlock _ _ (true, true)).1 = false =>
             by apply averagesBlock_clears_put
         | |- (match ?x with Some _ => _ | None => _ end).1 = false => destruct x
         | |- (if ?b then _ else _).1 = false => destruct b
         | |- (trendPrChannelBlock _ _ _ _).1 = false =>
             apply trendPrChannelBlock_put_stays
         | |- (prChannelBlock _ _ _).1 = false => apply prChannelBlock_put_stays
         | |- (rsiBlock _ _ _).1 = false => apply rsiBlock_put_stays
         | |- (averagesBlock _ _ _).1 = false => apply averagesBlock_put_stays
         end.
Qed.

(** The ordering that lets a put through: a configuration that enables
    the moving-average blocks only keeps its put flag on a data point
    whose four averages are present and non-zero with none of them below
    the next faster one. *)
Lemma evaluateConfiguration_put_on_falling_averages
  (previousDataPoint : option DataPoint) (dataPoint : DataPoint) :
  truthy (dataPoint !! "ema200") = true ->
  truthy (dataPoint !! "ema100") = true ->
  truthy (dataPoint !! "ema50") = true ->
  truthy (dataPoint !! "sma13") = true ->
  js_lt (dataPoint !! "ema200") (dataPoint !! "ema100") = false ->
  js_lt (dataPoint !! "ema100") (dataPoint !! "ema50") = false ->
  js_lt (dataPoint !! "ema50") (dataPoint !! "sma13") = false ->
  (evaluateConfiguration previousDataPoint dataPoint
     (mkConfiguration true true true true None None None)).1 = true.
Proof.
  intros T200 T100 T50 T13 L1 L2 L3. unfold evaluateConfiguration.
  cbn [ema200 ema100 ema50 sma13 rsi prChannel trendPrChannel andb]. cbv zeta.
  pose proof (averagesBlock_keeps_put _ _ true T200 T100 L1) as H1.
  destruct (averagesBlock (dataPoint !! "ema200") (dataPoint !! "ema100") (true, true))
    as [put1 call1]. simpl in H1. subst put1.
  pose proof (averagesBlock_keeps_put _ _ call1 T100 T50 L2) as H2.
  destruct (averagesBlock (dataPoint !! "ema100") (dataPoint !! "ema50") (true, call1))
    as [put2 call2]. simpl in H2. subst put2.
  by apply averagesBlock_keeps_put.
Qed.

(** The put flag of the tick is the disjunction over the configurations. *)
Lemma putNextTick_false (previousDataPoint : option DataPoint) (dataPoint : DataPoint)
  (configurations : list Configuration) (next : bool * bool) :
  (forall c, c ∈ configurations ->
     (evaluateConfiguration previousDataPoint dataPoint c).1 = false) ->
  (fold_left
     (fun next configuration =>
        let '(putThisConfiguration, callThisConfiguration) :=
          evaluateConfiguration previousDataPoint dataPoint configuration in
        (next.1 || putThisConfiguration, next.2 || callThisConfiguration))
     configurations next).1 = next.1.
Proof.
  revert next. induction configurations as [|c configurations IH]; intros next Hall;
    [done|].
  simpl. rewrite IH.
  - pose proof (Hall c ltac:(left)) as Hc.
    destruct (evaluateConfiguration previousDataPoint dataPoint c) as [put call].
    simpl in *. subst put. by rewrite orb_false_r.
  - intros c' Hc'. apply Hall. by right.
Qed.

(** The flags of a tick, for a strategy whose [tick] returns. When every
    configuration of the strategy has [ema200] and [ema100] set, and the data point of the tick (as [tick] leaves it)
    has [ema200] strictly below [ema100], no configuration raises its put
    flag and [backtest] writes no PUT line for the tick: the lines already
    written are followed by at most a CALL line. *)
Theorem backtestDataPoint_no_put (configurations : list Configuration)
  (self self' : Self) (previousDataPoint : option DataPoint)
  (out : list (Output R)) (dataPoint dataPoint' : DataPoint) :
  (forall c, c ∈ configurations -> ema200 c = true /\ ema100 c = true) ->
  tick self dataPoint = Done (self', dataPoint') ->
  js_lt (dataPoint' !! "ema200") (dataPoint' !! "ema100") = true ->
  (forall c, c ∈ configurations ->
     (evaluateConfiguration previousDataPoint dataPoint' c).1 = false) /\
  exists out',
    backtestDataPoint Self R tick getHours configurations
      (self, previousDataPoint, out) dataPoint = Done (self', Some dataPoint', out') /\
    (out' = out \/ exists time, out' = out ++ [CallAt time]).
Proof.
  intros Hconfigurations Htick Hlt.
  assert (forall c, c ∈ configurations ->
            (evaluateConfiguration previousDataPoint dataPoint' c).1 = false) as Hput.
  { intros c Hc. destruct (Hconfigurations c Hc) as [H200 H100].
    by apply evaluateConfiguration_no_put. }
  split; [done|].
  unfold backtestDataPoint. rewrite Htick. cbn [mbind outcome_bind].
  destruct (dle dzero _ && dlt _ _); [eauto|].
  pose proof (putNextTick_false previousDataPoint dataPoint' configurations
                (false, false) Hput) as Hnext.
  destruct (fold_left _ configurations (false, false)) as [putNextTick callNextTick].
  simpl in Hnext. subst putNextTick.
  destruct callNextTick; eauto.
Qed.

End BacktestFacts.

(** With a stand-in for [tick] that returns the strategy and the data
    point as they are (the [tick] of the sources throws), a configuration
    that enables the moving-average blocks and a data point with
    [ema200 = 4 >= ema100 = 3]: [backtest] writes a PUT line for the tick.
    The blocks keep the put flag when no average is below the next faster
    one. *)
Lemma backtest_put_when_ema200_above_ema100 :
  js_ge (fallingAverages !! "ema200") (fallingAverages !! "ema100") = true /\
  ReversalsCombined.backtest unit unit keepTick noon (fun _ => tt) [movingAverages]
    tt [fallingAverages]
  = Done (tt, [ReversalsCombined.PutAt (double_of_Z 1420114600);
               ReversalsCombined.ResultsLine tt]).
Proof. split; vm_compute; reflexivity. Qed.

(** With the same stand-in, the same configuration on a data point with
    [ema200 = 1 < ema100 = 2] raises no put flag, and the tick writes a
    CALL line only. *)
Lemma backtestDataPoint_no_put_witness :
  (ReversalsCombined.evaluateConfiguration None risingAverages movingAverages).1 = false /\
  ReversalsCombined.backtestDataPoint unit unit keepTick noon [movingAverages]
    (tt, None, []) risingAverages
  = Done (tt, Some risingAverages, [ReversalsCombined.CallAt (double_of_Z 1420114600)]).
Proof.
  destruct (backtestDataPoint_no_put unit unit keepTick noon [movingAverages] tt tt
              None [] risingAverages risingAverages)
    as (Hflag & out' & Hrun & Hout).
  - intros c Hc. apply list_elem_of_singleton in Hc. subst c. by split.
  - reflexivity.
  - vm_compute. reflexivity.
  - split; [apply Hflag; left|]. vm_compute. reflexivity.
Defined.

(** * Further properties of optimizer.cpp *)

Section SaveFacts.

Import Optimizer.

(** The order in which the entries of a map are iterated. *)
Lemma in_key_order_Permutation {V : Type} (m : gmap string V) :
  in_key_order m ≡ₚ map_to_list m.
Proof. apply merge_sort_Permutation. Qed.

Lemma in_key_order_Sorted {V : Type} (m : gmap string V) :
  Sorted (fun a b => Is_true (String.leb a.1 b.1)) (in_key_order m).
Proof.
  apply Sorted_merge_sort. intros a b.
  destruct (String.leb_total a.1 b.1) as [H|H]; [left|right]; by rewrite H.
Qed.

(** A converted value fits in 32 bits. *)
Lemma int32_of_double_range (d : double) (z : Z) :
  int32_of_double d = Done z -> (- 2 ^ 31 <= z <= 2 ^ 31 - 1)%Z.
Proof.
  unfold int32_of_double. destruct d as [s| | |s m e]; try discriminate.
  - intros [= <-]. lia.
  - cbv zeta. case_decide; [|discriminate]. by intros [= <-].
Qed.

(** The conversion throws nothing. *)
Lemma int32_of_double_no_throw (d : double) (what : string) :
  int32_of_double d <> Thrown what.
Proof.
  unfold int32_of_double. destruct d as [s| | |s m e]; try done.
  cbv zeta. by case_decide.
Qed.

(** What [convertTickToBson] throws, it throws for a missing group tag. *)
Lemma convertTickToBson_throws (this : Optimizer) (tick : Tick) :
  (exists what, convertTickToBson this tick = Thrown what) <->
  tick !! "testingGroups" = None \/
  (exists testingGroups tag,
     tick !! "testingGroups" = Some testingGroups /\
     int32_of_double testingGroups = Done tag /\
     tick !! "validationGroups" = None).
Proof.
  unfold convertTickToBson.
  destruct (tick !! "testingGroups") as [testingGroups|]; [|split; eauto].
  destruct (int32_of_double testingGroups) as [tag|w|why|] eqn:Htag;
    cbn [mbind outcome_bind].
  - destruct (tick !! "validationGroups") as [validationGroups|].
    + destruct (int32_of_double validationGroups) as [tag'|w|why|] eqn:Htag';
        cbn [mbind outcome_bind].
      * split; [by intros [w ?]|]. intros [?|(? & ? & ? & ? & ?)]; discriminate.
      * by apply int32_of_double_no_throw in Htag'.
      * split; [by intros [w ?]|]. intros [?|(? & ? & ? & ? & ?)]; discriminate.
      * split; [by intros [w ?]|]. intros [?|(? & ? & ? & ? & ?)]; discriminate.
    + split; [|eauto]. intros _. right. eauto.
  - by apply int32_of_double_no_throw in Htag.
  - split; [by intros [w ?]|]. intros [?|(? & ? & ? & ? & ?)]; simplify_eq; congruence.
  - split; [by intros [w ?]|]. intros [?|(? & ? & ? & ? & ?)]; simplify_eq; congruence.
Qed.

(** X1. With both group tags present and each, truncated toward zero,
    within the range of a 32-bit integer, the document carries the symbol
    and the two truncated tags; its data subdocument holds every other
    field of the tick with its value, once, in ascending order of the
    field names, and neither tag; the tick itself loses the two tags. *)
Lemma convertTickToBson_document (this : Optimizer) (tick : Tick)
  (testingGroups validationGroups : double) (testingTag validationTag : Z) :
  tick !! "testingGroups" = Some testingGroups ->
  tick !! "validationGroups" = Some validationGroups ->
  int32_of_double testingGroups = Done testingTag ->
  int32_of_double validationGroups = Done validationTag ->
  exists document tick',
    convertTickToBson this tick = Done (document, tick') /\
    b_symbol document = symbol this /\
    b_testingGroups document = testingTag /\
    b_validationGroups document = validationTag /\
    (- 2 ^ 31 <= testingTag <= 2 ^ 31 - 1)%Z /\
    (- 2 ^ 31 <= validationTag <= 2 ^ 31 - 1)%Z /\
    NoDup (b_data document).*1 /\
    Sorted (fun a b => Is_true (String.leb a.1 b.1)) (b_data document) /\
    (forall k v, (k, v) ∈ b_data document <->
       k <> "testingGroups" /\ k <> "validationGroups" /\ tick !! k = Some v) /\
    (forall k, tick' !! k =
       if decide (k = "testingGroups" \/ k = "validationGroups") then None
       else tick !! k).
Proof.
  intros Htesting Hvalidation HtestingTag HvalidationTag. unfold convertTickToBson.
  rewrite Htesting, HtestingTag. cbn [mbind outcome_bind].
  rewrite Hvalidation, HvalidationTag. cbn [mbind outcome_bind].
  eexists _, _. split; [reflexivity|]. cbn [b_symbol b_testingGroups
    b_validationGroups b_data].
  apply int32_of_double_range in HtestingTag, HvalidationTag.
  split_and!; try done; try lia.
  - rewrite in_key_order_Permutation. apply NoDup_fst_map_to_list.
  - apply in_key_order_Sorted.
  - intros k v. rewrite in_key_order_Permutation, elem_of_map_to_list.
    destruct (decide (k = "validationGroups")) as [->|Hv].
    { rewrite lookup_delete_eq. split; [done|]. by intros (_ & ? & _). }
    rewrite lookup_delete_ne by done.
    destruct (decide (k = "testingGroups")) as [->|Ht].
    { rewrite lookup_delete_eq. split; [done|]. by intros (? & _). }
    rewrite lookup_delete_ne by done.
    split; [by intros ?|by intros (_ & _ & ?)].
  - intros k. case_decide as Hk.
    + destruct Hk as [->| ->].
      * rewrite lookup_delete_ne by done. apply lookup_delete_eq.
      * apply lookup_delete_eq.
    + rewrite !lookup_delete_ne; [done| |]; intros <-; apply Hk; auto.
Qed.

(** The insertion loop appends one document per tick and leaves every tick
    it converted without the tag [testingGroups]. *)
Lemma insertTicks_erases (this : Optimizer) (ticks : list nat)
  (store store' : TickStore) (documents documents' : list bson) :
  foldM (insertTick this) ticks (store, documents) = Done (store', documents') ->
  (exists added, documents' = documents ++ added /\ length added = length ticks /\
                 Forall (fun d => b_symbol d = symbol this) added) /\
  (forall p, p ∈ ticks ->
     exists tick, store' !! p = Some tick /\ tick !! "testingGroups" = None) /\
  (forall p tick, store !! p = Some tick -> tick !! "testingGroups" = None ->
     store' !! p = Some tick).
Proof.
  revert store documents. induction ticks as [|p ticks IH];
    intros store documents Hrun.
  - simpl in Hrun. simplify_eq. split_and!.
    + exists []. by rewrite app_nil_r.
    + intros p Hp. by apply elem_of_nil in Hp.
    + done.
  - cbn [foldM] in Hrun. bind_inv Hrun as [store1 documents1] Hstep.
    unfold insertTick in Hstep.
    destruct (store !! p) as [tick|] eqn:Hp; [|discriminate].
    bind_inv Hstep as [document tick'] Hconvert. simplify_eq.
    assert (tick' !! "testingGroups" = None /\ b_symbol document = symbol this /\
            is_Some (tick !! "testingGroups")) as (Herased & Hsymbol & Hhad).
    { unfold convertTickToBson in Hconvert.
      destruct (tick !! "testingGroups"); [|discriminate].
      bind_inv Hconvert as testingTag HtestingTag.
      destruct (tick !! "validationGroups"); [|discriminate].
      bind_inv Hconvert as validationTag HvalidationTag. simplify_eq.
      split_and!; [|done|done].
      rewrite lookup_delete_ne by done. apply lookup_delete_eq. }
    destruct (IH _ _ Hrun) as ((added & -> & Hlength & Hsymbols) & Hticks & Hkept).
    split_and!.
    + exists (document :: added). rewrite <- (assoc_L (++)). simpl.
      split_and!; [done|by rewrite Hlength|by constructor].
    + intros q Hq. apply elem_of_cons in Hq as [->|Hq]; [|by apply Hticks].
      exists tick'. split; [|done]. apply Hkept; [|done]. apply lookup_insert_eq.
    + intros q tickq Hq Hnone. apply Hkept; [|done].
      rewrite lookup_insert_ne; [done|]. intros ->.
      rewrite Hp in Hq. simplify_eq. rewrite Hnone in Hhad. by destruct Hhad.
Qed.

(** X2. [saveTicks] does nothing for an empty batch; otherwise, when it
    returns, the collection has gained one document per tick of the batch,
    each with the optimizer's symbol, and the batch is recorded once. *)
Lemma saveTicks_appends (this : Optimizer) (ticks : list nat) (w w' : Ingest) :
  saveTicks this ticks w = Done w' ->
  (ticks = [] -> w' = w) /\
  (ticks <> [] -> persisted w' = persisted w ++ [ticks]) /\
  exists added,
    datapoints w' = datapoints w ++ added /\
    length added = length ticks /\
    Forall (fun d => b_symbol d = symbol this) added.
Proof.
  unfold saveTicks. case_decide as Hempty.
  - intros [= <-]. apply nil_length_inv in Hempty. subst.
    split_and!; [done|done|]. exists []. by rewrite app_nil_r.
  - intros Hrun. bind_inv Hrun as [store documents] Hloop. simplify_eq. simpl.
    apply insertTicks_erases in Hloop as ((added & Hadded & Hlength & Hsymbols) & _).
    simpl in Hadded. subst documents.
    split_and!; [by intros ->|done|]. by exists added.
Qed.

(** X3. A tick is saved at most once: after a batch was saved, saving any tick
    of it again throws, because the first save erased its group tags. *)
Lemma saveTicks_again_throws (this : Optimizer) (ticks : list nat) (w w' : Ingest)
  (p : nat) (more : list nat) :
  saveTicks this ticks w = Done w' ->
  p ∈ ticks ->
  saveTicks this (p :: more) w' = Thrown "std::out_of_range".
Proof.
  intros Hrun Hp. unfold saveTicks in Hrun. case_decide as Hempty.
  { apply nil_length_inv in Hempty. subst. by apply elem_of_nil in Hp. }
  bind_inv Hrun as [store documents] Hloop. simplify_eq.
  apply insertTicks_erases in Hloop as (_ & Hticks & _).
  destruct (Hticks p Hp) as (tick & Hstore & Hnone).
  unfold saveTicks. simpl. unfold insertTick at 1. rewrite Hstore.
  unfold convertTickToBson. by rewrite Hnone.
Qed.

End SaveFacts.

Section WindowFacts.

Import Optimizer.

Variable Study : Type.
Variable study_tick : Study -> TickStore -> list nat -> Study.
Variable getTickOutputs : Study -> list (string * double).





End WindowFacts.

Section RowFacts.

Import Optimizer.

(** X6. [loadData] throws exactly when the count query fails, and then it
    throws [std::runtime_error]. *)
Lemma loadData_throws_iff (count : Z) (cursor : list bson) (dataPropertyCount : nat)
  (this : Optimizer) (what : string) :
  loadData count cursor dataPropertyCount this = Thrown what <->
  (count < 0)%Z /\ what = "std::runtime_error".
Proof.
  split.
  - intros Hrun.
    pose proof (loadData_throws_only_on_failed_count _ _ _ _ _ Hrun) as Hneg.
    split; [done|]. unfold loadData in Hrun. simpl in Hrun.
    rewrite decide_True in Hrun by done. by simplify_eq.
  - intros [Hneg ->]. unfold loadData. simpl. by rewrite decide_True.
Qed.

(** The loop over the properties of one document writes their values into
    the cells of the row from [propertyIndex] on. *)
Lemma loadProperties_row (dataPointIndex : nat) (properties : list (string * double))
  (propertyIndex propertyIndex' : nat) (this this' : Optimizer) (row : Row) :
  data this !! dataPointIndex = Some (Some row) ->
  propertyIndex <= length row ->
  foldM (loadProperty dataPointIndex) properties (propertyIndex, this)
    = Done (propertyIndex', this') ->
  propertyIndex + length properties <= length row /\
  dataCount this' = dataCount this /\
  data this' =
    <[dataPointIndex :=
        Some (take propertyIndex row ++ (Some <$> properties.*2) ++
              drop (propertyIndex + length properties) row)]> (data this).
Proof.
  revert propertyIndex this row.
  induction properties as [|property properties IH];
    intros propertyIndex this row Hrow Hindex Hrun.
  - simpl in Hrun. simplify_eq. simpl. rewrite Nat.add_0_r, take_drop.
    split_and!; [lia|done|by rewrite list_insert_id].
  - cbn [foldM] in Hrun. bind_inv Hrun as [index1 this1] Hstep.
    unfold loadProperty in Hstep. bind_inv Hstep as data1 Hcell.
    unfold writeCell in Hcell. rewrite Hrow in Hcell.
    bind_inv Hcell as row1 Hset. unfold vector_set in Hset.
    destruct (decide (propertyIndex < length row)) as [Hlt|?]; [|discriminate].
    simplify_eq.
    set (row1 := <[propertyIndex := Some property.2]> row) in *.
    set (data1 := <[dataPointIndex := Some row1]> (data this)) in *.
    match type of Hrun with
    | foldM _ _ (_, ?t) = _ => remember t as this2 eqn:Hthis2
    end.
    assert (data this2 = data1 /\ dataCount this2 = dataCount this)
      as [Hdata Hcount].
    { subst this2. by destruct (decide (dataCount this = 0%Z)). }
    clear Hthis2. rename Hrun into Hrest.
    assert (data this2 !! dataPointIndex = Some (Some row1)) as Hrow1.
    { rewrite Hdata. subst data1. apply list_lookup_insert_eq.
      by eapply lookup_lt_Some. }
    apply (IH _ _ row1 Hrow1) in Hrest as (Hlen & Hcount' & Hdata').
    2: { subst row1. rewrite length_insert. lia. }
    subst row1. rewrite length_insert in Hlen. simpl.
    split_and!; [lia|congruence|].
    rewrite Hdata', Hdata. subst data1. rewrite list_insert_insert_eq.
    f_equal. f_equal.
    rewrite take_S_r with (x := Some property.2)
      by (apply list_lookup_insert_eq; lia).
    rewrite take_insert_ge by lia. rewrite drop_insert_lt by lia.
    rewrite <- (assoc_L (++)). simpl.
    by replace (propertyIndex + S (length properties))
      with (S (propertyIndex + length properties)) by lia.
Qed.

(** One pass of the loop over the query results fills the next row slot
    with the row of the document. *)
Lemma loadDocument_row (dataPropertyCount : nat) (dataPointIndex dataPointIndex' : nat)
  (this this' : Optimizer) (document : bson) :
  loadDocument dataPropertyCount (dataPointIndex, this) document
    = Done (dataPointIndex', this') ->
  dataPointIndex' = S dataPointIndex /\
  dataPointIndex < length (data this) /\
  length (b_data document) <= dataPropertyCount /\
  dataCount this' = dataCount this /\
  data this' = <[dataPointIndex := Some (rowOf dataPropertyCount document)]> (data this).
Proof.
  unfold loadDocument. intros Hrun. bind_inv Hrun as data1 Hslot.
  bind_inv Hrun as [index this1] Hprops. simplify_eq.
  unfold vector_set in Hslot.
  destruct (decide (dataPointIndex < length (data this))) as [Hlt|?];
    [|discriminate].
  simplify_eq.
  eapply (loadProperties_row _ _ _ _ _ _ (replicate dataPropertyCount None))
    in Hprops as (Hlen & Hcount & Hdata).
  - rewrite length_replicate in Hlen. simpl in *.
    split_and!; [done|done|lia|done|].
    rewrite Hdata, list_insert_insert_eq. unfold rowOf.
    by rewrite drop_replicate.
  - simpl. by apply list_lookup_insert_eq.
  - lia.
Qed.

Lemma loadDocuments_rows (dataPropertyCount : nat) (cursor : list bson)
  (dataPointIndex dataPointIndex' : nat) (this this' : Optimizer)
  (loaded : list (option Row)) (free : nat) :
  data this = loaded ++ replicate free None ->
  length loaded = dataPointIndex ->
  foldM (loadDocument dataPropertyCount) cursor (dataPointIndex, this)
    = Done (dataPointIndex', this') ->
  length cursor <= free /\
  Forall (fun document => length (b_data document) <= dataPropertyCount) cursor /\
  dataCount this' = dataCount this /\
  data this' =
    loaded ++ (Some ∘ rowOf dataPropertyCount <$> cursor) ++
    replicate (free - length cursor) None.
Proof.
  revert dataPointIndex this loaded free.
  induction cursor as [|document cursor IH];
    intros dataPointIndex this loaded free Hdata Hloaded Hrun.
  - simpl in Hrun. simplify_eq. simpl. rewrite Nat.sub_0_r.
    split_and!; [lia|done|done|done].
  - cbn [foldM] in Hrun. bind_inv Hrun as [index1 this1] Hstep.
    apply loadDocument_row in Hstep as (-> & Hlt & Hwidth & Hcount & Hdata1).
    rewrite Hdata, length_app, length_replicate in Hlt.
    destruct free as [|free]; [lia|].
    apply (IH _ _ (loaded ++ [Some (rowOf dataPropertyCount document)]) free)
      in Hrun as (Hlen & Hwidths & Hcount' & Hdata').
    + simpl. split_and!; [lia|by constructor|congruence|].
      rewrite Hdata'. by rewrite <- (assoc_L (++)).
    + rewrite Hdata1, Hdata. rewrite insert_app_r_alt by lia.
      replace (dataPointIndex - length loaded) with 0 by lia. simpl.
      by rewrite <- (assoc_L (++)).
    + rewrite length_app. simpl. lia.
Qed.

(** X7. When [loadData] returns, [dataCount] is the count, no more documents
    came than were counted, none has more data fields than there are
    cells in a row, and the matrix holds, row by row in cursor order, the
    values of each document's data fields in document order; row slots
    past the last document stay unset. *)
Lemma loadData_rows (count : Z) (cursor : list bson) (dataPropertyCount : nat)
  (this this' : Optimizer) :
  loadData count cursor dataPropertyCount this = Done this' ->
  dataCount this' = count /\
  length cursor <= Z.to_nat count /\
  Forall (fun document => length (b_data document) <= dataPropertyCount) cursor /\
  data this' =
    (Some ∘ rowOf dataPropertyCount <$> cursor) ++
    replicate (Z.to_nat count - length cursor) None.
Proof.
  unfold loadData. simpl. case_decide as Hneg; [done|]. intros Hrun.
  bind_inv Hrun as [n this1] Hloop. simplify_eq.
  apply (loadDocuments_rows _ _ _ _ _ _ [] (Z.to_nat count)) in Hloop
    as (Hlen & Hwidths & Hcount & Hdata); [|done|done].
  simpl in *. by split_and!.
Qed.

(** With a count that is not negative [loadData] ends normally or in
    undefined behaviour. *)
Lemma loadData_outcome (count : Z) (cursor : list bson) (dataPropertyCount : nat)
  (this : Optimizer) :
  (0 <= count)%Z ->
  (exists this', loadData count cursor dataPropertyCount this = Done this') \/
  (exists why, loadData count cursor dataPropertyCount this = Undefined why).
Proof.
  intros Hcount.
  destruct (loadData count cursor dataPropertyCount this) as [this'|what|why|] eqn:Hrun;
    eauto.
  - apply loadData_throws_only_on_failed_count in Hrun. lia.
  - exfalso. unfold loadData in Hrun. simpl in Hrun.
    case_decide; [lia|].
    destruct (foldM _ cursor _) as [[n this']| | |] eqn:Hloop; simpl in Hrun;
      try discriminate.
    revert Hloop. apply foldM_fuel. intros [dataPointIndex this1] document.
    unfold loadDocument, vector_set. case_decide; [|done]. simpl.
    destruct (foldM _ (b_data document) _) as [[k t]| | |] eqn:Hprops; try done.
    exfalso. revert Hprops. apply foldM_fuel. intros [propertyIndex this2] property.
    unfold loadProperty, writeCell, vector_set.
    destruct (data this2 !! dataPointIndex) as [[row|]|]; simpl; try done.
    repeat case_decide; simpl; done.
Qed.

(** What a load that returns has found: no more documents than were
    counted, none with more data fields than a row has cells. *)
Lemma loadData_fits (count : Z) (cursor : list bson) (dataPropertyCount : nat)
  (this this' : Optimizer) :
  loadData count cursor dataPropertyCount this = Done this' ->
  length cursor <= Z.to_nat count /\
  Forall (fun document => length (b_data document) <= dataPropertyCount) cursor.
Proof.
  unfold loadData. simpl. case_decide as Hneg; [done|]. intros Hrun.
  bind_inv Hrun as [n this1] Hloop.
  by apply (loadDocuments_rows _ _ _ _ _ _ [] (Z.to_nat count)) in Hloop
    as (Hlen & Hwidths & _).
Qed.

(** X8. More documents than were counted, or a document with more data fields
    than a row has cells, makes [loadData] write outside what it
    allocated: undefined behaviour. *)
Lemma loadData_overflow (count : Z) (cursor : list bson) (dataPropertyCount : nat)
  (this : Optimizer) :
  (0 <= count)%Z ->
  Z.to_nat count < length cursor \/
  Exists (fun document => dataPropertyCount < length (b_data document)) cursor ->
  exists why, loadData count cursor dataPropertyCount this = Undefined why.
Proof.
  intros Hcount Hover.
  destruct (loadData_outcome count cursor dataPropertyCount this Hcount)
    as [[this' Hrun]|Hundefined]; [|done].
  exfalso. apply loadData_fits in Hrun as [Hlen Hwidths].
  destruct Hover as [Hmore|Hwide]; [lia|].
  apply Exists_exists in Hwide as (document & Hin & Hwide).
  rewrite Forall_forall in Hwidths. apply Hwidths in Hin. lia.
Qed.

End RowFacts.

Section WidthFacts.

Import Optimizer.

Variable Study : Type.
Variable getOutputMap : Study -> list (string * string).

(** [getDataPropertyCount] counts the entries of the output maps of the
    studies. *)
Lemma getDataPropertyCount_outputs (studies : list Study) :
  getDataPropertyCount Study getOutputMap studies
  = length (mjoin (getOutputMap <$> studies)).
Proof.
  unfold getDataPropertyCount.
  assert (forall n, fold_left (fun propertyCount study =>
                                 propertyCount + length (getOutputMap study))
                      studies n
                    = n + length (mjoin (getOutputMap <$> studies))) as Hfold.
  { induction studies as [|study studies IH]; intros n.
    - cbn. lia.
    - cbn [fold_left]. rewrite IH, fmap_cons. cbn [mjoin list_join].
      rewrite length_app. by rewrite Nat.add_assoc. }
  apply Hfold.
Qed.

(** X9. [saveTicks] followed by [loadData]. A row is allocated with one cell
    for each study output, as [getDataPropertyCount] counts them, but the
    document of a tick holds every field of the tick except the two group
    tags. A tick that has its [timestamp] beside the outputs of the
    studies becomes a document with more data fields than a row has
    cells, and loading it writes past the end of the row. *)
Lemma loadData_row_narrower_than_document (studies : list Study)
  (saver this : Optimizer) (tick tick' : Tick)
  (document : bson) (count : Z) (others : list bson) :
  NoDup (mjoin (getOutputMap <$> studies)).*2 ->
  (forall name, name ∈ (mjoin (getOutputMap <$> studies)).*2 ->
     is_Some (tick !! name) /\ name <> "timestamp" /\
     name <> "testingGroups" /\ name <> "validationGroups") ->
  is_Some (tick !! "timestamp") ->
  convertTickToBson saver tick = Done (document, tick') ->
  (0 <= count)%Z ->
  exists why,
    loadData count (document :: others)
      (getDataPropertyCount Study getOutputMap studies) this = Undefined why.
Proof.
  rewrite getDataPropertyCount_outputs.
  rewrite <- (length_fmap snd (mjoin (getOutputMap <$> studies))).
  set (outputs := (mjoin (getOutputMap <$> studies)).*2).
  intros Hdistinct Houtputs Htimestamp Hconvert Hcount.
  destruct (loadData_outcome count (document :: others) (length outputs) this Hcount)
    as [[this' Hrun]|Hundefined]; [|done].
  exfalso. apply loadData_fits in Hrun as [_ Hwidths].
  apply Forall_cons in Hwidths as [Hwidth _].
  unfold convertTickToBson in Hconvert.
  destruct (tick !! "testingGroups"); [|discriminate].
  bind_inv Hconvert as testingTag HtestingTag.
  destruct (tick !! "validationGroups"); [|discriminate].
  bind_inv Hconvert as validationTag HvalidationTag. simplify_eq.
  simpl in Hwidth.
  rewrite in_key_order_Permutation, length_map_to_list in Hwidth.
  assert (list_to_set ("timestamp" :: outputs)
            ⊆ dom (delete "validationGroups" (delete "testingGroups" tick)))
    as Hsubset.
  { intros name Hname. apply elem_of_list_to_set in Hname.
    apply elem_of_dom. rewrite !lookup_delete_ne.
    - apply elem_of_cons in Hname as [->|Hname]; [done|]. by apply Houtputs.
    - apply elem_of_cons in Hname as [->|Hname]; [done|].
      intros <-. by apply Houtputs in Hname as (_ & _ & ? & _).
    - apply elem_of_cons in Hname as [->|Hname]; [done|].
      intros <-. by apply Houtputs in Hname as (_ & _ & _ & ?). }
  apply subseteq_size in Hsubset.
  rewrite size_list_to_set, size_dom in Hsubset.
  - simpl in Hsubset. lia.
  - apply NoDup_cons. split; [|done].
    intros Hin. by apply Houtputs in Hin as (_ & ? & _).
Qed.

End WidthFacts.

Section MoreConfigurationFacts.

Import Optimizer.

(** The map phase changes [dataIndex] only by entering missing names with
    index 0: every name keeps the index a read with default 0 sees. *)
Lemma assignValues_columns (current : nat) (candidate : list (string * OptionValue))
  (st st' : Optimizer * MapStore) :
  foldM (assignValue current) candidate st = Done st' ->
  forall k, column (dataIndex st'.1) k = column (dataIndex st.1) k.
Proof.
  intros Hrun.
  apply (foldM_invariant
           (fun s => forall k, column (dataIndex s.1) k = column (dataIndex st.1) k)
           (assignValue current) candidate st st'); [done| |done].
  intros [this store] entry [this1 store1] Hsame _ Hstep k. simpl in *.
  rewrite <- Hsame. unfold assignValue in Hstep.
  destruct entry.2 as [name|d].
  - destruct (subscript 0%Z name (dataIndex this)) as [index columns'] eqn:Hsub.
    bind_inv Hstep as store2 Hstore. simplify_eq. simpl.
    pose proof (subscript_lookup 0%Z name k (dataIndex this)) as Hk.
    by rewrite Hsub in Hk.
  - bind_inv Hstep as store2 Hstore. by simplify_eq.
Qed.

Lemma buildMapConfigurations_columns (fuel : nat) (options : Options)
  (optionIndex current : nat) (st st' : list nat * (Optimizer * MapStore)) :
  buildMapConfigurations fuel options optionIndex current st = Done st' ->
  forall k, column (dataIndex st'.2.1) k = column (dataIndex st.2.1) k.
Proof.
  revert optionIndex st st'. induction fuel as [|fuel IH];
    intros optionIndex st st' Hrun; [discriminate|].
  cbn [buildMapConfigurations] in Hrun.
  destruct (options.*1 !! optionIndex) as [optionKey|]; [|discriminate].
  revert Hrun.
  match goal with
  | |- foldM ?body ?l _ = _ -> _ =>
      intros Hrun;
      apply (foldM_invariant
               (fun s => forall k,
                    column (dataIndex s.2.1) k = column (dataIndex st.2.1) k)
               body l st st'); [done| |done]
  end.
  intros [results mem] candidate s' Hsame _ Hstep k.
  bind_inv Hstep as mem' Hassign.
  apply assignValues_columns with (k := k) in Hassign.
  destruct (decide (optionIndex + 1 < length options.*1)).
  - apply IH with (k := k) in Hstep. simpl in *. congruence.
  - simplify_eq. simpl in *. congruence.
Qed.

(** The five basic members of a configuration are the values the
    conversion was given. *)
Lemma configurationOf_basic (m : MapConfiguration) (timestamp open high low close : Z)
  (c : Configuration) :
  configurationOf m timestamp open high low close = Done c ->
  c_timestamp c = timestamp /\ c_open c = open /\ c_high c = high /\
  c_low c = low /\ c_close c = close.
Proof.
  unfold configurationOf. intros Hrun.
  repeat match type of Hrun with
         | mbind _ _ = Done _ => let x := fresh "x" in let Hx := fresh "Hx" in
                                 bind_inv Hrun as x Hx
         end.
  by simplify_eq.
Qed.

(** The basic members of the configurations [buildConfigurations]
    returns. *)
Lemma buildConfigurations_basic (options : Options) (this this' : Optimizer)
  (configurations : list Configuration) (c : Configuration) :
  NoDup options.*1 ->
  buildConfigurations options this = Done (configurations, this') ->
  c ∈ configurations ->
  c_timestamp c = column (dataIndex this) "timestamp" /\
  c_open c = column (dataIndex this) "open" /\
  c_high c = column (dataIndex this) "high" /\
  c_low c = column (dataIndex this) "low" /\
  c_close c = column (dataIndex this) "close".
Proof.
  intros Hdistinct Hrun Hc. unfold buildConfigurations in Hrun.
  destruct options as [|axis options]; [discriminate|].
  destruct (buildMapConfigurations_replicates (S (length (axis :: options)))
              (axis :: options) 0 0 [] this {[0 := ∅]} Hdistinct)
    as (this1 & store1 & Hmaps & [m Hm]).
  { simpl. lia. }
  { lia. }
  { by rewrite lookup_singleton_eq. }
  pose proof (buildMapConfigurations_columns _ _ _ _ _ _ Hmaps) as Hcolumns.
  simpl in Hcolumns.
  rewrite Hmaps in Hrun. cbn [mbind outcome_bind] in Hrun.
  rewrite drop_0, app_nil_l in Hrun.
  destruct (configurationOf m (column (dataIndex this1) "timestamp")
              (column (dataIndex this1) "open") (column (dataIndex this1) "high")
              (column (dataIndex this1) "low") (column (dataIndex this1) "close"))
    as [c1| | |] eqn:Hc1.
  { apply (convert_replicate_of store1 0 m (dataIndex this1) c1) in Hrun;
      [|done|done|done].
    simpl in Hrun. subst configurations.
    apply elem_of_replicate in Hc as [-> _].
    apply configurationOf_basic in Hc1 as (-> & -> & -> & -> & ->).
    by rewrite !Hcolumns. }
  all: exfalso; destruct (product (axisSizes (axis :: options))) as [|n];
    [simpl in Hrun; simplify_eq; by apply elem_of_nil in Hc|].
  all: cbn [replicate foldM] in Hrun.
  all: destruct (convertMapConfiguration_reads store1 0 m [] this1 Hm)
         as (columns' & Hstep & _).
  all: rewrite Hstep, Hc1 in Hrun; discriminate.
Qed.

(** The conversion loop changes [dataIndex] only by entering missing names
    with index 0. *)
Lemma convertLoop_columns (store : MapStore) (pointers : list nat)
  (st st' : list Configuration * Optimizer) :
  (forall p, p ∈ pointers -> is_Some (store !! p)) ->
  foldM (convertMapConfiguration store) pointers st = Done st' ->
  forall k, column (dataIndex st'.2) k = column (dataIndex st.2) k.
Proof.
  intros Hpointers Hrun.
  apply (foldM_invariant
           (fun s => forall k, column (dataIndex s.2) k = column (dataIndex st.2) k)
           (convertMapConfiguration store) pointers st st'); [done| |done].
  intros [configurations this] p [configurations1 this1] Hsame Hp Hstep k.
  destruct (Hpointers p Hp) as [m Hm].
  destruct (convertMapConfiguration_reads store p m configurations this Hm)
    as (columns' & Hreads & Hcolumns').
  rewrite Hreads in Hstep. bind_inv Hstep as c Hc. simplify_eq. simpl in *.
  by rewrite Hcolumns'.
Qed.

(** X11. [buildConfigurations] reads the five basic members of every
    configuration it returns from [dataIndex], whatever the axes say: the
    index of the column of that name, and 0 for a name [dataIndex] does
    not have. What it changes in [dataIndex] is invisible to such reads:
    every name, read with 0 for a missing one, has the index it had. *)
Lemma buildConfigurations_basic_columns (options : Options) (this this' : Optimizer)
  (configurations : list Configuration) :
  NoDup options.*1 ->
  buildConfigurations options this = Done (configurations, this') ->
  (forall c, c ∈ configurations ->
     c_timestamp c = column (dataIndex this) "timestamp" /\
     c_open c = column (dataIndex this) "open" /\
     c_high c = column (dataIndex this) "high" /\
     c_low c = column (dataIndex this) "low" /\
     c_close c = column (dataIndex this) "close") /\
  (forall k, column (dataIndex this') k = column (dataIndex this) k).
Proof.
  intros Hdistinct Hrun. split.
  - intros c Hc. by apply (buildConfigurations_basic options this this' configurations).
  - unfold buildConfigurations in Hrun.
    destruct options as [|axis options]; [discriminate|].
    destruct (buildMapConfigurations_replicates (S (length (axis :: options)))
                (axis :: options) 0 0 [] this {[0 := ∅]} Hdistinct)
      as (this1 & store1 & Hmaps & Hstore).
    { simpl. lia. }
    { lia. }
    { by rewrite lookup_singleton_eq. }
    pose proof (buildMapConfigurations_columns _ _ _ _ _ _ Hmaps) as Hcolumns.
    simpl in Hcolumns.
    rewrite Hmaps in Hrun. cbn [mbind outcome_bind] in Hrun.
    rewrite drop_0, app_nil_l in Hrun.
    assert (forall p, p ∈ replicate (product (axisSizes (axis :: options))) 0 ->
                      is_Some (store1 !! p)) as Hpointers.
    { intros p Hp. by apply elem_of_replicate in Hp as [-> _]. }
    pose proof (convertLoop_columns _ _ _ _ Hpointers Hrun) as Hsame.
    intros k. simpl in Hsame. by rewrite Hsame.
Qed.

(** X12. [loadData] followed by [buildConfigurations]: the load leaves
    [dataIndex] as it was, so the basic members of every configuration
    come from the [dataIndex] from before the load, not from the documents
    that were loaded. On an optimizer fresh from the constructor they are
    all 0. *)
Lemma buildConfigurations_after_loadData (count : Z) (cursor : list bson)
  (dataPropertyCount : nat) (options : Options) (this this1 this2 : Optimizer)
  (configurations : list Configuration) (c : Configuration) :
  NoDup options.*1 ->
  loadData count cursor dataPropertyCount this = Done this1 ->
  buildConfigurations options this1 = Done (configurations, this2) ->
  c ∈ configurations ->
  c_timestamp c = column (dataIndex this) "timestamp" /\
  c_open c = column (dataIndex this) "open" /\
  c_high c = column (dataIndex this) "high" /\
  c_low c = column (dataIndex this) "low" /\
  c_close c = column (dataIndex this) "close".
Proof.
  intros Hdistinct Hload Hbuild Hc.
  apply loadData_leaves_dataIndex in Hload. rewrite <- Hload.
  by apply (buildConfigurations_basic options this1 this2 configurations).
Qed.

Lemma product_zero (sizes : list nat) : 0 ∈ sizes -> product sizes = 0.
Proof.
  induction sizes as [|n sizes IH]; intros Hin; [by apply elem_of_nil in Hin|].
  simpl. apply elem_of_cons in Hin as [<-|Hin]; [done|]. rewrite IH by done. lia.
Qed.

(** X13. An axis without candidates leaves no configuration: with distinct
    axis names, [buildConfigurations] returns normally with an empty
    result as soon as one axis is empty. *)
Lemma buildConfigurations_empty_axis (options : Options) (this : Optimizer)
  (name : string) :
  NoDup options.*1 ->
  (name, []) ∈ options ->
  exists this', buildConfigurations options this = Done ([], this').
Proof.
  intros Hdistinct Hempty. unfold buildConfigurations.
  destruct (buildMapConfigurations_returns options this Hdistinct)
    as (this1 & store1 & ->).
  { intros ->. by apply elem_of_nil in Hempty. }
  rewrite product_zero.
  - simpl. by exists this1.
  - unfold axisSizes. apply list_elem_of_fmap. by exists (name, []).
Qed.

(** Without any axis [buildConfigurations] reads past the end of the empty
    vector of keys: undefined behaviour. *)
Lemma buildConfigurations_no_axis (this : Optimizer) :
  buildConfigurations [] this = Undefined "allKeys[optionIndex] past size()".
Proof. reflexivity. Qed.

End MoreConfigurationFacts.

Section ConversionErrors.

Import Optimizer.

Lemma int_field_outcome (m : MapConfiguration) (key : string) (old : Z) :
  (exists i, int_field m key old = Done i /\
             forall d, m !! key <> Some (DoubleValue d)) \/
  (int_field m key old = Thrown "boost::bad_get").
Proof. unfold int_field. destruct (m !! key) as [[i|d]|]; simpl; eauto. Qed.

Lemma double_field_outcome (m : MapConfiguration) (key : string) (old : double) :
  (exists d, double_field m key old = Done d /\
             forall i, m !! key <> Some (IntValue i)) \/
  (double_field m key old = Thrown "boost::bad_get").
Proof. unfold double_field. destruct (m !! key) as [[i|d]|]; simpl; eauto. Qed.

Lemma int_field_throws (m : MapConfiguration) (key : string) (old : Z) (d : double) :
  m !! key = Some (DoubleValue d) -> int_field m key old = Thrown "boost::bad_get".
Proof. intros Hkey. unfold int_field. by rewrite Hkey. Qed.

Lemma double_field_throws (m : MapConfiguration) (key : string) (old : double) (i : Z) :
  m !! key = Some (IntValue i) -> double_field m key old = Thrown "boost::bad_get".
Proof. intros Hkey. unfold double_field. by rewrite Hkey. Qed.

(** Building a configuration from an accumulator either succeeds or
    throws [boost::bad_get]; it throws when a member read as [int] holds a
    number, or a member read as [double] holds a column index. *)
Lemma configurationOf_outcome (m : MapConfiguration) (timestamp open high low close : Z) :
  ((exists c, configurationOf m timestamp open high low close = Done c) \/
   configurationOf m timestamp open high low close = Thrown "boost::bad_get") /\
  ((exists key d, key ∈ indexMembers /\ m !! key = Some (DoubleValue d)) \/
   (exists key i, key ∈ thresholdMembers /\ m !! key = Some (IntValue i)) ->
   configurationOf m timestamp open high low close = Thrown "boost::bad_get").
Proof.
  unfold configurationOf.
  repeat match goal with
         | |- ((exists c, mbind _ (int_field m ?key ?old) = Done c) \/ _) /\ _ =>
             destruct (int_field_outcome m key old) as [(? & -> & ?)| ->];
             cbn [mbind outcome_bind]
         | |- ((exists c, mbind _ (double_field m ?key ?old) = Done c) \/ _) /\ _ =>
             destruct (double_field_outcome m key old) as [(? & -> & ?)| ->];
             cbn [mbind outcome_bind]
         end.
  all: split; [eauto|].
  all: try (intros _; reflexivity).
  intros [(key0 & d0 & Hkey & Hm)|(key0 & i0 & Hkey & Hm)]; exfalso;
    [unfold indexMembers in Hkey|unfold thresholdMembers in Hkey];
    repeat (apply elem_of_cons in Hkey as [->|Hkey];
            [match goal with H : forall _, _ <> _ |- _ => by apply H in Hm end|]);
    by apply elem_of_nil in Hkey.
Qed.

(** The accumulator after the values of one candidate were assigned. *)
Lemma assignValues_fields (current : nat) (candidate : list (string * OptionValue))
  (this : Optimizer) (store : MapStore) (m : MapConfiguration) :
  store !! current = Some m ->
  NoDup candidate.*1 ->
  exists this' store' m',
    foldM (assignValue current) candidate (this, store) = Done (this', store') /\
    store' !! current = Some m' /\
    (forall field v, (field, v) ∈ candidate ->
       m' !! field = Some (resolved (dataIndex this) v)) /\
    (forall field, field ∉ candidate.*1 -> m' !! field = m !! field) /\
    (forall k, column (dataIndex this') k = column (dataIndex this) k).
Proof.
  revert this store m.
  induction candidate as [|[field0 v0] candidate IH];
    intros this store m Hcurrent Hdistinct.
  - exists this, store, m. split_and!; try done.
    intros field v Hin. by apply elem_of_nil in Hin.
  - simpl in Hdistinct. apply NoDup_cons in Hdistinct as [Hfresh Hdistinct].
    destruct (assignValue_spec current this store m (field0, v0) Hcurrent)
      as (this1 & Hstep & Hsame & _).
    destruct (IH this1
                (<[current := <[field0 := resolved (dataIndex this) v0]> m]> store)
                (<[field0 := resolved (dataIndex this) v0]> m)
                (lookup_insert_eq _ _ _) Hdistinct)
      as (this' & store' & m' & Hrun & Hm' & Hfields & Hframe & Hsame').
    exists this', store', m'.
    split; [cbn [foldM]; rewrite Hstep; exact Hrun|].
    split_and!; [done| | |].
    + intros field v Hin. apply elem_of_cons in Hin as [[= -> ->]|Hin].
      * rewrite Hframe by done. by rewrite lookup_insert_eq.
      * rewrite (Hfields _ _ Hin). f_equal.
        destruct v as [name|d]; simpl; [|done]. by rewrite Hsame.
    + intros field Hnot. apply not_elem_of_cons in Hnot as [Hne Hnot].
      rewrite Hframe by done. by rewrite lookup_insert_ne.
    + intros k. rewrite Hsame'. unfold column. by rewrite Hsame.
Qed.

(** One axis with one candidate: the map phase assigns the candidate's
    values to the accumulator and returns its address once. *)
Lemma buildMapConfigurations_one_candidate (fuel : nat) (axis : string)
  (candidate : list (string * OptionValue)) (current : nat) (this : Optimizer)
  (store : MapStore) :
  buildMapConfigurations (S fuel) [(axis, [candidate])] 0 current ([], (this, store)) =
  mem ← foldM (assignValue current) candidate (this, store); Done ([current], mem).
Proof.
  cbn [buildMapConfigurations fmap list_fmap fst lookup list_lookup assoc].
  rewrite decide_True by done. cbn [default from_option id foldM].
  destruct (foldM (assignValue current) candidate (this, store)); reflexivity.
Qed.

(** The conversion loop over copies of one pointer ends normally or
    throws [boost::bad_get]. *)
Lemma convert_replicate_outcome (store : MapStore) (p : nat) (m : MapConfiguration)
  (n : nat) (configurations : list Configuration) (this : Optimizer) :
  store !! p = Some m ->
  (exists r, foldM (convertMapConfiguration store) (replicate n p)
               (configurations, this) = Done r) \/
  foldM (convertMapConfiguration store) (replicate n p) (configurations, this)
    = Thrown "boost::bad_get".
Proof.
  intros Hp. revert configurations this.
  induction n as [|n IH]; intros configurations this; [left; by eexists|].
  cbn [replicate foldM].
  destruct (convertMapConfiguration_reads store p m configurations this Hp)
    as (columns' & -> & _).
  destruct (configurationOf_outcome m (column (dataIndex this) "timestamp")
              (column (dataIndex this) "open") (column (dataIndex this) "high")
              (column (dataIndex this) "low") (column (dataIndex this) "close"))
    as [[[c ->]| ->] _]; cbn [mbind outcome_bind]; [apply IH|by right].
Qed.

(** X14. With at least one axis and distinct axis names, [buildConfigurations]
    returns normally or throws [boost::bad_get]: it has no other failure. *)
Lemma buildConfigurations_outcome (options : Options) (this : Optimizer) :
  NoDup options.*1 ->
  options <> [] ->
  (exists configurations this',
     buildConfigurations options this = Done (configurations, this')) \/
  buildConfigurations options this = Thrown "boost::bad_get".
Proof.
  intros Hdistinct Hsome. unfold buildConfigurations.
  destruct (buildMapConfigurations_replicates (S (length options)) options 0 0 []
              this {[0 := ∅]} Hdistinct)
    as (this1 & store1 & -> & [m Hm]).
  { destruct options; [done|simpl; lia]. }
  { lia. }
  { by rewrite lookup_singleton_eq. }
  cbn [mbind outcome_bind]. rewrite app_nil_l.
  destruct (convert_replicate_outcome store1 0 m
              (product (drop 0 (axisSizes options))) [] this1 Hm)
    as [[[configurations this'] ->]| ->]; eauto.
Qed.

(** X15. A candidate that gives a number to a member [buildConfigurations]
    reads as a column index, or a column name to a member it reads as a
    number, makes it throw [boost::bad_get] (one axis, one candidate). *)
Lemma buildConfigurations_bad_get (axis : string)
  (candidate : list (string * OptionValue)) (this : Optimizer) (key : string) :
  NoDup candidate.*1 ->
  (key ∈ indexMembers /\ exists d, (key, Literal d) ∈ candidate) \/
  (key ∈ thresholdMembers /\ exists name, (key, ColumnName name) ∈ candidate) ->
  buildConfigurations [(axis, [candidate])] this = Thrown "boost::bad_get".
Proof.
  intros Hdistinct Hkey. unfold buildConfigurations.
  change (length [(axis, [candidate])]) with 1.
  rewrite buildMapConfigurations_one_candidate.
  destruct (assignValues_fields 0 candidate this {[0 := ∅]} ∅
              (lookup_singleton_eq _ _) Hdistinct)
    as (this1 & store1 & m & -> & Hm & Hfields & _).
  cbn [mbind outcome_bind foldM].
  destruct (convertMapConfiguration_reads store1 0 m [] this1 Hm)
    as (columns' & -> & _).
  destruct (configurationOf_outcome m (column (dataIndex this1) "timestamp")
              (column (dataIndex this1) "open") (column (dataIndex this1) "high")
              (column (dataIndex this1) "low") (column (dataIndex this1) "close"))
    as [_ ->]; [done|].
  destruct Hkey as [[Hkey [d Hin]]|[Hkey [name Hin]]].
  - left. exists key, d. split; [done|]. by rewrite (Hfields _ _ Hin).
  - right. exists key, (default 0%Z (dataIndex this !! name)). split; [done|].
    by rewrite (Hfields _ _ Hin).
Qed.

End ConversionErrors.

(** * Configuration building and column names *)



Section ResolutionFacts.

Import Optimizer.









End ResolutionFacts.


Section LoopFacts.

Import Optimizer.

Variable Strategy : Type.
Variable create : string -> string -> gmap string Z -> Z -> Configuration -> Strategy.
Variable backtest : Strategy -> Row -> double -> double -> Strategy.

(** Without strategies the loop over the data ticks calls nothing. *)
Lemma backtestLoop_no_strategy (fuel : nat) (this : Optimizer)
  (investment profitability : double) (i : nat)
  (st : list Strategy * list (nat * nat)) :
  backtestLoop Strategy backtest fuel this investment profitability i ([], []) = Done st ->
  st = ([], []).
Proof.
  revert i. induction fuel as [|fuel IH]; intros i Hrun; [discriminate|].
  simpl in Hrun. case_decide; [|by simplify_eq]. by apply IH in Hrun.
Qed.

(** X16. [optimize] returns normally only when it is given no configuration,
    and then it has prepared no strategy and called [backtest] not once:
    no run of [optimize] that returns has backtested anything. *)
Lemma optimize_returns_without_backtest (this : Optimizer)
  (configurations : list Configuration) (investment profitability : double)
  (strategies : list Strategy) (calls : list (nat * nat)) :
  optimize Strategy create backtest this configurations investment profitability
    = Done (strategies, calls) ->
  configurations = [] /\ strategies = [] /\ calls = [].
Proof.
  destruct configurations as [|c rest]; [|discriminate].
  unfold optimize. cbn [prepareStrategies mbind outcome_bind].
  intros Hrun. apply backtestLoop_no_strategy in Hrun. by simplify_eq.
Qed.

(** The tasks of one tick: every strategy is handed the row, in order. *)
Lemma backtestTasks_row (this : Optimizer) (investment profitability : double)
  (i : nat) (row : Row) (strategies done : list Strategy) (calls : list (nat * nat)) :
  data this !! i = Some (Some row) ->
  foldM (backtestTask Strategy backtest this investment profitability i) strategies
    (done, calls) =
  Done (done ++ ((fun s => backtest s row investment profitability) <$> strategies),
        calls ++ (pair i <$> seq (length done) (length strategies))).
Proof.
  intros Hrow. revert done calls.
  induction strategies as [|s strategies IH]; intros done calls.
  - simpl. by rewrite !app_nil_r.
  - assert (backtestTask Strategy backtest this investment profitability i
              (done, calls) s =
            Done (done ++ [backtest s row investment profitability],
                  calls ++ [(i, length done)])) as Hs.
    { unfold backtestTask. by rewrite Hrow. }
    cbn [foldM]. rewrite Hs. cbn [mbind outcome_bind].
    rewrite IH, length_app. simpl.
    rewrite <- !(assoc_L (++)). simpl. by rewrite Nat.add_1_r.
Qed.

(** The rows the loop visits from row [i] on. *)
Lemma evenRows_from (i n count : nat) :
  i < n -> count = (n - i + 1) / 2 ->
  exists count', count = S count' /\ count' = (n - (i + 2) + 1) / 2.
Proof.
  intros Hlt ->. exists ((n - (i + 2) + 1) / 2). split; [|done].
  pose proof (Nat.div_mod_eq (n - i + 1) 2) as H1.
  pose proof (Nat.div_mod_eq (n - (i + 2) + 1) 2) as H2.
  pose proof (Nat.mod_upper_bound (n - i + 1) 2) as H3.
  pose proof (Nat.mod_upper_bound (n - (i + 2) + 1) 2) as H4.
  destruct (decide (n - i = 1)) as [E|E].
  - rewrite E in *. replace (n - (i + 2) + 1) with 1 in * by lia. reflexivity.
  - replace (n - i + 1) with (n - (i + 2) + 1 + 1 * 2) by lia.
    rewrite Nat.div_add by lia. lia.
Qed.

Lemma backtestLoop_calls (fuel : nat) (this : Optimizer)
  (investment profitability : double) (n i : nat)
  (strategies : list Strategy) (calls : list (nat * nat)) :
  dataCount this = Z.of_nat n ->
  (forall r, r < n -> exists row, data this !! r = Some (Some row)) ->
  n - i < fuel ->
  exists strategies',
    backtestLoop Strategy backtest fuel this investment profitability i
      (strategies, calls) =
    Done (strategies',
          calls ++ callsFor ((fun k => i + 2 * k) <$> seq 0 ((n - i + 1) / 2))
                     (length strategies)) /\
    length strategies' = length strategies.
Proof.
  intros Hcount Hrows. revert i strategies calls.
  induction fuel as [|fuel IH]; intros i strategies calls Hfuel; [lia|].
  cbn [backtestLoop]. rewrite Hcount.
  destruct (decide (Z.of_nat i < Z.of_nat n)%Z) as [Hlt|Hge].
  - destruct (Hrows i ltac:(lia)) as [row Hrow].
    rewrite (backtestTasks_row this investment profitability i row strategies []
               calls Hrow).
    cbn [mbind outcome_bind app length].
    destruct (evenRows_from i n _ ltac:(lia) eq_refl) as (count' & -> & Hcount').
    destruct (IH (S (S i))
                ((fun s => backtest s row investment profitability) <$> strategies)
                (calls ++ (pair i <$> seq 0 (length strategies))))
      as (strategies' & -> & Hlength); [lia|].
    exists strategies'. rewrite length_fmap in *. split; [|done].
    f_equal. f_equal. rewrite <- (assoc_L (++)). f_equal.
    cbn [seq fmap list_fmap]. unfold callsFor. cbn [flat_map].
    rewrite Nat.mul_0_r, Nat.add_0_r. f_equal.
    rewrite <- fmap_S_seq, <- list_fmap_compose.
    replace (S (S i)) with (i + 2) in * by lia. rewrite <- Hcount'.
    f_equal. apply list_fmap_ext. intros ? k _. simpl. lia.
  - exists strategies. split; [|done].
    replace ((n - i + 1) / 2) with 0.
    + simpl. by rewrite app_nil_r.
    + replace (n - i + 1) with 1 by lia. reflexivity.
Qed.

(** X17. The loop over the data ticks, run on prepared strategies over a fully
    loaded matrix of [n] rows with the bound [optimize] gives it: it ends
    normally, keeps the number of strategies, and hands each strategy, in
    order, the rows 0, 2, 4, ... below [n] and no other row. *)
Lemma backtestLoop_even_rows (this : Optimizer) (investment profitability : double)
  (n : nat) (strategies : list Strategy) :
  dataCount this = Z.of_nat n ->
  (forall r, r < n -> exists row, data this !! r = Some (Some row)) ->
  exists strategies',
    backtestLoop Strategy backtest (S (Z.to_nat (dataCount this))) this investment
      profitability 0 (strategies, []) =
    Done (strategies', callsFor (evenRows n) (length strategies)) /\
    length strategies' = length strategies.
Proof.
  intros Hcount Hrows.
  destruct (backtestLoop_calls (S (Z.to_nat (dataCount this))) this investment
              profitability n 0 strategies [] Hcount Hrows)
    as (strategies' & Hrun & Hlength); [lia|].
  exists strategies'. split; [|done]. rewrite Hrun. unfold evenRows.
  by rewrite Nat.sub_0_r.
Qed.

End LoopFacts.

(** * Further properties of the strategy base class *)

(** [splice(index, 1)] at successive indices, as the loop of
    [closeExpiredPositions] does when every position has expired. *)
Lemma splice1_past {A : Type} (index : nat) (a : list A) :
  length a <= index -> Base.splice1 index a = a.
Proof.
  intros Hlen. unfold Base.splice1. rewrite take_ge, drop_ge by lia.
  by rewrite app_nil_r.
Qed.

Lemma splice1_middle {A : Type} (pre post : list A) (x : A) :
  Base.splice1 (length pre) (pre ++ x :: post) = pre ++ post.
Proof.
  unfold Base.splice1. rewrite take_app_length. f_equal.
  rewrite (cons_middle x pre post), (assoc_L (++)).
  apply drop_app_length'. rewrite length_app. simpl. lia.
Qed.

Section CloseFacts.

Import Base.

Variable Study : Type.
Variable Position : Type.
Variable getHasExpired : Position -> double -> bool.
Variable close : Position -> double -> double -> Position.
Variable getProfitLoss : Position -> double.
Variable getInvestment : Position -> double.

Local Abbreviation closeIfExpired :=
  (Base.closeIfExpired Study Position getHasExpired close getProfitLoss getInvestment).
Local Abbreviation closeExpiredPositions :=
  (Base.closeExpiredPositions Study Position getHasExpired close getProfitLoss
     getInvestment).

(** The callback on a position that has not expired changes nothing; on
    one that has, it closes the position, returns it, and splices the
    list of open positions at the index the position has in the copy. *)
Lemma closeIfExpired_open (price timestamp : double) (heap : Heap Position)
  (self : Base Study) (expired : list nat) (index r : nat) :
  closeIfExpired price timestamp (heap, self, expired) index r =
  if getHasExpired (heap r) timestamp
  then
    let result := closeIfExpired price timestamp (heap, self, expired) index r in
    (heap_set Position r (close (heap r) price timestamp) heap, result.1.2,
     expired ++ [r])
  else (heap, self, expired).
Proof.
  unfold Base.closeIfExpired. destruct (getHasExpired (heap r) timestamp); [|done].
  cbv zeta.
  repeat match goal with
         | |- context [if ?b then _ else _] => destruct b
         end; reflexivity.
Qed.

Lemma closeIfExpired_openPositions (price timestamp : double) (heap : Heap Position)
  (self : Base Study) (expired : list nat) (index r : nat) :
  getHasExpired (heap r) timestamp = true ->
  openPositions Study (closeIfExpired price timestamp (heap, self, expired) index r).1.2
  = splice1 index (openPositions Study self).
Proof.
  intros Hexpired. unfold Base.closeIfExpired. rewrite Hexpired. cbv zeta.
  repeat match goal with
         | |- context [if ?b then _ else _] => destruct b
         end; reflexivity.
Qed.

(** The loop over positions none of which has expired changes nothing. *)
Lemma closeLoop_none (price timestamp : double) (refs : list nat) (index : nat)
  (st : Heap Position * Base Study * list nat) :
  (forall r, r ∈ refs -> getHasExpired (st.1.1 r) timestamp = false) ->
  forEach_from (closeIfExpired price timestamp) index refs st = st.
Proof.
  revert index. induction refs as [|r refs IH]; intros index Hnone; [done|].
  destruct st as [[heap self] expired]. simpl in Hnone. cbn [forEach_from].
  rewrite closeIfExpired_open, (Hnone r) by left.
  apply IH. intros r' Hr'. simpl. apply Hnone. by right.
Qed.

(** The loop over distinct positions: the heap afterwards and the
    positions returned. *)
Lemma closeLoop_expired (price timestamp : double) (refs : list nat) (index : nat)
  (heap heap' : Heap Position) (self self' : Base Study) (expired expired' : list nat) :
  NoDup refs ->
  forEach_from (closeIfExpired price timestamp) index refs (heap, self, expired)
    = (heap', self', expired') ->
  expired' = expired ++ List.filter (fun r => getHasExpired (heap r) timestamp) refs /\
  (forall r, heap' r =
     if decide (r ∈ refs /\ getHasExpired (heap r) timestamp = true)
     then close (heap r) price timestamp else heap r).
Proof.
  intros Hdistinct. revert index heap self expired.
  induction refs as [|r refs IH]; intros index heap self expired Hrun.
  - simpl in Hrun. simplify_eq. simpl. rewrite app_nil_r. split; [done|].
    done.
  - apply NoDup_cons in Hdistinct as [Hfresh Hdistinct].
    cbn [forEach_from] in Hrun. rewrite closeIfExpired_open in Hrun.
    cbn [List.filter].
    destruct (getHasExpired (heap r) timestamp) eqn:Hexpired.
    + cbv zeta in Hrun.
      set (heap1 := heap_set Position r (close (heap r) price timestamp) heap) in *.
      apply (IH Hdistinct) in Hrun as [-> Hheap].
      assert (forall r', r' <> r -> heap1 r' = heap r') as Hother.
      { intros r' Hne. unfold heap1, heap_set. by rewrite decide_False. }
      assert (heap1 r = close (heap r) price timestamp) as Hr.
      { unfold heap1, heap_set. by rewrite decide_True. }
      split.
      * rewrite <- (assoc_L (++)). simpl. do 2 f_equal.
        apply filter_ext_in_iff. intros r' Hr'. apply list_elem_of_In in Hr'.
        rewrite Hother; [done|]. by intros ->.
      * intros r'. rewrite Hheap. destruct (decide (r' = r)) as [->|Hne].
        { rewrite decide_False by (by intros [? _]).
          rewrite decide_True by (split; [left|done]). done. }
        rewrite (Hother r' Hne).
        destruct (decide (r' ∈ refs /\ getHasExpired (heap r') timestamp = true))
          as [[Hin He]|Hnot].
        { rewrite decide_True; [done|]. split; [by right|done]. }
        rewrite decide_False; [done|]. intros [Hin He]. apply Hnot.
        split; [|done]. by apply elem_of_cons in Hin as [?|?].
    + apply (IH Hdistinct) in Hrun as [-> Hheap]. split; [done|].
      intros r'. rewrite Hheap.
      destruct (decide (r' ∈ refs /\ getHasExpired (heap r') timestamp = true))
        as [[Hin He]|Hnot].
      { rewrite decide_True; [done|]. split; [by right|done]. }
      rewrite decide_False; [done|]. intros [Hin He]. apply Hnot.
      split; [|done]. apply elem_of_cons in Hin as [->|?]; [congruence|done].
Qed.

(** X18. [closeExpiredPositions] on distinct open positions returns exactly the
    open positions that have expired, in their order; it closes those and
    leaves every other position as it was. *)
Lemma closeExpiredPositions_returns_expired (heap heap' : Heap Position)
  (self self' : Base Study) (price timestamp : double) (expired : list nat) :
  NoDup (openPositions Study self) ->
  closeExpiredPositions heap self price timestamp = (heap', self', expired) ->
  expired =
    List.filter (fun r => getHasExpired (heap r) timestamp) (openPositions Study self) /\
  (forall r, heap' r =
     if decide (r ∈ openPositions Study self /\ getHasExpired (heap r) timestamp = true)
     then close (heap r) price timestamp else heap r).
Proof.
  intros Hdistinct Hrun. unfold Base.closeExpiredPositions in Hrun.
  by apply closeLoop_expired in Hrun.
Qed.

(** When no open position has expired, [closeExpiredPositions] returns an
    empty array and changes neither the strategy nor any position. *)
Lemma closeExpiredPositions_none (heap : Heap Position) (self : Base Study)
  (price timestamp : double) :
  (forall r, r ∈ openPositions Study self -> getHasExpired (heap r) timestamp = false) ->
  closeExpiredPositions heap self price timestamp = (heap, self, []).
Proof.
  intros Hnone. unfold Base.closeExpiredPositions. by apply closeLoop_none.
Qed.

Lemma forEach_from_app {A St : Type} (callback : St -> nat -> A -> St)
  (index : nat) (a1 a2 : list A) (s : St) :
  forEach_from callback index (a1 ++ a2) s =
  forEach_from callback (index + length a1) a2 (forEach_from callback index a1 s).
Proof.
  revert index s. induction a1 as [|x a1 IH]; intros index s; simpl.
  - by rewrite Nat.add_0_r.
  - rewrite IH. f_equal. lia.
Qed.

Lemma forEach_from_invariant {A St : Type} (P : St -> Prop)
  (callback : St -> nat -> A -> St) (index : nat) (a : list A) (s : St) :
  P s -> (forall s i x, P s -> P (callback s i x)) ->
  P (forEach_from callback index a s).
Proof.
  intros Hs Hstep. revert index s Hs.
  induction a as [|x a IH]; intros index s Hs; simpl; auto.
Qed.

(** The heap and the returned array after the callback has met an
    expired position. *)
Lemma closeIfExpired_heap (price timestamp : double) (heap : Heap Position)
  (self : Base Study) (expired : list nat) (index r : nat) :
  getHasExpired (heap r) timestamp = true ->
  (closeIfExpired price timestamp (heap, self, expired) index r).1.1
  = heap_set Position r (close (heap r) price timestamp) heap /\
  (closeIfExpired price timestamp (heap, self, expired) index r).2
  = expired ++ [r].
Proof.
  intros Hexpired. by rewrite closeIfExpired_open, Hexpired.
Qed.

(** What the callback does to the list of open positions. *)
Lemma closeIfExpired_splices (price timestamp : double) (heap : Heap Position)
  (self : Base Study) (expired : list nat) (index r : nat) :
  openPositions Study (closeIfExpired price timestamp (heap, self, expired) index r).1.2
  = if getHasExpired (heap r) timestamp
    then splice1 index (openPositions Study self) else openPositions Study self.
Proof.
  destruct (getHasExpired (heap r) timestamp) eqn:Hexpired.
  - by apply closeIfExpired_openPositions.
  - by rewrite closeIfExpired_open, Hexpired.
Qed.

(** Once the index has passed the end of the list of open positions, the
    rest of the loop removes nothing from it. *)
Lemma closeLoop_past (price timestamp : double) (refs : list nat) (index : nat)
  (st : Heap Position * Base Study * list nat) :
  length (openPositions Study st.1.2) <= index ->
  openPositions Study
    (forEach_from (closeIfExpired price timestamp) index refs st).1.2
  = openPositions Study st.1.2.
Proof.
  revert index st. induction refs as [|r refs IH]; intros index st Hpast; [done|].
  cbn [forEach_from]. destruct st as [[heap self] expired].
  assert (openPositions Study
            (closeIfExpired price timestamp (heap, self, expired) index r).1.2
          = openPositions Study self) as Hsame.
  { rewrite closeIfExpired_splices.
    destruct (getHasExpired (heap r) timestamp); [|done]. by apply splice1_past. }
  rewrite IH; [done|]. rewrite Hsame. simpl in *. lia.
Qed.

(** The loop when every position it visits has expired: of the open
    positions from [index] on, it removes those at even distance. *)
Lemma closeLoop_all (price timestamp : double) (refs : list nat) (index : nat)
  (heap : Heap Position) (self : Base Study) (expired : list nat)
  (pre rest : list nat) :
  NoDup refs ->
  (forall r, r ∈ refs -> getHasExpired (heap r) timestamp = true) ->
  openPositions Study self = pre ++ rest ->
  length pre = index ->
  length rest <= length refs ->
  openPositions Study
    (forEach_from (closeIfExpired price timestamp) index refs
       (heap, self, expired)).1.2
  = pre ++ odds rest.
Proof.
  intros Hdistinct. revert index heap self expired pre rest.
  induction refs as [|r refs IH];
    intros index heap self expired pre rest Hall Hopen Hpre Hrest.
  - destruct rest; [|simpl in Hrest; lia]. simpl. by rewrite Hopen.
  - apply NoDup_cons in Hdistinct as [Hfresh Hdistinct].
    cbn [forEach_from].
    pose proof (closeIfExpired_splices price timestamp heap self expired index r)
      as Hstep.
    rewrite (Hall r) in Hstep by left.
    rewrite closeIfExpired_open, (Hall r) in * by left. cbv zeta in *.
    set (heap1 := heap_set Position r (close (heap r) price timestamp) heap) in *.
    assert (forall r', r' ∈ refs -> getHasExpired (heap1 r') timestamp = true)
      as Hall1.
    { intros r' Hr'. unfold heap1, heap_set. rewrite decide_False.
      - apply Hall. by right.
      - by intros ->. }
    match goal with
    | |- context [forEach_from _ _ _ (heap1, ?s, ?e)] =>
        set (self1 := s) in *; set (expired1 := e) in *
    end.
    simpl in Hstep. rewrite Hopen, <- Hpre in Hstep.
    destruct rest as [|x [|y rest]].
    + rewrite app_nil_r in Hstep. rewrite splice1_past in Hstep by lia.
      rewrite closeLoop_past; cbn [fst snd]; rewrite Hstep.
      * simpl. by rewrite app_nil_r.
      * lia.
    + rewrite splice1_middle, app_nil_r in Hstep.
      rewrite closeLoop_past; cbn [fst snd]; rewrite Hstep.
      * simpl. by rewrite app_nil_r.
      * lia.
    + rewrite splice1_middle in Hstep.
      rewrite (IH Hdistinct (S index) heap1 self1 expired1 (pre ++ [y]) rest);
        simpl in *.
      * by rewrite <- (assoc_L (++)).
      * done.
      * by rewrite Hstep, <- (assoc_L (++)).
      * rewrite length_app. simpl. lia.
      * lia.
Qed.

(** X19. When every open position has expired, all of them are returned as
    expired, but only those at the even indices 0, 2, 4, ... are removed
    from the list of open positions: the callback splices at the index a
    position had in the copy, and the list has shrunk in the meantime.
    The positions at the odd indices stay open although they were closed. *)
Lemma closeExpiredPositions_all_expired (heap heap' : Heap Position)
  (self self' : Base Study) (price timestamp : double) (expired : list nat) :
  NoDup (openPositions Study self) ->
  (forall r, r ∈ openPositions Study self -> getHasExpired (heap r) timestamp = true) ->
  closeExpiredPositions heap self price timestamp = (heap', self', expired) ->
  expired = openPositions Study self /\
  openPositions Study self' = odds (openPositions Study self).
Proof.
  intros Hdistinct Hall Hrun. split.
  - unfold Base.closeExpiredPositions in Hrun.
    apply closeLoop_expired in Hrun as [-> _]; [|done]. simpl.
    clear Hdistinct. induction (openPositions Study self) as [|r refs IH]; [done|].
    simpl. rewrite (Hall r) by left. f_equal. apply IH.
    intros r' Hr'. apply Hall. by right.
  - unfold Base.closeExpiredPositions in Hrun.
    pose proof (closeLoop_all price timestamp (openPositions Study self) 0 heap self
                  [] [] (openPositions Study self) Hdistinct Hall eq_refl eq_refl
                  (le_n _)) as Hopen.
    by rewrite Hrun in Hopen.
Qed.

(** X20. When exactly one open position has expired, it is closed, returned and
    removed from the list of open positions, and the others stay. *)
Lemma closeExpiredPositions_one_expired (heap heap' : Heap Position)
  (self self' : Base Study) (price timestamp : double) (expired : list nat)
  (before after : list nat) (r : nat) :
  openPositions Study self = before ++ r :: after ->
  NoDup (openPositions Study self) ->
  getHasExpired (heap r) timestamp = true ->
  (forall r', r' ∈ before ++ after -> getHasExpired (heap r') timestamp = false) ->
  closeExpiredPositions heap self price timestamp = (heap', self', expired) ->
  expired = [r] /\
  openPositions Study self' = before ++ after /\
  heap' = heap_set Position r (close (heap r) price timestamp) heap.
Proof.
  intros Hopen Hdistinct Hexpired Hothers Hrun.
  unfold Base.closeExpiredPositions in Hrun.
  rewrite Hopen in Hrun at 1. rewrite Hopen in Hdistinct.
  rewrite forEach_from_app in Hrun.
  rewrite (closeLoop_none price timestamp before 0 (heap, self, [])) in Hrun
    by (intros r' Hr'; apply Hothers, elem_of_app; by left).
  cbn [forEach_from] in Hrun.
  pose proof (closeIfExpired_openPositions price timestamp heap self []
                (0 + length before) r Hexpired) as Hstep.
  pose proof (closeIfExpired_heap price timestamp heap self []
                (0 + length before) r Hexpired) as [Hheap Hreturned].
  rewrite closeLoop_none in Hrun.
  - rewrite Hrun in Hstep, Hheap, Hreturned. simpl in *. split_and!; [done| |done].
    rewrite Hstep, Hopen. apply splice1_middle.
  - intros r' Hr'. rewrite Hheap. unfold heap_set. rewrite decide_False.
    + apply Hothers, elem_of_app. by right.
    + intros ->. apply NoDup_app in Hdistinct as (_ & _ & Hafter).
      by apply NoDup_cons in Hafter as [Hfresh _].
Qed.

(** X21. [closeExpiredPositions] keeps the streak of losses under the recorded
    maximum, and never lowers the maximum or either counter. *)
Lemma closeExpiredPositions_streak (heap heap' : Heap Position)
  (self self' : Base Study) (price timestamp : double) (expired : list nat) :
  consecutiveLosses Study self <= maximumConsecutiveLosses Study self ->
  closeExpiredPositions heap self price timestamp = (heap', self', expired) ->
  consecutiveLosses Study self' <= maximumConsecutiveLosses Study self' /\
  maximumConsecutiveLosses Study self <= maximumConsecutiveLosses Study self' /\
  winCount Study self <= winCount Study self' /\
  loseCount Study self <= loseCount Study self'.
Proof.
  intros Hstreak Hrun. unfold Base.closeExpiredPositions in Hrun.
  pose proof (forEach_from_invariant
    (fun s : Heap Position * Base Study * list nat =>
       consecutiveLosses Study s.1.2 <= maximumConsecutiveLosses Study s.1.2 /\
       maximumConsecutiveLosses Study self <= maximumConsecutiveLosses Study s.1.2 /\
       winCount Study self <= winCount Study s.1.2 /\
       loseCount Study self <= loseCount Study s.1.2)
    (closeIfExpired price timestamp) 0 (openPositions Study self) (heap, self, []))
    as Hinv.
  rewrite Hrun in Hinv. apply Hinv; [simpl; lia|].
  intros [[heap0 self0] expired0] i r (H1 & H2 & H3 & H4). simpl in *.
  unfold Base.closeIfExpired. destruct (getHasExpired (heap0 r) timestamp);
    [|simpl; lia].
  cbv zeta.
  repeat match goal with
         | |- context [if ?b then _ else _] => destruct b
         end; simpl in *; lia.
Qed.

End CloseFacts.

(** * Further properties of the strategy ReversalsCombined *)

Section SignalFacts.

Import ReversalsCombined.

Variable Self : Type.
Variable R : Type.
Variable tick : Self -> DataPoint -> outcome (Self * DataPoint).
Variable getHours : jsval -> double.
Variable getResults : Self -> R.

Local Abbreviation backtestDataPoint :=
  (ReversalsCombined.backtestDataPoint Self R tick getHours).
Local Abbreviation backtest :=
  (ReversalsCombined.backtest Self R tick getHours getResults).

(** The two flags of the tick are the disjunctions over the
    configurations. *)
Lemma nextTick_existsb (previousDataPoint : option DataPoint) (dataPoint : DataPoint)
  (configurations : list Configuration) (next : bool * bool) :
  fold_left
    (fun next configuration =>
       let '(putThisConfiguration, callThisConfiguration) :=
         evaluateConfiguration previousDataPoint dataPoint configuration in
       (next.1 || putThisConfiguration, next.2 || callThisConfiguration))
    configurations next
  = (next.1 ||
       existsb (fun c => (evaluateConfiguration previousDataPoint dataPoint c).1)
         configurations,
     next.2 ||
       existsb (fun c => (evaluateConfiguration previousDataPoint dataPoint c).2)
         configurations).
Proof.
  revert next. induction configurations as [|c configurations IH]; intros next.
  - destruct next. simpl. by rewrite !orb_false_r.
  - simpl. rewrite IH.
    destruct (evaluateConfiguration previousDataPoint dataPoint c). simpl.
    by rewrite !orb_assoc.
Qed.

(** One data point, once [tick] has returned. *)
Lemma backtestDataPoint_run (configurations : list Configuration)
  (self self' : Self) (previousDataPoint : option DataPoint)
  (out : list (Output R)) (dataPoint dataPoint' : DataPoint) :
  tick self dataPoint = Done (self', dataPoint') ->
  backtestDataPoint configurations (self, previousDataPoint, out) dataPoint
  = Done (self', Some dataPoint',
          out ++
          if nightHours getHours dataPoint then []
          else
            (if existsb (fun c => (evaluateConfiguration previousDataPoint dataPoint' c).1)
                  configurations
             then [PutAt (signalTime dataPoint')] else []) ++
            (if existsb (fun c => (evaluateConfiguration previousDataPoint dataPoint' c).2)
                  configurations
             then [CallAt (signalTime dataPoint')] else [])).
Proof.
  intros Htick. unfold ReversalsCombined.backtestDataPoint, nightHours, signalTime.
  rewrite Htick. cbn [mbind outcome_bind].
  destruct (dle dzero _ && dlt _ _); [by rewrite app_nil_r|].
  rewrite nextTick_existsb. cbn [fst snd orb].
  repeat match goal with
         | |- context [if existsb ?f ?l then _ else _] => destruct (existsb f l)
         end; by rewrite ?app_nil_r, <- ?(assoc_L (++)).
Qed.

(** A data point whose [tick] returns leaves the loop body normally, and
    the other way round. *)
Lemma backtestDataPoint_returns (configurations : list Configuration)
  (st st' : Self * option DataPoint * list (Output R)) (dataPoint : DataPoint) :
  backtestDataPoint configurations st dataPoint = Done st' ->
  exists dataPoint', tick st.1.1 dataPoint = Done (st'.1.1, dataPoint') /\
                     st'.1.2 = Some dataPoint'.
Proof.
  destruct st as [[self previousDataPoint] out]. intros Hrun.
  destruct (tick self dataPoint) as [[self' dataPoint']| | |] eqn:Htick.
  - rewrite (backtestDataPoint_run _ _ _ _ _ _ _ Htick) in Hrun.
    simplify_eq. simpl. eauto.
  - unfold ReversalsCombined.backtestDataPoint in Hrun. by rewrite Htick in Hrun.
  - unfold ReversalsCombined.backtestDataPoint in Hrun. by rewrite Htick in Hrun.
  - unfold ReversalsCombined.backtestDataPoint in Hrun. by rewrite Htick in Hrun.
Qed.

(** X22. What [backtest] writes for one data point: a PUT line exactly when the
    hour is not one of 0 to 6 and some configuration keeps its put flag, a
    CALL line likewise, the PUT line first, both with the time one second
    after the data point's. *)
Lemma backtestDataPoint_signals (configurations : list Configuration)
  (self self' : Self) (previousDataPoint : option DataPoint)
  (out : list (Output R)) (dataPoint dataPoint' : DataPoint) :
  tick self dataPoint = Done (self', dataPoint') ->
  exists put call : bool,
    backtestDataPoint configurations (self, previousDataPoint, out) dataPoint
    = Done (self', Some dataPoint',
            out ++ (if put then [PutAt (signalTime dataPoint')] else []) ++
                   (if call then [CallAt (signalTime dataPoint')] else [])) /\
    (put = true <->
       nightHours getHours dataPoint = false /\
       exists c, c ∈ configurations /\
                 (evaluateConfiguration previousDataPoint dataPoint' c).1 = true) /\
    (call = true <->
       nightHours getHours dataPoint = false /\
       exists c, c ∈ configurations /\
                 (evaluateConfiguration previousDataPoint dataPoint' c).2 = true).
Proof.
  intros Htick.
  exists (negb (nightHours getHours dataPoint) &&
          existsb (fun c => (evaluateConfiguration previousDataPoint dataPoint' c).1)
            configurations),
         (negb (nightHours getHours dataPoint) &&
          existsb (fun c => (evaluateConfiguration previousDataPoint dataPoint' c).2)
            configurations).
  split_and!.
  - rewrite (backtestDataPoint_run _ _ _ _ _ _ _ Htick).
    by destruct (nightHours getHours dataPoint).
  - rewrite andb_true_iff, negb_true_iff, existsb_exists.
    by setoid_rewrite <- list_elem_of_In.
  - rewrite andb_true_iff, negb_true_iff, existsb_exists.
    by setoid_rewrite <- list_elem_of_In.
Qed.

(** The loop over data points that all fall in the hours 0 to 6. *)
Lemma backtestLoop_night (configurations : list Configuration)
  (data : list DataPoint) (self : Self) (previousDataPoint : option DataPoint)
  (out : list (Output R)) :
  (forall s d, d ∈ data -> exists s' d', tick s d = Done (s', d')) ->
  (forall d, d ∈ data -> nightHours getHours d = true) ->
  exists self' previousDataPoint',
    foldM (backtestDataPoint configurations) data (self, previousDataPoint, out)
    = Done (self', previousDataPoint', out).
Proof.
  revert self previousDataPoint.
  induction data as [|d data IH]; intros self previousDataPoint Hticks Hnight.
  - simpl. eauto.
  - destruct (Hticks self d) as (self1 & d1 & Htick); [left|].
    cbn [foldM]. rewrite (backtestDataPoint_run _ _ _ _ _ _ _ Htick).
    rewrite (Hnight d), app_nil_r by left. cbn [mbind outcome_bind].
    apply IH.
    + intros s d' Hd'. apply Hticks. by right.
    + intros d' Hd'. apply Hnight. by right.
Qed.

(** X23. Data whose points all fall in the hours 0 to 6: when [tick] returns on
    each of them, [backtest] writes the results line and nothing else,
    whatever the configurations are. *)
Lemma backtest_night_hours (configurations : list Configuration) (self : Self)
  (data : list DataPoint) :
  (forall s d, d ∈ data -> exists s' d', tick s d = Done (s', d')) ->
  (forall d, d ∈ data -> nightHours getHours d = true) ->
  exists self',
    backtest configurations self data = Done (self', [ResultsLine (getResults self')]).
Proof.
  intros Hticks Hnight.
  destruct (backtestLoop_night configurations data self None [] Hticks Hnight)
    as (self' & previousDataPoint' & Hloop).
  exists self'. unfold ReversalsCombined.backtest. by rewrite Hloop.
Qed.

(** The moving-average block clears both flags when one of its two averages
    is missing, zero or not a number. *)
Lemma averagesBlock_falsy (slow fast : jsval) (flags : bool * bool) :
  truthy slow = false \/ truthy fast = false ->
  averagesBlock slow fast flags = (false, false).
Proof.
  intros Hfalsy. destruct flags as [put call]. unfold averagesBlock.
  by destruct Hfalsy as [-> | ->]; rewrite ?orb_true_r.
Qed.

(** It clears the call flag when the slower average is strictly above the
    faster one. *)
Lemma averagesBlock_clears_call (slow fast : jsval) (flags : bool * bool) :
  js_gt slow fast = true -> (averagesBlock slow fast flags).2 = false.
Proof.
  intros Hgt. destruct flags as [put call]. unfold averagesBlock.
  destruct (negb (truthy slow) || negb (truthy fast)); simpl.
  - done.
  - rewrite Hgt. destruct (put && js_lt slow fast); by destruct call.
Qed.

(** No block sets a call flag that is cleared. *)
Lemma averagesBlock_call_stays (slow fast : jsval) (flags : bool * bool) :
  flags.2 = false -> (averagesBlock slow fast flags).2 = false.
Proof.
  destruct flags as [put call]. simpl. intros ->. unfold averagesBlock.
  destruct (negb (truthy slow) || negb (truthy fast)); simpl; [done|].
  by destruct (put && js_lt slow fast).
Qed.

Lemma rsiBlock_call_stays (dataPoint : DataPoint) (r : Rsi) (flags : bool * bool) :
  flags.2 = false -> (rsiBlock dataPoint r flags).2 = false.
Proof.
  destruct flags as [put call]. simpl. intros ->. unfold rsiBlock.
  by destruct (dataPoint !! rsi_rsi r).
Qed.

Lemma prChannelBlock_call_stays (dataPoint : DataPoint) (pr : PrChannel)
  (flags : bool * bool) :
  flags.2 = false -> (prChannelBlock dataPoint pr flags).2 = false.
Proof.
  destruct flags as [put call]. simpl. intros ->. unfold prChannelBlock.
  by destruct (truthy (dataPoint !! pr_upper pr) && truthy (dataPoint !! pr_lower pr)).
Qed.

Lemma trendPrChannelBlock_call_stays (previousDataPoint : option DataPoint)
  (dataPoint : DataPoint) (trend : TrendPrChannel) (flags : bool * bool) :
  flags.2 = false ->
  (trendPrChannelBlock previousDataPoint dataPoint trend flags).2 = false.
Proof.
  destruct flags as [put call]. simpl. intros ->. unfold trendPrChannelBlock.
  destruct previousDataPoint as [previous|]; [|done].
  by destruct (truthy (dataPoint !! trend_regression trend) &&
               truthy (previous !! trend_regression trend)).
Qed.

(** Walks from the last block of a configuration back to the block that
    [leaf] settles, through blocks that keep a cleared flag cleared. *)
Ltac cleared_flag leaf :=
  repeat match goal with
         | |- _ => by leaf
         | |- (match ?x with Some _ => _ | None => _ end).1 = false => destruct x
         | |- (match ?x with Some _ => _ | None => _ end).2 = false => destruct x
         | |- (if ?b then _ else _).1 = false => destruct b
         | |- (if ?b then _ else _).2 = false => destruct b
         | |- (trendPrChannelBlock _ _ _ _).1 = false =>
             apply trendPrChannelBlock_put_stays
         | |- (trendPrChannelBlock _ _ _ _).2 = false =>
             apply trendPrChannelBlock_call_stays
         | |- (prChannelBlock _ _ _).1 = false => apply prChannelBlock_put_stays
         | |- (prChannelBlock _ _ _).2 = false => apply prChannelBlock_call_stays
         | |- (rsiBlock _ _ _).1 = false => apply rsiBlock_put_stays
         | |- (rsiBlock _ _ _).2 = false => apply rsiBlock_call_stays
         | |- (averagesBlock _ _ _).1 = false => apply averagesBlock_put_stays
         | |- (averagesBlock _ _ _).2 = false => apply averagesBlock_call_stays
         end.

(** A configuration with [ema200] and [ema100] set does not ask for a call
    on a data point whose [ema200] is strictly above its [ema100]. *)
Lemma evaluateConfiguration_no_call (previousDataPoint : option DataPoint)
  (dataPoint : DataPoint) (configuration : Configuration) :
  ema200 configuration = true ->
  ema100 configuration = true ->
  js_gt (dataPoint !! "ema200") (dataPoint !! "ema100") = true ->
  (evaluateConfiguration previousDataPoint dataPoint configuration).2 = false.
Proof.
  intros H200 H100 Hgt. unfold evaluateConfiguration. rewrite H200, H100.
  cbn [andb]. cbv zeta.
  cleared_flag ltac:(apply averagesBlock_clears_call).
Qed.

(** A configuration that enables one of the three moving-average blocks
    asks for nothing on a data point that lacks one of the two averages of
    that block, or has it zero. *)
Lemma evaluateConfiguration_missing_average (previousDataPoint : option DataPoint)
  (dataPoint : DataPoint) (configuration : Configuration) :
  ema200 configuration && ema100 configuration = true /\
    (truthy (dataPoint !! "ema200") = false \/ truthy (dataPoint !! "ema100") = false) \/
  ema100 configuration && ema50 configuration = true /\
    (truthy (dataPoint !! "ema100") = false \/ truthy (dataPoint !! "ema50") = false) \/
  ema50 configuration && sma13 configuration = true /\
    (truthy (dataPoint !! "ema50") = false \/ truthy (dataPoint !! "sma13") = false) ->
  evaluateConfiguration previousDataPoint dataPoint configuration = (false, false).
Proof.
  intros Hmissing.
  assert ((evaluateConfiguration previousDataPoint dataPoint configuration).1 = false
          /\ (evaluateConfiguration previousDataPoint dataPoint configuration).2 = false)
    as [Hput Hcall].
  { unfold evaluateConfiguration. cbv zeta.
    split; destruct Hmissing as [[-> H]|[[-> H]|[-> H]]];
      cleared_flag ltac:(rewrite averagesBlock_falsy). }
  destruct (evaluateConfiguration previousDataPoint dataPoint configuration).
  simpl in *. by subst.
Qed.

(** A configuration with [trendPrChannel] set asks for nothing while there
    is no previous data point. *)
Lemma evaluateConfiguration_no_previous (dataPoint : DataPoint)
  (configuration : Configuration) :
  trendPrChannel configuration <> None ->
  evaluateConfiguration None dataPoint configuration = (false, false).
Proof.
  intros Htrend. unfold evaluateConfiguration. cbv zeta.
  destruct (trendPrChannel configuration) as [trend|]; [|done].
  unfold trendPrChannelBlock.
  by repeat match goal with
            | |- (let '(_, _) := ?x in _) = _ => destruct x
            end.
Qed.

(** A configuration that enables no block keeps both flags. *)
Lemma evaluateConfiguration_nothing_enabled (previousDataPoint : option DataPoint)
  (dataPoint : DataPoint) (configuration : Configuration) :
  ema200 configuration && ema100 configuration = false ->
  ema100 configuration && ema50 configuration = false ->
  ema50 configuration && sma13 configuration = false ->
  rsi configuration = None ->
  prChannel configuration = None ->
  trendPrChannel configuration = None ->
  evaluateConfiguration previousDataPoint dataPoint configuration = (true, true).
Proof.
  intros H1 H2 H3 H4 H5 H6. unfold evaluateConfiguration.
  by rewrite H1, H2, H3, H4, H5, H6.
Qed.

(** A test that fails on every element fails on the list. *)
Lemma existsb_false {A : Type} (f : A -> bool) (l : list A) :
  (forall x, x ∈ l -> f x = false) -> existsb f l = false.
Proof.
  intros Hall. induction l as [|x l IH]; [done|]. simpl.
  rewrite (Hall x), IH; [done| |left]. intros y Hy. apply Hall. by right.
Qed.

(** X25. When every configuration of the strategy has [ema200] and [ema100]
    set, and the data point of the tick has [ema200] strictly above
    [ema100], [backtest] writes no CALL line for the tick: the lines
    already written are followed by at most a PUT line. *)
Lemma backtestDataPoint_no_call (configurations : list Configuration)
  (self self' : Self) (previousDataPoint : option DataPoint)
  (out : list (Output R)) (dataPoint dataPoint' : DataPoint) :
  (forall c, c ∈ configurations -> ema200 c = true /\ ema100 c = true) ->
  tick self dataPoint = Done (self', dataPoint') ->
  js_gt (dataPoint' !! "ema200") (dataPoint' !! "ema100") = true ->
  exists out',
    backtestDataPoint configurations (self, previousDataPoint, out) dataPoint
    = Done (self', Some dataPoint', out') /\
    (out' = out \/ out' = out ++ [PutAt (signalTime dataPoint')]).
Proof.
  intros Hconfigurations Htick Hgt.
  rewrite (backtestDataPoint_run _ _ _ _ _ _ _ Htick).
  rewrite (existsb_false (fun c => (evaluateConfiguration _ _ c).2)).
  - eexists. split; [done|].
    destruct (nightHours getHours dataPoint); [rewrite app_nil_r; by left|].
    destruct (existsb _ configurations); rewrite ?app_nil_r; auto.
  - intros c Hc. destruct (Hconfigurations c Hc).
    by apply evaluateConfiguration_no_call.
Qed.

(** X26. When every configuration enables a moving-average block of which the
    data point lacks an average, [backtest] writes nothing for the tick. *)
Lemma backtestDataPoint_missing_average (configurations : list Configuration)
  (self self' : Self) (previousDataPoint : option DataPoint)
  (out : list (Output R)) (dataPoint dataPoint' : DataPoint) :
  (forall c, c ∈ configurations ->
     ema200 c && ema100 c = true /\
       (truthy (dataPoint' !! "ema200") = false \/
        truthy (dataPoint' !! "ema100") = false) \/
     ema100 c && ema50 c = true /\
       (truthy (dataPoint' !! "ema100") = false \/
        truthy (dataPoint' !! "ema50") = false) \/
     ema50 c && sma13 c = true /\
       (truthy (dataPoint' !! "ema50") = false \/
        truthy (dataPoint' !! "sma13") = false)) ->
  tick self dataPoint = Done (self', dataPoint') ->
  backtestDataPoint configurations (self, previousDataPoint, out) dataPoint
  = Done (self', Some dataPoint', out).
Proof.
  intros Hconfigurations Htick.
  rewrite (backtestDataPoint_run _ _ _ _ _ _ _ Htick).
  rewrite !existsb_false.
  - destruct (nightHours getHours dataPoint); by rewrite app_nil_r.
  - intros c Hc.
    by rewrite (evaluateConfiguration_missing_average _ _ _ (Hconfigurations c Hc)).
  - intros c Hc.
    by rewrite (evaluateConfiguration_missing_average _ _ _ (Hconfigurations c Hc)).
Qed.

(** X27. [backtest] starts without a previous data point, and in that state a
    strategy whose configurations all have [trendPrChannel] set writes
    nothing for the data point. *)
Lemma backtestDataPoint_first_with_trend (configurations : list Configuration)
  (self self' : Self) (out : list (Output R)) (dataPoint dataPoint' : DataPoint) :
  (forall c, c ∈ configurations -> trendPrChannel c <> None) ->
  tick self dataPoint = Done (self', dataPoint') ->
  backtestDataPoint configurations (self, None, out) dataPoint
  = Done (self', Some dataPoint', out).
Proof.
  intros Hconfigurations Htick.
  rewrite (backtestDataPoint_run _ _ _ _ _ _ _ Htick).
  rewrite !existsb_false.
  - destruct (nightHours getHours dataPoint); by rewrite app_nil_r.
  - intros c Hc.
    by rewrite (evaluateConfiguration_no_previous _ _ (Hconfigurations c Hc)).
  - intros c Hc.
    by rewrite (evaluateConfiguration_no_previous _ _ (Hconfigurations c Hc)).
Qed.

(** X28. A configuration that enables no block (one with a single moving
    average set, for instance) filters nothing: outside the hours 0 to 6
    the strategy that has it writes a PUT and a CALL line for every data
    point. *)
Lemma backtestDataPoint_nothing_enabled (configurations : list Configuration)
  (configuration : Configuration)
  (self self' : Self) (previousDataPoint : option DataPoint)
  (out : list (Output R)) (dataPoint dataPoint' : DataPoint) :
  configuration ∈ configurations ->
  ema200 configuration && ema100 configuration = false ->
  ema100 configuration && ema50 configuration = false ->
  ema50 configuration && sma13 configuration = false ->
  rsi configuration = None ->
  prChannel configuration = None ->
  trendPrChannel configuration = None ->
  tick self dataPoint = Done (self', dataPoint') ->
  nightHours getHours dataPoint = false ->
  backtestDataPoint configurations (self, previousDataPoint, out) dataPoint
  = Done (self', Some dataPoint',
          out ++ [PutAt (signalTime dataPoint'); CallAt (signalTime dataPoint')]).
Proof.
  intros Hc H1 H2 H3 H4 H5 H6 Htick Hday.
  rewrite (backtestDataPoint_run _ _ _ _ _ _ _ Htick), Hday.
  pose proof (evaluateConfiguration_nothing_enabled previousDataPoint dataPoint'
                configuration H1 H2 H3 H4 H5 H6) as Hflags.
  assert (existsb (fun c => (evaluateConfiguration previousDataPoint dataPoint' c).1)
            configurations = true) as ->.
  { apply existsb_exists. exists configuration.
    split; [by apply list_elem_of_In|by rewrite Hflags]. }
  assert (existsb (fun c => (evaluateConfiguration previousDataPoint dataPoint' c).2)
            configurations = true) as ->.
  { apply existsb_exists. exists configuration.
    split; [by apply list_elem_of_In|by rewrite Hflags]. }
  done.
Qed.

(** The lines the loop adds: at most two for each data point, all of them
    PUT or CALL lines. *)
Lemma backtestLoop_lines (configurations : list Configuration)
  (data : list DataPoint) (st st' : Self * option DataPoint * list (Output R)) :
  foldM (backtestDataPoint configurations) data st = Done st' ->
  exists signals,
    st'.2 = st.2 ++ signals /\
    length signals <= 2 * length data /\
    forallb isSignal signals = true.
Proof.
  revert st. induction data as [|d data IH]; intros st Hrun.
  - simpl in Hrun. simplify_eq. exists []. by rewrite app_nil_r.
  - cbn [foldM] in Hrun. bind_inv Hrun as [[self1 previous1] out1] Hstep.
    destruct (backtestDataPoint_returns _ _ _ _ Hstep) as (d1 & Htick & _).
    destruct st as [[self previousDataPoint] out]. simpl in Htick.
    rewrite (backtestDataPoint_run _ _ _ _ _ _ _ Htick) in Hstep.
    apply IH in Hrun as (signals & Hout & Hlength & Hsignals).
    simplify_eq. cbn [fst snd] in *.
    eexists. split; [by rewrite Hout, <- (assoc_L (++))|].
    rewrite length_app, forallb_app, Hsignals.
    destruct (nightHours getHours d);
      repeat match goal with
             | |- context [if existsb ?f ?l then _ else _] => destruct (existsb f l)
             end; simpl; split; (lia || done).
Qed.

(** X29. The shape of what [backtest] writes when it returns: PUT and CALL
    lines, at most two for each data point, then one results line, taken
    from the strategy as the last [tick] left it. *)
Lemma backtest_lines (configurations : list Configuration) (self self' : Self)
  (data : list DataPoint) (out : list (Output R)) :
  backtest configurations self data = Done (self', out) ->
  exists signals,
    out = signals ++ [ResultsLine (getResults self')] /\
    length signals <= 2 * length data /\
    forallb isSignal signals = true.
Proof.
  intros Hrun. unfold ReversalsCombined.backtest in Hrun.
  bind_inv Hrun as [[self1 previousDataPoint] out1] Hloop.
  apply backtestLoop_lines in Hloop as (signals & Hout & Hlength & Hsignals).
  simpl in *. simplify_eq. eauto.
Qed.

(** The strategy after the loop is what the calls of [tick] leave. *)
Lemma backtestLoop_strategy (configurations : list Configuration)
  (data : list DataPoint) (st st' : Self * option DataPoint * list (Output R)) :
  foldM (backtestDataPoint configurations) data st = Done st' ->
  tickEach tick data st.1.1 = Done st'.1.1.
Proof.
  revert st. induction data as [|d data IH]; intros st Hrun.
  - simpl in *. by simplify_eq.
  - cbn [foldM] in Hrun. bind_inv Hrun as st1 Hstep.
    destruct (backtestDataPoint_returns _ _ _ _ Hstep) as (d1 & Htick & _).
    unfold tickEach. cbn [foldM]. rewrite Htick. cbn [mbind outcome_bind].
    by apply IH.
Qed.

(** X30. [backtest] opens no position and settles none: it changes the strategy
    through [tick] only. When it returns, the strategy is as the calls of
    [tick] on the data points leave it, and the last line written is the
    results of that strategy, whatever the configurations signalled. *)
Lemma backtest_changes_strategy_through_tick
  (configurations : list Configuration) (self self' : Self)
  (data : list DataPoint) (out : list (Output R)) :
  backtest configurations self data = Done (self', out) ->
  tickEach tick data self = Done self' /\
  last out = Some (ResultsLine (getResults self')).
Proof.
  intros Hrun. unfold ReversalsCombined.backtest in Hrun.
  bind_inv Hrun as [[self1 previousDataPoint] out1] Hloop. simplify_eq.
  apply backtestLoop_strategy in Hloop. split; [done|]. by rewrite last_snoc.
Qed.

End SignalFacts.

(** X24. As the sources have it, ReversalsCombined takes [tick] from the base
    class, which throws: [backtest] returns on empty data only. *)
Lemma backtest_inherited_tick (Study : Type)
  (configurations : list ReversalsCombined.Configuration)
  (self : Base.Base Study) (data : list DataPoint) (getHours : jsval -> double) :
  ReversalsCombined.backtest (Base.Base Study) Base.Results (Base.tick Study) getHours
    (Base.getResults Study) configurations self data
  = match data with
    | [] => Done (self, [ReversalsCombined.ResultsLine (Base.getResults Study self)])
    | _ :: _ => Thrown "tick() not implemented."
    end.
Proof. by destruct data. Qed.

(** * The strategy with the [tick] it inherits *)



(** * The further properties at inputs *)

(** A tick with the tags 1.5 and 2 becomes a document with the tags 1 and
    2 and the three fields in the order close, open, timestamp. *)
Lemma convertTickToBson_document_witness :
  exists document tick',
    Optimizer.convertTickToBson twoRows fractionTaggedTick = Done (document, tick') /\
    Optimizer.b_symbol document = "EURUSD" /\
    Optimizer.b_testingGroups document = 1%Z /\
    Optimizer.b_validationGroups document = 2%Z /\
    Optimizer.b_data document =
      [("close", double_of_Z 3); ("open", double_of_Z 2);
       ("timestamp", double_of_Z 1420070400)].
Proof.
  destruct (convertTickToBson_document twoRows fractionTaggedTick
              (ddiv (double_of_Z 3) (double_of_Z 2)) (double_of_Z 2) 1 2)
    as (document & tick' & Hrun & Hsymbol & Htesting & Hvalidation & _);
    [reflexivity..|].
  exists document, tick'. split_and!; [done..|].
  vm_compute in Hrun. by simplify_eq.
Defined.

(** Saving the two ticks adds two documents and records one batch. *)
Lemma saveTicks_appends_witness :
  exists w',
    Optimizer.saveTicks twoRows [0; 1] twoTicks = Done w' /\
    Optimizer.persisted w' = [[0; 1]] /\
    length (Optimizer.datapoints w') = 2.
Proof.
  assert (exists w', Optimizer.saveTicks twoRows [0; 1] twoTicks = Done w')
    as [w' Hrun] by (eexists; vm_compute; reflexivity).
  exists w'. split; [done|].
  destruct (saveTicks_appends twoRows [0; 1] twoTicks w' Hrun)
    as (_ & Hbatch & added & Hadded & Hlength & _).
  split; [by apply Hbatch|]. by rewrite Hadded, length_app, Hlength.
Defined.

(** Saving tick 1 a second time throws. *)
Lemma saveTicks_again_throws_witness :
  exists w',
    Optimizer.saveTicks twoRows [0; 1] twoTicks = Done w' /\
    Optimizer.saveTicks twoRows [1] w' = Thrown "std::out_of_range".
Proof.
  assert (exists w', Optimizer.saveTicks twoRows [0; 1] twoTicks = Done w')
    as [w' Hrun] by (eexists; vm_compute; reflexivity).
  exists w'. split; [done|].
  apply (saveTicks_again_throws twoRows [0; 1] twoTicks w' 1 [] Hrun).
  right. left.
Defined.

(** Two ticks two minutes apart, no study: the first tick is committed
    when the second arrives, and the second never is. *)
Lemma prepareData_last_tick_not_committed_witness :
  exists window w',
    Optimizer.prepareData unit (fun study _ _ => study) (fun _ => [])
      (Optimizer.new_Optimizer "ReversalsCombined" "EURUSD" 0) [0; 1] [] gapTicks
    = Done (window, ([], w')) /\
    Optimizer.committed w' = [0] /\
    1 ∉ Optimizer.committed w'.
Proof.
  assert (exists window w',
            Optimizer.prepareData unit (fun study _ _ => study) (fun _ => [])
              (Optimizer.new_Optimizer "ReversalsCombined" "EURUSD" 0) ([0] ++ [1]) []
              gapTicks
            = Done (window, ([], w')) /\ Optimizer.committed w' = [0])
    as (window & w' & Hrun & Hcommitted)
    by (eexists _, _; split; vm_compute; reflexivity).
  exists window, w'. split_and!; [done|done|].
  apply (prepareData_last_tick_not_committed unit (fun study _ _ => study)
           (fun _ => []) (Optimizer.new_Optimizer "ReversalsCombined" "EURUSD" 0)
           [0] 1 [] [] gapTicks w' window); [compute_done|reflexivity|done].
Defined.

(** The two candidates over the six columns: two copies of one
    configuration. *)
Lemma buildConfigurations_replicates_witness :
  exists c,
    [overboughtOnSix (double_of_Z 80); overboughtOnSix (double_of_Z 80)]
    = replicate (Optimizer.product (Optimizer.axisSizes twoCandidates)) c.
Proof.
  apply (buildConfigurations_replicates twoCandidates (withColumns sixColumns)
           (withColumns sixColumns)); [compute_done|].
  vm_compute. reflexivity.
Defined.


(** Two rows counted and one document found: the first row holds the
    document's two fields and the second row slot stays unset. *)
Lemma loadData_rows_witness :
  exists this',
    Optimizer.loadData 2 [firstDocument] 2
      (Optimizer.new_Optimizer "ReversalsCombined" "EURUSD" 0) = Done this' /\
    Optimizer.dataCount this' = 2%Z /\
    Optimizer.data this' =
      [Some [Some (double_of_Z 1420070400); Some (double_of_Z 2)]; None].
Proof.
  assert (exists this',
            Optimizer.loadData 2 [firstDocument] 2
              (Optimizer.new_Optimizer "ReversalsCombined" "EURUSD" 0) = Done this')
    as [this' Hrun] by (eexists; vm_compute; reflexivity).
  exists this'. split; [done|].
  destruct (loadData_rows 2 [firstDocument] 2 _ this' Hrun)
    as (Hcount & _ & _ & Hdata).
  split; [done|]. rewrite Hdata. reflexivity.
Defined.

(** One row counted and two documents found. *)
Lemma loadData_overflow_witness :
  exists why,
    Optimizer.loadData 1 [firstDocument; firstDocument] 2
      (Optimizer.new_Optimizer "ReversalsCombined" "EURUSD" 0) = Undefined why.
Proof.
  apply loadData_overflow; [lia|]. left. simpl. lia.
Defined.

(** One study with one output, and a tick with that output beside its
    timestamp: the stored document has two data fields, a row one cell. *)
Lemma loadData_row_narrower_than_document_witness :
  exists document tick' why,
    Optimizer.convertTickToBson twoRows studiedTick = Done (document, tick') /\
    Optimizer.loadData 1 [document]
      (Optimizer.getDataPropertyCount (list (string * string)) id oneOutput)
      (Optimizer.new_Optimizer "ReversalsCombined" "EURUSD" 0) = Undefined why.
Proof.
  assert (exists r, Optimizer.convertTickToBson twoRows studiedTick = Done r)
    as [[document tick'] Hconvert] by (eexists; vm_compute; reflexivity).
  destruct (loadData_row_narrower_than_document (list (string * string)) id oneOutput
              twoRows (Optimizer.new_Optimizer "ReversalsCombined" "EURUSD" 0)
              studiedTick tick' document 1 [])
    as [why Hload].
  - compute_done.
  - intros name Hname. apply list_elem_of_singleton in Hname. subst name.
    split_and!; [by eexists|done..].
  - by eexists.
  - done.
  - lia.
  - by exists document, tick', why.
Defined.

(** Over the six columns both configurations have the basic members 0 to
    4, and [dataIndex] reads as before. *)
Lemma buildConfigurations_basic_columns_witness :
  Optimizer.c_open (overboughtOnSix (double_of_Z 80)) = 1%Z /\
  Optimizer.c_close (overboughtOnSix (double_of_Z 80)) = 4%Z.
Proof.
  destruct (buildConfigurations_basic_columns twoCandidates (withColumns sixColumns)
              (withColumns sixColumns)
              [overboughtOnSix (double_of_Z 80); overboughtOnSix (double_of_Z 80)])
    as [Hbasic _].
  - compute_done.
  - vm_compute. reflexivity.
  - destruct (Hbasic (overboughtOnSix (double_of_Z 80))) as (_ & Hopen & _ & _ & Hclose);
      [left|].
    split; [by rewrite Hopen|by rewrite Hclose].
Defined.

(** A load of one document into a fresh optimizer, then the two
    candidates: the column of [open] is 0, although the document has the
    field [open] second. *)
Lemma buildConfigurations_after_loadData_witness :
  Optimizer.c_open (overbought (double_of_Z 80)) = 0%Z.
Proof.
  assert (exists this2,
            Optimizer.buildConfigurations twoCandidates
              (Optimizer.mkOptimizer "ReversalsCombined" "EURUSD" 0 1
                 [Some [Some (double_of_Z 1420070400); Some (double_of_Z 2)]] ∅)
            = Done ([overbought (double_of_Z 80); overbought (double_of_Z 80)], this2))
    as [this2 Hbuild] by (eexists; vm_compute; reflexivity).
  destruct (buildConfigurations_after_loadData 1 [firstDocument] 2 twoCandidates
              (Optimizer.new_Optimizer "ReversalsCombined" "EURUSD" 0) _ this2
              _ (overbought (double_of_Z 80)) ltac:(compute_done) eq_refl Hbuild)
    as (_ & Hopen & _); [left|].
  by rewrite Hopen.
Defined.

(** Two axes of which the second has no candidate. *)
Lemma buildConfigurations_empty_axis_witness :
  exists this',
    Optimizer.buildConfigurations emptyAxis (withColumns sixColumns) = Done ([], this').
Proof.
  apply (buildConfigurations_empty_axis emptyAxis (withColumns sixColumns) "rsi").
  - compute_done.
  - right. left.
Defined.

Lemma buildConfigurations_outcome_witness :
  (exists configurations this',
     Optimizer.buildConfigurations twoCandidates (withColumns sixColumns)
     = Done (configurations, this')) \/
  Optimizer.buildConfigurations twoCandidates (withColumns sixColumns)
  = Thrown "boost::bad_get".
Proof.
  apply buildConfigurations_outcome; [compute_done|discriminate].
Defined.

(** The number 70 for the member [rsi]. *)
Lemma buildConfigurations_bad_get_witness :
  Optimizer.buildConfigurations [("rsi", [numberForColumn])] (withColumns sixColumns)
  = Thrown "boost::bad_get".
Proof.
  apply (buildConfigurations_bad_get "rsi" numberForColumn (withColumns sixColumns) "rsi").
  - compute_done.
  - left. split; [compute_done|]. exists (double_of_Z 70). left.
Defined.

(** [optimize] without configurations over two rows. *)
Lemma optimize_returns_without_backtest_witness :
  Optimizer.optimize recordingStrategy recordingCreate recordingBacktest twoRows []
    (double_of_Z 10) (double_of_Z 1) = Done ([], []) /\
  (@nil Optimizer.Configuration = [] /\ @nil recordingStrategy = [] /\
   @nil (nat * nat) = []).
Proof.
  split; [vm_compute; reflexivity|].
  apply (optimize_returns_without_backtest recordingStrategy recordingCreate
           recordingBacktest twoRows [] (double_of_Z 10) (double_of_Z 1) [] []).
  vm_compute. reflexivity.
Defined.

(** Two rows and one strategy: the strategy is handed row 0 only. *)
Lemma backtestLoop_even_rows_witness :
  exists strategies',
    Optimizer.backtestLoop recordingStrategy recordingBacktest 3 twoRows
      (double_of_Z 10) (double_of_Z 1) 0 ([[]], []) =
    Done (strategies', [(0, 0)]) /\
    length strategies' = 1.
Proof.
  apply (backtestLoop_even_rows recordingStrategy recordingBacktest twoRows
           (double_of_Z 10) (double_of_Z 1) 2 [[]]).
  - reflexivity.
  - intros [|[|r]] Hr; [eexists; reflexivity..|lia].
Defined.

(** Three open positions, all due: all three are returned. *)
Lemma closeExpiredPositions_returns_expired_witness :
  settledThree.2 = [0; 1; 2] /\
  settledThree.1.1 1 = sp_close (halfBack 1) (double_of_Z 1) (double_of_Z 1420070700).
Proof.
  destruct (closeExpiredPositions_returns_expired unit simplePosition
              sp_getHasExpired sp_close sp_getProfitLoss sp_investment halfBack
              settledThree.1.1 threeOpenPositions settledThree.1.2 (double_of_Z 1)
              (double_of_Z 1420070700) settledThree.2)
    as [Hexpired Hheap].
  - compute_done.
  - reflexivity.
  - split; [by rewrite Hexpired|]. by rewrite Hheap.
Defined.

(** No position due: nothing changes. *)
Lemma closeExpiredPositions_none_witness :
  Base.closeExpiredPositions unit simplePosition sp_getHasExpired sp_close
    sp_getProfitLoss sp_investment noneDue threeOpenPositions (double_of_Z 1)
    (double_of_Z 1420070700)
  = (noneDue, threeOpenPositions, []).
Proof.
  apply closeExpiredPositions_none. intros r Hr. reflexivity.
Defined.

(** Three open positions, all due: all three are returned, and position 1
    stays in the list of open positions. *)
Lemma closeExpiredPositions_all_expired_witness :
  settledThree.2 = [0; 1; 2] /\
  Base.openPositions unit settledThree.1.2 = [1].
Proof.
  apply (closeExpiredPositions_all_expired unit simplePosition sp_getHasExpired
           sp_close sp_getProfitLoss sp_investment halfBack settledThree.1.1
           threeOpenPositions settledThree.1.2 (double_of_Z 1)
           (double_of_Z 1420070700) settledThree.2).
  - compute_done.
  - intros r Hr. reflexivity.
  - reflexivity.
Defined.

(** Of the positions 0, 1 and 2 only position 1 is due. *)
Lemma closeExpiredPositions_one_expired_witness :
  settledSecond.2 = [1] /\
  Base.openPositions unit settledSecond.1.2 = [0; 2] /\
  settledSecond.1.1 =
    Base.heap_set simplePosition 1
      (sp_close (onlyPosition1Due 1) (double_of_Z 1) (double_of_Z 1420070700))
      onlyPosition1Due.
Proof.
  apply (closeExpiredPositions_one_expired unit simplePosition sp_getHasExpired
           sp_close sp_getProfitLoss sp_investment onlyPosition1Due
           settledSecond.1.1 threeOpenPositions settledSecond.1.2 (double_of_Z 1)
           (double_of_Z 1420070700) settledSecond.2 [0] [2] 1).
  - reflexivity.
  - compute_done.
  - reflexivity.
  - intros r Hr. apply elem_of_cons in Hr as [->|Hr]; [reflexivity|].
    apply list_elem_of_singleton in Hr. by subst r.
  - reflexivity.
Defined.

(** Three positions lost in a row: the streak and its maximum are 3. *)
Lemma closeExpiredPositions_streak_witness :
  Base.consecutiveLosses unit lostThree.1.2 = 3 /\
  Base.consecutiveLosses unit lostThree.1.2
    <= Base.maximumConsecutiveLosses unit lostThree.1.2.
Proof.
  split; [reflexivity|].
  apply (closeExpiredPositions_streak unit simplePosition sp_getHasExpired
           sp_close sp_getProfitLoss sp_investment allLost lostThree.1.1
           threeOpenPositions lostThree.1.2 (double_of_Z 1)
           (double_of_Z 1420070700) lostThree.2).
  - simpl. lia.
  - reflexivity.
Defined.

(** The falling averages at noon with the moving-average configuration. *)
Lemma backtestDataPoint_signals_witness :
  exists put call : bool,
    ReversalsCombined.backtestDataPoint unit unit keepTick noon [movingAverages]
      (tt, None, []) fallingAverages
    = Done (tt, Some fallingAverages,
            [] ++ (if put then [ReversalsCombined.PutAt (signalTime fallingAverages)]
                   else []) ++
                  (if call then [ReversalsCombined.CallAt (signalTime fallingAverages)]
                   else [])) /\
    put = true /\ call = false.
Proof.
  destruct (backtestDataPoint_signals unit unit keepTick noon [movingAverages] tt tt
              None [] fallingAverages fallingAverages eq_refl)
    as (put & call & Hrun & Hput & Hcall).
  exists put, call. split; [done|]. split.
  - apply Hput. split; [reflexivity|]. exists movingAverages.
    split; [left|vm_compute; reflexivity].
  - destruct call; [|done]. destruct Hcall as [Hcall _].
    destruct (Hcall eq_refl) as (_ & c & Hc & Hflag).
    apply list_elem_of_singleton in Hc. subst c. vm_compute in Hflag. discriminate.
Defined.

(** Two data points at three in the morning. *)
Lemma backtest_night_hours_witness :
  exists self',
    ReversalsCombined.backtest unit unit keepTick threeAM (fun _ => tt)
      [movingAverages] tt [fallingAverages; risingAverages]
    = Done (self', [ReversalsCombined.ResultsLine tt]).
Proof.
  apply (backtest_night_hours unit unit keepTick threeAM (fun _ => tt)
           [movingAverages] tt [fallingAverages; risingAverages]).
  - intros s d Hd. exists s, d. reflexivity.
  - intros d Hd. reflexivity.
Defined.

(** The falling averages have [ema200 = 4 > ema100 = 3]: a PUT line at
    most. *)
Lemma backtestDataPoint_no_call_witness :
  exists out',
    ReversalsCombined.backtestDataPoint unit unit keepTick noon [movingAverages]
      (tt, None, []) fallingAverages
    = Done (tt, Some fallingAverages, out') /\
    (out' = [] \/ out' = [] ++ [ReversalsCombined.PutAt (signalTime fallingAverages)]).
Proof.
  apply (backtestDataPoint_no_call unit unit keepTick noon [movingAverages] tt tt
           None [] fallingAverages fallingAverages).
  - intros c Hc. apply list_elem_of_singleton in Hc. by subst c.
  - reflexivity.
  - vm_compute. reflexivity.
Defined.

(** A data point without averages. *)
Lemma backtestDataPoint_missing_average_witness :
  ReversalsCombined.backtestDataPoint unit unit keepTick noon [movingAverages]
    (tt, None, []) bare
  = Done (tt, Some bare, []).
Proof.
  apply (backtestDataPoint_missing_average unit unit keepTick noon [movingAverages]
           tt tt None [] bare bare); [|reflexivity].
  intros c Hc. apply list_elem_of_singleton in Hc. subst c.
  left. split; [reflexivity|]. left. reflexivity.
Defined.

(** The first data point of a strategy that asks for the trend. *)
Lemma backtestDataPoint_first_with_trend_witness :
  ReversalsCombined.backtestDataPoint unit unit keepTick noon [trendOnly]
    (tt, None, []) fallingAverages
  = Done (tt, Some fallingAverages, []).
Proof.
  apply (backtestDataPoint_first_with_trend unit unit keepTick noon [trendOnly]
           tt tt [] fallingAverages fallingAverages); [|reflexivity].
  intros c Hc. apply list_elem_of_singleton in Hc. by subst c.
Defined.

(** A configuration with [ema200] alone beside the moving-average
    configuration, on a data point without averages. *)
Lemma backtestDataPoint_nothing_enabled_witness :
  ReversalsCombined.backtestDataPoint unit unit keepTick noon
    [movingAverages; onlyEma200] (tt, None, []) bare
  = Done (tt, Some bare,
          [] ++ [ReversalsCombined.PutAt (signalTime bare);
                 ReversalsCombined.CallAt (signalTime bare)]).
Proof.
  apply (backtestDataPoint_nothing_enabled unit unit keepTick noon
           [movingAverages; onlyEma200] onlyEma200 tt tt None [] bare bare);
    try reflexivity.
  right. left.
Defined.

(** The run with one PUT line. *)
Lemma backtest_lines_witness :
  exists signals,
    [ReversalsCombined.PutAt (double_of_Z 1420114600);
     ReversalsCombined.ResultsLine tt]
    = signals ++ [ReversalsCombined.ResultsLine tt] /\
    length signals <= 2 * 1 /\
    forallb isSignal signals = true.
Proof.
  apply (backtest_lines unit unit keepTick noon (fun _ => tt) [movingAverages] tt tt
           [fallingAverages]).
  vm_compute. reflexivity.
Defined.

(** The same run: the strategy and the results are those of [tick]. *)
Lemma backtest_changes_strategy_through_tick_witness :
  tickEach keepTick [fallingAverages] tt = Done tt /\
  last [ReversalsCombined.PutAt (double_of_Z 1420114600);
        ReversalsCombined.ResultsLine tt]
    = Some (ReversalsCombined.ResultsLine tt).
Proof.
  apply (backtest_changes_strategy_through_tick unit unit keepTick noon
           (fun _ => tt) [movingAverages] tt tt [fallingAverages]).
  vm_compute. reflexivity.
Defined.
